(** * LINE calendar assistant: conversation state machine, plan commit,
      background image task and response formatter

    A shallow embedding of
      - [src/handlers/calendarHandler.ts]  (class [CalendarHandler]),
      - [src/utils/responseFormatter.ts]   ([formatEventsForLine]),
    together with the parts of [lineHandler.ts], [mcpClient.ts] and
    [intelligentPlanner.ts] that those two call.

    Conventions.
      - A JavaScript string is a Rocq [string] holding its UTF-8 bytes.
        [JsString.length] recovers the number of UTF-16 code units, which is
        what [String.prototype.length] reports.
      - A [Date] is its time value: [Some t] with [t] the milliseconds since
        the epoch, or [None] for an Invalid Date.  A time value lies within
        8.64e15 ms of the epoch ([JsDate.timeClip]).
      - A number is a binary64 value with its rounding ([JsNumber]); a
        property read as text is missing, [null] or a string ([Js.value]).
      - [await]ed calls to the collaborators (language-model oracle, Google
        Calendar, Google Sheet, LINE push) are steps of the monad [M]; every
        call is logged with its outcome, and what a collaborator answers is
        given by a [World]. *)

From stdpp Require Import gmap strings list fin_maps sorting pretty.
From Stdlib Require Import ZArith Lia Ascii.

Open Scope string_scope.
Open Scope list_scope.
Open Scope Z_scope.

(** ** JavaScript strings *)

Module JsString.

Definition of_bytes (l : list N) : string :=
  foldr (fun b s => String (ascii_of_N b) s) "" l.

(** Number of UTF-16 code units contributed by one UTF-8 byte: a
    continuation byte contributes nothing, the lead byte of a four-byte
    sequence stands for a surrogate pair. *)
Definition units (c : ascii) : nat :=
  let b := N_of_ascii c in
  if (b <? 128)%N then 1%nat
  else if (b <? 192)%N then 0%nat
  else if (b <? 240)%N then 1%nat
  else 2%nat.

(** [s.length] *)
Fixpoint length (s : string) : nat :=
  match s with
  | EmptyString => 0%nat
  | String c r => (units c + length r)%nat
  end.

Fixpoint drop (n : nat) (s : string) : string :=
  match n, s with
  | O, _ => s
  | S n', String _ r => drop n' r
  | S _, EmptyString => EmptyString
  end.

(** The code points ECMAScript strips in [trim]: WhiteSpace and
    LineTerminator, in UTF-8. *)
Definition whiteSpace : list string :=
  map of_bytes
    [ [9]; [10]; [11]; [12]; [13]; [32];
      [194; 160]; [225; 154; 128];
      [226; 128; 128]; [226; 128; 129]; [226; 128; 130]; [226; 128; 131];
      [226; 128; 132]; [226; 128; 133]; [226; 128; 134]; [226; 128; 135];
      [226; 128; 136]; [226; 128; 137]; [226; 128; 138];
      [226; 128; 168]; [226; 128; 169]; [226; 128; 175];
      [226; 129; 159]; [227; 128; 128]; [239; 187; 191] ]%N.

(** Strip one leading member of [table], if there is one. *)
Fixpoint stripOne (table : list string) (s : string) : option string :=
  match table with
  | [] => None
  | w :: table' =>
      if String.prefix w s then Some (drop (String.length w) s)
      else stripOne table' s
  end.

Fixpoint stripAll (table : list string) (fuel : nat) (s : string) : string :=
  match fuel with
  | O => s
  | S fuel' =>
      match stripOne table s with
      | Some r => stripAll table fuel' r
      | None => s
      end
  end.

Definition trimStart (s : string) : string :=
  stripAll whiteSpace (String.length s) s.

Definition trimEnd (s : string) : string :=
  String.rev (stripAll (map String.rev whiteSpace) (String.length s) (String.rev s)).

(** [s.trim()] *)
Definition trim (s : string) : string := trimEnd (trimStart s).

Definition lowerByte (c : ascii) : ascii :=
  let b := N_of_ascii c in
  if ((65 <=? b) && (b <=? 90))%N then ascii_of_N (b + 32) else c.

(** [s.toLowerCase()] on the Basic Latin block; other code points are left
    as they are.  The handler only searches the lowered text for the four
    CJK tokens of [negativeResponses]; lowering never produces nor removes
    a CJK code point, so the search has the same answer as under the full
    Unicode mapping. *)
Fixpoint toLowerCase (s : string) : string :=
  match s with
  | EmptyString => EmptyString
  | String c r => String (lowerByte c) (toLowerCase r)
  end.

(** [s.includes(sub)] *)
Fixpoint includes (s sub : string) : bool :=
  String.prefix sub s ||
  match s with
  | EmptyString => false
  | String _ r => includes r sub
  end.

(** [arr.includes(x)] for an array of strings *)
Definition arrayIncludes (arr : list string) (x : string) : bool :=
  existsb (String.eqb x) arr.

(** Truthiness of an optional string property: present and not empty. *)
Definition truthy (o : option string) : bool :=
  match o with
  | Some s => negb (String.eqb s "")
  | None => false
  end.

(** The line feed written [\n] in the source's template literals. *)
Definition nl : string := String (ascii_of_N 10) EmptyString.

End JsString.

(** ** Values read as text

    A property of a parsed JSON object that the program reads as a string,
    and the value a method declared to return a string does return:
    [undefined] (the property is missing), [null], or a string. *)

Module Js.

Inductive value : Type :=
| undefined
| null
| str (s : string).

#[global] Instance value_eq_dec : EqDecision value.
Proof. solve_decision. Defined.

(** The string, when the value is one. *)
Definition text (v : value) : option string :=
  match v with
  | str s => Some s
  | _ => None
  end.

(** Truthiness: a string that is not empty. *)
Definition truthy (v : value) : bool := JsString.truthy (text v).

(** [`${v}`] *)
Definition show (v : value) : string :=
  match v with
  | undefined => "undefined"
  | null => "null"
  | str s => s
  end.

(** [a || b] *)
Definition orElse (a b : value) : value := if truthy a then a else b.

End Js.

Coercion Js.str : string >-> Js.value.

(** ** Dates

    The host's local time zone is taken to be at a fixed offset from UTC
    (no daylight saving), so that [setDate(getDate() + 1)] adds exactly one
    day. *)

Module JsDate.

Definition msPerHour : Z := 3600000.
Definition msPerDay : Z := 86400000.

(** The largest time value of a [Date]. *)
Definition maxTime : Z := 8640000000000000.

Definition inRange (t : Z) : bool := (- maxTime <=? t) && (t <=? maxTime).

(** [TimeClip]: a time value outside the range makes an Invalid Date.
    Every operation that sets a [Date] ends with it. *)
Definition timeClip (t : Z) : option Z := if inRange t then Some t else None.

Section Local.
(** Offset of local time from UTC, in milliseconds. *)
Variable tz : Z.

Definition localDay (t : Z) : Z := (t + tz) / msPerDay.

(** [d.getDay()]: 0 is Sunday, 6 is Saturday; the epoch was a Thursday. *)
Definition getDay (t : Z) : Z := (localDay t + 4) mod 7.

(** [d.setDate(d.getDate() + n)] *)
Definition addDays (t n : Z) : Z := t + n * msPerDay.

(** [d.setHours(h, 0, 0, 0)] *)
Definition setHours (t h : Z) : Z := localDay t * msPerDay + h * msPerHour - tz.

Definition isWeekend (t : Z) : bool := (getDay t =? 0) || (getDay t =? 6).

(** [while (d.getDay() === 0 || d.getDay() === 6) d.setDate(d.getDate() + 1)],
    unrolled [fuel] times.  [skipWeekend_exits] below shows that two
    rounds are enough for the loop condition to be false. *)
Fixpoint skipWeekendLoop (fuel : nat) (t : Z) : Z :=
  match fuel with
  | O => t
  | S fuel' => if isWeekend t then skipWeekendLoop fuel' (addDays t 1) else t
  end.

Definition skipWeekend (t : Z) : Z := skipWeekendLoop 2 t.
End Local.

(** Civil date of a day number (days since 1970-01-01), proleptic
    Gregorian calendar. *)
Definition civilFromDays (z : Z) : Z * Z * Z :=
  let z := z + 719468 in
  let era := z / 146097 in
  let doe := z - era * 146097 in
  let yoe := (doe - doe / 1460 + doe / 36524 - doe / 146096) / 365 in
  let doy := doe - (365 * yoe + yoe / 4 - yoe / 100) in
  let mp := (5 * doy + 2) / 153 in
  let d := doy - (153 * mp + 2) / 5 + 1 in
  let m := if mp <? 10 then mp + 3 else mp - 9 in
  let y := yoe + era * 400 + (if m <=? 2 then 1 else 0) in
  (y, m, d).

Definition daysFromCivil (y m d : Z) : Z :=
  let y := if m <=? 2 then y - 1 else y in
  let era := y / 400 in
  let yoe := y - era * 400 in
  let mp := if m <=? 2 then m + 9 else m - 3 in
  let doy := (153 * mp + 2) / 5 + d - 1 in
  let doe := yoe * 365 + yoe / 4 - yoe / 100 + doy in
  era * 146097 + doe - 719468.

Definition pad (width : nat) (n : Z) : string :=
  let s := pretty (Z.abs n) in
  String.concat "" (replicate (width - String.length s) "0") +:+ s.

(** [d.toISOString().split('T')[0]] for a valid date: the UTC calendar
    date, with the expanded six-digit year outside 0..9999. *)
Definition isoDate (t : Z) : string :=
  let '(y, m, d) := civilFromDays (t / msPerDay) in
  let year :=
    if (0 <=? y) && (y <=? 9999) then pad 4 y
    else (if y <? 0 then "-" else "+") +:+ pad 6 y in
  year +:+ "-" +:+ pad 2 m +:+ "-" +:+ pad 2 d.

End JsDate.

(** ** Numbers *)

Module JsNumber.

(** A number as [JSON.parse] and the arithmetic of the program give it:
    the binary64 value [mantissa * 2 ^ exponent], an infinity, or NaN.
    The sign of zero is not kept (no operation here depends on it). *)
Inductive t : Type :=
| finite (mantissa exponent : Z)
| infinite (negative : bool)
| nan.

(** [m / 2 ^ k] rounded to the nearest integer, a tie to the even one. *)
Definition shiftRound (m k : Z) : Z :=
  if k <=? 0 then m
  else
    let q := m / 2 ^ k in
    let r := m mod 2 ^ k in
    let half := 2 ^ (k - 1) in
    if r <? half then q
    else if half <? r then q + 1
    else if Z.even q then q else q + 1.

(** The binary64 value nearest to [m * 2 ^ e] (round to nearest, ties to
    even): at most 53 significant bits, no exponent below -1074, and an
    infinity from 2 ^ 1024 on. *)
Definition round (m e : Z) : t :=
  if m =? 0 then finite 0 0
  else
    let bits := Z.log2 (Z.abs m) + 1 in
    let k := Z.max 0 (Z.max (bits - 53) (-1074 - e)) in
    let m' := shiftRound m k in
    let e' := e + k in
    if m' =? 0 then finite 0 0
    else if 1024 <? Z.log2 (Z.abs m') + 1 + e' then infinite (m <? 0)
    else finite m' e'.

(** The number of an integer. *)
Definition ofZ (n : Z) : t := round n 0.

(** [x * y] *)
Definition mul (x y : t) : t :=
  match x, y with
  | nan, _ | _, nan => nan
  | finite m1 e1, finite m2 e2 => round (m1 * m2) (e1 + e2)
  | infinite n, finite m _ | finite m _, infinite n =>
      if m =? 0 then nan else infinite (xorb n (m <? 0))
  | infinite n1, infinite n2 => infinite (xorb n1 n2)
  end.

(** [x + y] *)
Definition add (x y : t) : t :=
  match x, y with
  | nan, _ | _, nan => nan
  | finite m1 e1, finite m2 e2 =>
      let e := Z.min e1 e2 in
      round (m1 * 2 ^ (e1 - e) + m2 * 2 ^ (e2 - e)) e
  | infinite n, finite _ _ | finite _ _, infinite n => infinite n
  | infinite n1, infinite n2 => if Bool.eqb n1 n2 then infinite n1 else nan
  end.

(** Truthiness: every number but zero and NaN. *)
Definition truthy (x : t) : bool :=
  match x with
  | finite m _ => negb (m =? 0)
  | infinite _ => true
  | nan => false
  end.

(** The time value of [new Date(x)]: an Invalid Date when [x] is not
    finite or lies outside the range of [Date], else [x] without its
    fraction. *)
Definition toTime (x : t) : option Z :=
  match x with
  | finite m e =>
      if 0 <=? e then
        if JsDate.maxTime <? Z.abs m * 2 ^ e then None else Some (m * 2 ^ e)
      else
        if JsDate.maxTime * 2 ^ (- e) <? Z.abs m then None
        else Some (Z.quot m (2 ^ (- e)))
  | _ => None
  end.

End JsNumber.

(** ** Data model *)

(** [interface PlanEvent] of calendarHandler.ts, as parsed JSON gives it:
    [summary] is declared mandatory but may be missing or [null] like the
    others.  A number that is missing or [null] is [None]. *)
Module PlanEvent.
Record t : Type := mk {
  summary : Js.value;
  date : Js.value;
  startTime : Js.value;
  duration_hours : option JsNumber.t;
  objectiveId : option Z
}.
End PlanEvent.

(** [interface EventDateTime] and [interface GoogleCalendarEvent] of
    responseFormatter.ts, with the [id] the handler reads. *)
Module EventDateTime.
Record t : Type := mk {
  date : option string;
  dateTime : option string
}.
End EventDateTime.

Module CalendarEvent.
Record t : Type := mk {
  id : string;
  summary : string;
  start : EventDateTime.t;
  end_ : EventDateTime.t
}.
End CalendarEvent.

(** The [params] object of an intent. *)
Module Params.
Record t : Type := mk {
  summary : Js.value;
  startTime : Js.value;
  endTime : Js.value;
  date : Js.value;
  duration_hours : option JsNumber.t;
  timeRange : Js.value;
  query : Js.value;
  response : Js.value;
  title : Js.value;
  dueDate : Js.value;
  objectiveTitle : Js.value
}.

Definition empty : t :=
  mk Js.undefined Js.undefined Js.undefined Js.undefined None Js.undefined
     Js.undefined Js.undefined Js.undefined Js.undefined Js.undefined.

(** [intent.params] used as a plan step, as the image handler does for
    [create_event]. *)
Definition asPlanEvent (p : t) : PlanEvent.t :=
  {| PlanEvent.summary := summary p;
     PlanEvent.date := date p;
     PlanEvent.startTime := startTime p;
     PlanEvent.duration_hours := duration_hours p;
     PlanEvent.objectiveId := None |}.
End Params.

(** What the language model's JSON answer is read as.  [plan] is [None]
    when the property is absent or is not an array. *)
Module Intent.
Record t : Type := mk {
  action : string;
  params : option Params.t;
  plan : option (list PlanEvent.t);
  objectiveTitle : option string;
  source : option string;
  error : option string
}.
End Intent.

Module Objective.
Record t : Type := mk {
  objective_id : Z;
  title : string;
  due_date : option string
}.
End Objective.

(** A stored knowledge note is opaque to the handler. *)
Definition KnowledgeData : Type := string.

(** The parsed [state_json]: an object whose [status] selects the case of
    the handler's [switch].  The states are those the handler writes itself,
    and any other tag.  A stored plan is [None] when the object has no
    [plan] property (the handler stores [intent.plan] as it is). *)
Inductive UserState : Type :=
| waiting_confirmation (plan : option (list PlanEvent.t))
| waiting_delete_confirmation (events : list CalendarEvent.t)
| waiting_plan_correction (partialPlan : Intent.t)
| waiting_knowledge_action (noteId : option Z)
| unrecognized (status : string).

(** The [state_json] cell of a user row, kept with what [JSON.parse] makes of
    it: the cell is empty (a falsy string, not parsed at all), its text is
    not JSON, it parses to a falsy value such as [null], or it parses to a
    state object. *)
Inductive StateJson : Type :=
| json_absent
| json_invalid (raw : string)
| json_null
| json_state (st : UserState).

Module User.
Record t : Type := mk {
  id : Z;
  line_user_id : string;
  state_json : StateJson
}.
End User.

Module UserContext.
Record t : Type := mk {
  rowNumber : Z;
  user : User.t
}.
End UserContext.

(** A [dateTime] sent to the calendar: [iso t] is the text
    [new Date(t).toISOString()], [raw s] a string passed on as received. *)
Inductive DateTimeText : Type :=
| iso (t : Z)
| raw (s : string).

(** The [eventData] handed to [createEvent]; [timeZone] is always
    ['Asia/Taipei']. *)
Module EventData.
Record t : Type := mk {
  summary : Js.value;
  start : DateTimeText;
  end_ : DateTimeText
}.
End EventData.

(** The [selection] answered by [parseDeletionChoice]. *)
Inductive Selection : Type :=
| sel_all
| sel_none
| sel_indices (indices : list Z)
| sel_other.

(** ** Effects *)

Inductive Exn : Type :=
| TypeError
| RangeError
| SyntaxError
| ServiceError (msg : string).

Inductive Outcome (A : Type) : Type :=
| Ret (a : A)
| Throw (e : Exn).
Arguments Ret {A} a.
Arguments Throw {A} e.

Definition isRet {A : Type} (o : Outcome A) : bool :=
  match o with Ret _ => true | Throw _ => false end.

(** Calls to the collaborators. *)
Inductive Call : Type :=
(* GoogleSheetService *)
| SetUserState (rowNumber : Z) (state : option UserState)
| FindObjectiveByTitle (userId : Z) (title : option string)
| LinkNoteToObjective (noteId objectiveId : Z)
| GetKnowledgeNoteById (noteId : Z)
| CreateLearningObjective (userId : Z) (title : string) (dueDate : option string)
| LinkEventToObjective (objectiveId : Z) (eventId : string)
| SaveKnowledgeNote (userId : Z) (intent : Intent.t)
(* GoogleCalendarService *)
| CreateEvent (eventData : EventData.t)
| DeleteEventById (eventId : string)
| SearchEvents (query : string)
| ListEvents (timeRange : string)
(* IntelligentPlanner *)
| UnderstandAndPlan (userInput : string)
| ModifyPlan (originalPlan : option (list PlanEvent.t)) (request : string)
| ParseDeletionChoice (request : string) (numberOfOptions : nat)
| MergePlanWithCorrection (partialPlan : Intent.t) (correction : string)
| ProcessKnowledge (knowledgeData : KnowledgeData) (goal : string)
| GeneratePlanForObjective (objectiveTitle : string)
| AnalyzeImageAndPlan (imageBuffer : string)
(* LineHandler *)
| PushMessage (userId : string) (text : string).

(** One logged call: what was asked and whether it returned ([true]) or
    threw ([false]). *)
Module Entry.
Record t : Type := mk {
  call : Call;
  ok : bool
}.
End Entry.

Definition History : Type := list Entry.t.

(** A computation reads the history so far and yields its outcome with the
    calls it made itself, oldest first. *)
Definition M (A : Type) : Type := History -> Outcome A * list Entry.t.

Definition ret {A : Type} (a : A) : M A := fun _ => (Ret a, []).

Definition throw {A : Type} (e : Exn) : M A := fun _ => (Throw e, []).

Definition bind {A B : Type} (m : M A) (k : A -> M B) : M B :=
  fun h =>
    match m h with
    | (Ret a, l1) => let '(r, l2) := k a (h ++ l1) in (r, l1 ++ l2)
    | (Throw e, l1) => (Throw e, l1)
    end.

(** [try { m } catch (error) { handler }] *)
Definition try_catch {A : Type} (m : M A) (handler : Exn -> M A) : M A :=
  fun h =>
    match m h with
    | (Ret a, l1) => (Ret a, l1)
    | (Throw e, l1) => let '(r, l2) := handler e (h ++ l1) in (r, l1 ++ l2)
    end.

(** A pure computation that may throw. *)
Definition lift {A : Type} (o : Outcome A) : M A := fun _ => (o, []).

(** One call to a collaborator whose answer is [answer]. *)
Definition perform {A : Type} (c : Call) (answer : History -> Outcome A) : M A :=
  fun h => let o := answer h in (o, [Entry.mk c (isRet o)]).

Notation "x <- m ;; k" := (bind m (fun x => k))
  (at level 100, m at next level, right associativity).
Notation "m ;;; k" := (bind m (fun _ => k))
  (at level 100, right associativity).

(** ** Collaborators *)

(** [IntelligentPlanner]: each method is one round trip to the language
    model whose JSON answer is not determined by the program. *)
Module Oracle.
Record t : Type := mk {
  understandAndPlan : History -> string -> Outcome Intent.t;
  modifyPlan : History -> option (list PlanEvent.t) -> string -> Outcome Intent.t;
  parseDeletionChoice : History -> string -> nat -> Outcome Selection;
  mergePlanWithCorrection : History -> Intent.t -> string -> Outcome Intent.t;
  processKnowledge : History -> KnowledgeData -> string -> Outcome string;
  generatePlanForObjective : History -> string -> Outcome Intent.t;
  analyzeImageAndPlan : History -> string -> Outcome Intent.t
}.
End Oracle.

(** [GoogleCalendarService] (mcpClient.ts): [createEvent] and
    [deleteEventById] rethrow what the calendar API throws. *)
Module EventStore.
Record t : Type := mk {
  createEvent : History -> EventData.t -> Outcome CalendarEvent.t;
  deleteEventById : History -> string -> Outcome unit;
  searchEvents : History -> string -> Outcome (list CalendarEvent.t);
  listEvents : History -> string -> Outcome (list CalendarEvent.t)
}.
End EventStore.

(** [GoogleSheetService], as the handler sees it: its methods are calls
    with the signatures the handler uses.  The service itself is [Sheet]
    below. *)
Module UserStore.
Record t : Type := mk {
  setUserState : History -> Z -> option UserState -> Outcome unit;
  findObjectiveByTitle : History -> Z -> option string -> Outcome (option Objective.t);
  linkNoteToObjective : History -> Z -> Z -> Outcome unit;
  getKnowledgeNoteById : History -> Z -> Outcome (option KnowledgeData);
  createLearningObjective :
    History -> Z -> string -> option string -> Outcome Objective.t;
  linkEventToObjective : History -> Z -> string -> Outcome unit;
  saveKnowledgeNote : History -> Z -> Intent.t -> Outcome Z
}.
End UserStore.

Class World : Type := {
  oracle : Oracle.t;
  eventStore : EventStore.t;
  userStore : UserStore.t;
  (** [LineHandler.pushMessage] rethrows what the LINE client throws. *)
  pushMessage_answer : History -> string -> string -> Outcome unit;
  (** the time value of [new Date()] *)
  now : History -> Z
}.

(** What the JavaScript host decides: the local time zone, how a string is
    read as a date and how a date is written in the [zh-TW] locale. *)
Class Host : Type := {
  tzOffsetMs : Z;
  (** the time value of [new Date(s)], [None] for an Invalid Date *)
  Date_parse : string -> option Z;
  (** [d.toLocaleDateString('zh-TW')] *)
  toLocaleDateString : option Z -> string;
  (** [d.toLocaleDateString('zh-TW', { year, month: 'long', day, weekday: 'long' })] *)
  toLocaleDateStringLong : option Z -> string;
  (** [d.toLocaleString('zh-TW')] *)
  toLocaleString : option Z -> string;
  (** [d.toLocaleString('zh-TW', { timeZone: 'Asia/Taipei' })] *)
  toLocaleStringTaipei : option Z -> string;
  (** [d.toLocaleTimeString('zh-TW', { hour: '2-digit', minute: '2-digit', hour12: false })] *)
  toLocaleTimeString : option Z -> string;
  (** [`${x}`] for a number *)
  Number_toString : JsNumber.t -> string
}.

(** ** Texts *)

Import JsString (nl).

(** [`${x}`] for a string property that may be [undefined] *)
Definition show (o : option string) : string := default "undefined" o.

(** [a || b] on optional strings *)
Definition orElse (a b : option string) : option string :=
  if JsString.truthy a then a else b.

(** Truthiness of an optional number *)
Definition truthyNum (o : option Z) : bool :=
  match o with
  | Some n => negb (n =? 0)
  | None => false
  end.

Section Program.
Context {host : Host} {world : World}.

(** [new Date(x)] for a property that may be [undefined] *)
Definition newDate (o : option string) : option Z :=
  match o with
  | Some s => Date_parse s
  | None => None
  end.

(** [d.toISOString()] throws a RangeError on an Invalid Date; a time value
    outside the range of [Date] is one. *)
Definition toISOString (d : option Z) : Outcome Z :=
  match d with
  | Some t => if JsDate.inRange t then Ret t else Throw RangeError
  | None => Throw RangeError
  end.

(** [d.setDate(d.getDate() + 1)] *)
Definition nextDay (d : option Z) : option Z :=
  match d with
  | Some t => JsDate.timeClip (JsDate.addDays t 1)
  | None => None
  end.

(** [new Date(d.getTime() + hours * 60 * 60 * 1000)], in the arithmetic of
    numbers. *)
Definition plusHours (d : option Z) (hours : JsNumber.t) : option Z :=
  match d with
  | Some t =>
      JsNumber.toTime
        (JsNumber.add (JsNumber.ofZ t)
           (JsNumber.mul
              (JsNumber.mul (JsNumber.mul hours (JsNumber.ofZ 60)) (JsNumber.ofZ 60))
              (JsNumber.ofZ 1000)))
  | None => None
  end.

(** A text returned where the caller is given a value. *)
Definition returning (m : M string) : M Js.value :=
  text <- m ;; ret (Js.str text).

Definition Date_now : M Z := fun h => (Ret (now h), []).

(** *** mcpClient.ts: GoogleCalendarService *)

Definition createEvent (eventData : EventData.t) : M CalendarEvent.t :=
  perform (CreateEvent eventData)
          (fun h => EventStore.createEvent eventStore h eventData).

Definition deleteEventById (eventId : string) : M unit :=
  try_catch
    (perform (DeleteEventById eventId)
             (fun h => EventStore.deleteEventById eventStore h eventId))
    (fun _ => throw (ServiceError "刪除 Google Calendar 事件時發生錯誤。")).

Definition searchEvents (query : string) : M (list CalendarEvent.t) :=
  try_catch
    (perform (SearchEvents query)
             (fun h => EventStore.searchEvents eventStore h query))
    (fun _ => ret []).

Definition listEvents (timeRange : string) : M (list CalendarEvent.t) :=
  try_catch
    (perform (ListEvents timeRange)
             (fun h => EventStore.listEvents eventStore h timeRange))
    (fun _ => ret []).

(** *** GoogleSheetService *)

Definition setUserState (rowNumber : Z) (state : option UserState) : M unit :=
  perform (SetUserState rowNumber state)
          (fun h => UserStore.setUserState userStore h rowNumber state).

Definition findObjectiveByTitle (userId : Z) (title : option string) : M (option Objective.t) :=
  perform (FindObjectiveByTitle userId title)
          (fun h => UserStore.findObjectiveByTitle userStore h userId title).

Definition linkNoteToObjective (noteId objectiveId : Z) : M unit :=
  perform (LinkNoteToObjective noteId objectiveId)
          (fun h => UserStore.linkNoteToObjective userStore h noteId objectiveId).

Definition getKnowledgeNoteById (noteId : Z) : M (option KnowledgeData) :=
  perform (GetKnowledgeNoteById noteId)
          (fun h => UserStore.getKnowledgeNoteById userStore h noteId).

Definition createLearningObjective (userId : Z) (title : string)
           (dueDate : option string) : M Objective.t :=
  perform (CreateLearningObjective userId title dueDate)
          (fun h => UserStore.createLearningObjective userStore h userId title dueDate).

Definition linkEventToObjective (objectiveId : Z) (eventId : string) : M unit :=
  perform (LinkEventToObjective objectiveId eventId)
          (fun h => UserStore.linkEventToObjective userStore h objectiveId eventId).

Definition saveKnowledgeNote (userId : Z) (intent : Intent.t) : M Z :=
  perform (SaveKnowledgeNote userId intent)
          (fun h => UserStore.saveKnowledgeNote userStore h userId intent).

(** *** lineHandler.ts *)

Definition pushMessage (userId text : string) : M unit :=
  perform (PushMessage userId text)
          (fun h => pushMessage_answer h userId text).

(** *** intelligentPlanner.ts

    Each method wraps the round trip and the [JSON.parse] of the answer in
    a [try] whose [catch] returns a fixed fallback. *)

Definition clarify (response : string) : Intent.t :=
  {| Intent.action := "clarify_or_reject";
     Intent.params := Some
       {| Params.summary := Js.undefined; Params.startTime := Js.undefined;
          Params.endTime := Js.undefined; Params.date := Js.undefined;
          Params.duration_hours := None; Params.timeRange := Js.undefined;
          Params.query := Js.undefined; Params.response := Js.str response;
          Params.title := Js.undefined; Params.dueDate := Js.undefined;
          Params.objectiveTitle := Js.undefined |};
     Intent.plan := None; Intent.objectiveTitle := None;
     Intent.source := None; Intent.error := None |}.

Definition understandAndPlan (userInput : string) : M Intent.t :=
  try_catch
    (perform (UnderstandAndPlan userInput)
             (fun h => Oracle.understandAndPlan oracle h userInput))
    (fun _ => ret (clarify "抱歉，我的 AI 大腦暫時短路了，請稍後再試一次。")).

(** An answer that is a bare array is read here as an intent without
    [action] whose [plan] is that array; both it and an object without
    [action] leave as a [plan_complex_task]. *)
Definition modifyPlan (originalPlan : option (list PlanEvent.t))
           (modificationRequest : string) : M Intent.t :=
  try_catch
    (parsedJson <- perform (ModifyPlan originalPlan modificationRequest)
                     (fun h => Oracle.modifyPlan oracle h originalPlan modificationRequest) ;;
     if String.eqb (Intent.action parsedJson) "" then
       ret {| Intent.action := "plan_complex_task";
              Intent.params := Intent.params parsedJson;
              Intent.plan := Intent.plan parsedJson;
              Intent.objectiveTitle := Intent.objectiveTitle parsedJson;
              Intent.source := Intent.source parsedJson;
              Intent.error := Intent.error parsedJson |}
     else ret parsedJson)
    (fun _ => ret (clarify "抱歉，我在修改計畫時遇到了一些困難，請您重新提出一次完整的規劃需求。")).

Definition parseDeletionChoice (selectionRequest : string)
           (numberOfOptions : nat) : M Selection :=
  try_catch
    (perform (ParseDeletionChoice selectionRequest numberOfOptions)
             (fun h => Oracle.parseDeletionChoice oracle h selectionRequest numberOfOptions))
    (fun _ => ret sel_none).

Definition mergePlanWithCorrection (partialPlan : Intent.t)
           (userCorrection : string) : M Intent.t :=
  try_catch
    (perform (MergePlanWithCorrection partialPlan userCorrection)
             (fun h => Oracle.mergePlanWithCorrection oracle h partialPlan userCorrection))
    (fun _ => ret {| Intent.action := Intent.action partialPlan;
                     Intent.params := Intent.params partialPlan;
                     Intent.plan := Intent.plan partialPlan;
                     Intent.objectiveTitle := Intent.objectiveTitle partialPlan;
                     Intent.source := Intent.source partialPlan;
                     Intent.error := Some "合併修正時發生錯誤" |}).

Definition processKnowledge (knowledgeData : KnowledgeData) (goal : string) : M string :=
  try_catch
    (perform (ProcessKnowledge knowledgeData goal)
             (fun h => Oracle.processKnowledge oracle h knowledgeData goal))
    (fun _ => ret "抱歉，我在處理您的請求時遇到了一些困難，請稍後再試。").

Definition generatePlanForObjective (objectiveTitle : string) : M Intent.t :=
  try_catch
    (perform (GeneratePlanForObjective objectiveTitle)
             (fun h => Oracle.generatePlanForObjective oracle h objectiveTitle))
    (fun _ => ret {| Intent.action := "plan_complex_task";
                     Intent.params := None; Intent.plan := Some [];
                     Intent.objectiveTitle := None; Intent.source := None;
                     Intent.error := None |}).

Definition analyzeImageAndPlan (imageBuffer : string) : M Intent.t :=
  try_catch
    (perform (AnalyzeImageAndPlan imageBuffer)
             (fun h => Oracle.analyzeImageAndPlan oracle h imageBuffer))
    (fun _ => ret (clarify "抱歉，我無法成功辨識這張圖片的內容，請您換一張圖片或直接用文字告訴我需求。")).

(** *** responseFormatter.ts *)

Definition formatEventTime (event : CalendarEvent.t) : string :=
  let start := CalendarEvent.start event in
  if JsString.truthy (EventDateTime.dateTime start) then
    let startTime := toLocaleTimeString (newDate (EventDateTime.dateTime start)) in
    let endDateTime := EventDateTime.dateTime (CalendarEvent.end_ event) in
    let endTime :=
      if JsString.truthy endDateTime then toLocaleTimeString (newDate endDateTime)
      else "" in
    if negb (String.eqb endTime "") then
      nl +:+ "   🕐 " +:+ startTime +:+ " - " +:+ endTime
    else nl +:+ "   🕐 " +:+ startTime
  else " (全天)".

(** The body of the grouping [forEach]: what one event does to the map.
    An event without start is skipped; a start that is not a date makes
    [toISOString] throw. *)
Definition groupEvent (eventsByDate : gmap string (list CalendarEvent.t))
           (event : CalendarEvent.t) : Outcome (gmap string (list CalendarEvent.t)) :=
  let start := CalendarEvent.start event in
  let startDateTime := orElse (EventDateTime.dateTime start) (EventDateTime.date start) in
  if negb (JsString.truthy startDateTime) then Ret eventsByDate
  else
    match toISOString (newDate startDateTime) with
    | Throw e => Throw e
    | Ret t =>
        let dateKey := JsDate.isoDate t in
        Ret (<[dateKey := default [] (eventsByDate !! dateKey) ++ [event]]> eventsByDate)
    end.

Fixpoint groupEvents (eventsByDate : gmap string (list CalendarEvent.t))
         (events : list CalendarEvent.t) : Outcome (gmap string (list CalendarEvent.t)) :=
  match events with
  | [] => Ret eventsByDate
  | event :: rest =>
      match groupEvent eventsByDate event with
      | Throw e => Throw e
      | Ret m => groupEvents m rest
      end
  end.

(** The order of [Array.prototype.sort()] without comparator, on strings. *)
Definition strLe (a b : string) : Prop := String.leb a b = true.

#[local] Instance strLe_dec (a b : string) : Decision (strLe a b).
Proof. unfold strLe. apply _. Defined.

(** Step 2 of [formatEventsForLine]: the text for the grouped events.
    With exactly one date the events of that date are numbered; otherwise
    there is one section per date, the dates sorted, headed by the number
    [total] of events received. *)
Definition renderGroups (total : nat)
           (eventsByDate : gmap string (list CalendarEvent.t)) : string :=
  match map_to_list eventsByDate with
  | [(dateKey, dailyEvents)] =>
      let displayDate := Date_parse (dateKey +:+ "T00:00:00") in
      "📅 您在 " +:+ toLocaleDateString displayDate +:+ " 有 "
      +:+ pretty (length dailyEvents) +:+ " 個行程:" +:+ nl
      +:+ String.concat ""
            (imap (fun index event =>
                     nl +:+ pretty (index + 1)%nat +:+ ". "
                     +:+ CalendarEvent.summary event
                     +:+ formatEventTime event)
                  dailyEvents)
  | _ =>
      let sortedDates := merge_sort strLe (map fst (map_to_list eventsByDate)) in
      "📅 為您找到跨越多日的 " +:+ pretty total +:+ " 個行程：" +:+ nl
      +:+ String.concat ""
            (map (fun dateKey =>
                    let displayDate := Date_parse (dateKey +:+ "T00:00:00") in
                    let dailyEvents := default [] (eventsByDate !! dateKey) in
                    nl +:+ "--- " +:+ toLocaleDateStringLong displayDate
                    +:+ " ---" +:+ nl
                    +:+ String.concat ""
                          (map (fun event =>
                                  "  - " +:+ CalendarEvent.summary event
                                  +:+ formatEventTime event +:+ nl)
                               dailyEvents))
                 sortedDates)
  end.

Definition formatEventsForLine (events : list CalendarEvent.t) : Outcome string :=
  match events with
  | [] => Ret "📅 太好了，這段時間內沒有任何安排！"
  | _ =>
      match groupEvents ∅ events with
      | Throw e => Throw e
      | Ret eventsByDate => Ret (renderGroups (length events) eventsByDate)
      end
  end.

(** The date an event is filed under: [None] when it has no start (it is
    skipped), a RangeError when its start is not a date. *)
Definition dateKeyOf (event : CalendarEvent.t) : option (Outcome string) :=
  let start := CalendarEvent.start event in
  let startDateTime := orElse (EventDateTime.dateTime start) (EventDateTime.date start) in
  if negb (JsString.truthy startDateTime) then None
  else
    match toISOString (newDate startDateTime) with
    | Throw e => Some (Throw e)
    | Ret t => Some (Ret (JsDate.isoDate t))
    end.

(** The event is filed under [dateKey]. *)
Definition onDate (dateKey : string) (event : CalendarEvent.t) : bool :=
  match dateKeyOf event with
  | Some (Ret key) => String.eqb key dateKey
  | _ => false
  end.

(** No event has a start that is not a date. *)
Definition allDated (events : list CalendarEvent.t) : bool :=
  forallb (fun event => match dateKeyOf event with
                        | Some (Throw _) => false
                        | _ => true
                        end) events.

(** *** calendarHandler.ts: CalendarHandler *)

Definition formatPlanStep (index : nat) (item : PlanEvent.t) : string :=
  "🗓️ **階段 " +:+ pretty (index + 1)%nat +:+ ": "
    +:+ Js.show (PlanEvent.summary item) +:+ "**" +:+ nl
  +:+ (if Js.truthy (PlanEvent.date item) then
         let displayDate := Date_parse (Js.show (PlanEvent.date item) +:+ "T00:00:00") in
         "   - **日期:** " +:+ toLocaleDateString displayDate +:+ nl
       else "")
  +:+ (if Js.truthy (PlanEvent.startTime item) then
         let displayTime := newDate (Js.text (PlanEvent.startTime item)) in
         "   - **時間:** " +:+ toLocaleString displayTime +:+ nl
       else "")
  +:+ (match PlanEvent.duration_hours item with
       | Some duration_hours =>
           if JsNumber.truthy duration_hours then
             "   - **時長:** 約 " +:+ Number_toString duration_hours +:+ " 小時" +:+ nl
           else ""
       | None => ""
       end)
  +:+ nl.

Definition confirmPrompt : string :=
  "如果您同意這個規劃，請回覆「好」，我就會將它排入您的行事曆！(或提出您的修改意見)".

(** [plan.forEach] throws a TypeError when [plan] is not an array. *)
Definition formatPlanForConfirmation (plan : option (list PlanEvent.t))
           (showGreeting : bool) : Outcome string :=
  match plan with
  | None => Throw TypeError
  | Some plan =>
      Ret ((if showGreeting then "這是為您建議的計畫草案，您覺得如何？" +:+ nl +:+ nl else "")
           +:+ String.concat "" (imap formatPlanStep plan)
           +:+ confirmPrompt)
  end.

(** The loop [while (d.getDay() === 0 || d.getDay() === 6)
    d.setDate(d.getDate() + 1)] on a cursor that may be an Invalid Date.
    [getDay] of an Invalid Date is NaN, which ends the loop.  The loop only
    adds days, so a round that leaves the range of [Date] (each [setDate]
    clips) is one after which the date reached without clipping is out of
    range as well: clipping that date is what the loop leaves. *)
Definition skipWeekendDate (d : option Z) : option Z :=
  match d with
  | Some t => JsDate.timeClip (JsDate.skipWeekend tzOffsetMs t)
  | None => None
  end.

(** The three ways a step gets its start in [handleCreatePlan]: the start
    (possibly an Invalid Date) and the cursor [nextAvailableDate] left for
    the following steps. *)
Definition stepStart (nextAvailableDate : option Z) (item : PlanEvent.t)
  : option Z * option Z :=
  if Js.truthy (PlanEvent.date item) then
    (Date_parse (Js.show (PlanEvent.date item) +:+ "T09:00:00"), nextAvailableDate)
  else if Js.truthy (PlanEvent.startTime item) then
    (newDate (Js.text (PlanEvent.startTime item)), nextAvailableDate)
  else
    let skipped := skipWeekendDate nextAvailableDate in
    (skipped, nextDay skipped).

(** [item.duration_hours || 1] *)
Definition durationOf (item : PlanEvent.t) : JsNumber.t :=
  match PlanEvent.duration_hours item with
  | Some duration_hours =>
      if JsNumber.truthy duration_hours then duration_hours else JsNumber.ofZ 1
  | None => JsNumber.ofZ 1
  end.

(** The [try] block of the loop body, giving the new [createdCount].
    [createdCount++] comes before the link call, so a link that throws
    leaves the step counted; the [catch] only logs. *)
Definition tryCreate (eventData : EventData.t) (item : PlanEvent.t)
           (createdCount : nat) : M nat :=
  try_catch
    (createdEvent <- createEvent eventData ;;
     if truthyNum (PlanEvent.objectiveId item) then
       try_catch
         (linkEventToObjective (default 0 (PlanEvent.objectiveId item))
                               (CalendarEvent.id createdEvent) ;;;
          ret (S createdCount))
         (fun _ => ret (S createdCount))
     else ret (S createdCount))
    (fun _ => ret createdCount).

(** [for (const item of plan)], threading [createdCount] and
    [nextAvailableDate]. *)
Fixpoint commitSteps (plan : list PlanEvent.t) (createdCount : nat)
         (nextAvailableDate : option Z) : M nat :=
  match plan with
  | [] => ret createdCount
  | item :: rest =>
      let '(eventStart, nextAvailableDate) := stepStart nextAvailableDate item in
      let eventEnd := plusHours eventStart (durationOf item) in
      start <- lift (toISOString eventStart) ;;
      end_ <- lift (toISOString eventEnd) ;;
      let eventData :=
        {| EventData.summary := PlanEvent.summary item;
           EventData.start := iso start;
           EventData.end_ := iso end_ |} in
      createdCount <- tryCreate eventData item createdCount ;;
      commitSteps rest createdCount nextAvailableDate
  end.

Definition createdText (createdCount : nat) : string :=
  "✅ 太棒了！已為您將 " +:+ pretty createdCount
  +:+ " 個任務行程新增到您的 Google Calendar！".

Definition nothingCreatedText : string :=
  "⚠️ 雖然收到了您的指令，但沒有成功新增任何行程，請檢查後再試。".

(** Tomorrow at 09:00 local time. *)
Definition firstAvailableDate (t : Z) : Z :=
  JsDate.setHours tzOffsetMs (JsDate.addDays t 1) 9.

(** The first cursor: [new Date()], then [setDate(getDate() + 1)], then
    [setHours(9, 0, 0, 0)]. *)
Definition firstCursor (t : Z) : option Z :=
  match nextDay (JsDate.timeClip t) with
  | Some tomorrow => JsDate.timeClip (JsDate.setHours tzOffsetMs tomorrow 9)
  | None => None
  end.

Definition handleCreatePlan (plan : option (list PlanEvent.t)) : M string :=
  t <- Date_now ;;
  let nextAvailableDate := firstCursor t in
  match plan with
  | None => throw TypeError
  | Some plan =>
      createdCount <- commitSteps plan 0%nat nextAvailableDate ;;
      if (0 <? createdCount)%nat then ret (createdText createdCount)
      else ret nothingCreatedText
  end.

Definition handleListEvents (intent : Intent.t) : M string :=
  try_catch
    (let timeRange :=
       Js.show (Js.orElse (match Intent.params intent with
                           | Some p => Params.timeRange p
                           | None => Js.undefined
                           end) "today") in
     events <- listEvents timeRange ;;
     lift (formatEventsForLine events))
    (fun _ => ret "📅 抱歉，查詢日曆事件時發生錯誤，請確認您的 Google 連接正常。").

Definition handleCreateEvent (intent : Intent.t) : M string :=
  try_catch
    (match Intent.params intent with
     | None => ret "📝 抱歉，我需要明確的「事件標題」和「開始時間」才能為您新增行程喔！"
     | Some params =>
         if negb (Js.truthy (Params.summary params))
            || negb (Js.truthy (Params.startTime params))
         then ret "📝 抱歉，我需要明確的「事件標題」和「開始時間」才能為您新增行程喔！"
         else
           end_ <-
             (if Js.truthy (Params.endTime params)
              then ret (raw (Js.show (Params.endTime params)))
              else
                t <- lift (toISOString
                             (match newDate (Js.text (Params.startTime params)) with
                              | Some t => JsDate.timeClip (t + 60 * 60 * 1000)
                              | None => None
                              end)) ;;
                ret (iso t)) ;;
           let eventData :=
             {| EventData.summary := Params.summary params;
                EventData.start := raw (Js.show (Params.startTime params));
                EventData.end_ := end_ |} in
           createdEvent <- createEvent eventData ;;
           ret ("✅ 行程新增成功！" +:+ nl +:+ nl +:+ "📅 "
                +:+ CalendarEvent.summary createdEvent +:+ nl +:+ "🕐 "
                +:+ toLocaleStringTaipei
                      (newDate (EventDateTime.dateTime (CalendarEvent.start createdEvent))))
     end)
    (fun _ => ret "📅 抱歉，新增行程時發生錯誤，請檢查您的時間格式是否正確。").

Definition handleDeleteRequest (rowNumber : Z) (intent : Intent.t) : M string :=
  let query :=
    match Intent.params intent with
    | Some p => Params.query p
    | None => Js.undefined
    end in
  if negb (Js.truthy query) then
    ret "🤔 請告訴我要刪除哪個行程呢？例如：「刪除明天的會議」。"
  else
    foundEvents <- searchEvents (Js.show query) ;;
    match foundEvents with
    | [] => ret ("🔍 找不到與「" +:+ Js.show query +:+ "」相關的行程。")
    | _ =>
        let newState := waiting_delete_confirmation foundEvents in
        let response :=
          match foundEvents with
          | [event] =>
              "我只找到一個行程符合條件：" +:+ nl +:+ nl +:+ "📅 "
              +:+ CalendarEvent.summary event +:+ nl +:+ "🕐 "
              +:+ toLocaleString
                    (newDate (EventDateTime.dateTime (CalendarEvent.start event)))
              +:+ nl +:+ nl +:+ "確定要刪除它嗎？(請回覆'是'或'否')"
          | _ =>
              "好的，我找到了 " +:+ pretty (length foundEvents)
              +:+ " 個符合條件的行程：" +:+ nl +:+ nl
              +:+ String.concat ""
                    (imap (fun index event =>
                             let time :=
                               toLocaleString
                                 (newDate (orElse
                                    (EventDateTime.dateTime (CalendarEvent.start event))
                                    (EventDateTime.date (CalendarEvent.start event)))) in
                             pretty (index + 1)%nat +:+ ". "
                             +:+ CalendarEvent.summary event
                             +:+ " (" +:+ time +:+ ")" +:+ nl)
                          foundEvents)
              +:+ nl +:+ "請問您想要刪除哪一個？ (可以回覆數字，例如 '1, 3'、'全部' 或 '取消')"
          end in
        setUserState rowNumber (Some newState) ;;;
        ret response
    end.

Definition pureConfirmTerms : list string :=
  ["好"; "可以"; "ok"; "沒問題"; "是的"; "同意"; "好啊"; "可以啊"].

Definition negativeResponses : list string :=
  ["不用"; "取消"; "不要"; "不對"].

Definition isPureConfirmation (messageTrimmed : string) : bool :=
  JsString.arrayIncludes pureConfirmTerms messageTrimmed
  && (JsString.length messageTrimmed <? 5)%nat.

Definition isNegative (messageTrimmed : string) : bool :=
  existsb (fun resp => JsString.includes (JsString.toLowerCase messageTrimmed) resp)
          negativeResponses.

(** [case 'waiting_confirmation'] *)
Definition case_waiting_confirmation (rowNumber : Z)
           (plan : option (list PlanEvent.t)) (message : string) : M string :=
  let messageTrimmed := JsString.trim message in
  if isPureConfirmation messageTrimmed then
    setUserState rowNumber None ;;;
    handleCreatePlan plan
  else if isNegative messageTrimmed then
    setUserState rowNumber None ;;;
    ret "好的，已為您取消安排。"
  else
    modifiedIntent <- modifyPlan plan message ;;
    if String.eqb (Intent.action modifiedIntent) "plan_complex_task" then
      let newState := waiting_confirmation (Intent.plan modifiedIntent) in
      setUserState rowNumber (Some newState) ;;;
      text <- lift (formatPlanForConfirmation (Intent.plan modifiedIntent) false) ;;
      ret ("好的，這是為您調整後的計畫，您覺得如何？" +:+ nl +:+ nl +:+ text)
    else
      setUserState rowNumber None ;;;
      ret (Js.show (Js.orElse (match Intent.params modifiedIntent with
                               | Some p => Params.response p
                               | None => Js.undefined
                               end)
                              "抱歉，我不太能理解您的修改。")).

(** [for (const event of eventsToDelete)] of the ['all'] branch, threading
    [eventsDeletedCount] and [deletedSummaries]. *)
Fixpoint deleteEach (events : list CalendarEvent.t)
         (acc : nat * list string) : M (nat * list string) :=
  match events with
  | [] => ret acc
  | event :: rest =>
      deleteEventById (CalendarEvent.id event) ;;;
      deleteEach rest (S (fst acc), snd acc ++ [CalendarEvent.summary event])
  end.

(** [eventsToDelete[index]]: [undefined] outside the array. *)
Definition at_index (eventsToDelete : list CalendarEvent.t) (index : Z)
  : option CalendarEvent.t :=
  if index <? 0 then None else eventsToDelete !! Z.to_nat index.

(** [for (const index of choiceResult.selection)] *)
Fixpoint deleteSelected (eventsToDelete : list CalendarEvent.t) (selection : list Z)
         (acc : nat * list string) : M (nat * list string) :=
  match selection with
  | [] => ret acc
  | index :: rest =>
      match at_index eventsToDelete index with
      | Some event =>
          deleteEventById (CalendarEvent.id event) ;;;
          deleteSelected eventsToDelete rest
            (S (fst acc), snd acc ++ [CalendarEvent.summary event])
      | None => deleteSelected eventsToDelete rest acc
      end
  end.

Definition deletedText (eventsDeletedCount : nat) (deletedSummaries : list string) : string :=
  "✅ 操作完成！已成功刪除 " +:+ pretty eventsDeletedCount +:+ " 個行程：" +:+ nl
  +:+ "- " +:+ String.concat (nl +:+ "- ") deletedSummaries.

(** [case 'waiting_delete_confirmation'] *)
Definition case_waiting_delete_confirmation (rowNumber : Z)
           (eventsToDelete : list CalendarEvent.t) (message : string) : M string :=
  choiceResult <- parseDeletionChoice message (length eventsToDelete) ;;
  deleted <-
    match choiceResult with
    | sel_all => deleteEach eventsToDelete (0%nat, [])
    | sel_indices selection => deleteSelected eventsToDelete selection (0%nat, [])
    | _ => ret (0%nat, [])
    end ;;
  let '(eventsDeletedCount, deletedSummaries) := deleted in
  setUserState rowNumber None ;;;
  if (0 <? eventsDeletedCount)%nat
  then ret (deletedText eventsDeletedCount deletedSummaries)
  else ret "好的，已取消刪除操作。".

(** [case 'waiting_plan_correction'] *)
Definition case_waiting_plan_correction (rowNumber : Z) (partialPlan : Intent.t)
           (message : string) : M string :=
  completeIntent <- mergePlanWithCorrection partialPlan message ;;
  if JsString.truthy (Intent.error completeIntent) then
    setUserState rowNumber None ;;;
    ret "抱歉，合併您的修正時發生錯誤，請再試一次。"
  else
    let newState := waiting_confirmation (Intent.plan completeIntent) in
    setUserState rowNumber (Some newState) ;;;
    text <- lift (formatPlanForConfirmation (Intent.plan completeIntent) false) ;;
    ret ("太好了！這是更新後的完整計畫，您看一下是否正確？" +:+ nl +:+ nl +:+ text).

(** [case 'waiting_knowledge_action'] *)
Definition case_waiting_knowledge_action (rowNumber : Z) (user : User.t)
           (noteId : option Z) (message : string) : M string :=
  if negb (truthyNum noteId) then
    setUserState rowNumber None ;;;
    ret "抱歉，我忘記我們正在討論哪份筆記了，我們可以重新開始嗎？"
  else
    let noteId := default 0 noteId in
    intent <- understandAndPlan message ;;
    let objectiveTitle :=
      match Intent.params intent with
      | Some p => Params.objectiveTitle p
      | None => Js.undefined
      end in
    if String.eqb (Intent.action intent) "link_note_to_objective"
       && Js.truthy objectiveTitle
    then
      objective <- findObjectiveByTitle (User.id user) (Js.text objectiveTitle) ;;
      match objective with
      | None =>
          ret ("🤔 找不到名為「" +:+ Js.show objectiveTitle
               +:+ "」的學習目標。您可以先建立它，或檢查名稱是否正確。")
      | Some objective =>
          linkNoteToObjective noteId (Objective.objective_id objective) ;;;
          setUserState rowNumber None ;;;
          ret ("✅ 好的，已將這份筆記歸檔到您的學習目標「"
               +:+ Objective.title objective +:+ "」中！")
      end
    else
      knowledgeData <- getKnowledgeNoteById noteId ;;
      match knowledgeData with
      | None =>
          setUserState rowNumber None ;;;
          ret "抱歉，讀取筆記資料時發生錯誤。"
      | Some knowledgeData =>
          finalResult <- processKnowledge knowledgeData message ;;
          setUserState rowNumber None ;;;
          ret finalResult
      end.

(** [plan.forEach(item => { item.objectiveId = objective.objective_id })] *)
Definition injectObjectiveId (plan : option (list PlanEvent.t)) (objective_id : Z)
  : Outcome (list PlanEvent.t) :=
  match plan with
  | None => Throw TypeError
  | Some plan =>
      Ret (map (fun item =>
                  {| PlanEvent.summary := PlanEvent.summary item;
                     PlanEvent.date := PlanEvent.date item;
                     PlanEvent.startTime := PlanEvent.startTime item;
                     PlanEvent.duration_hours := PlanEvent.duration_hours item;
                     PlanEvent.objectiveId := Some objective_id |}) plan)
  end.

Definition genericError : string :=
  "😅 抱歉，處理您的請求時發生錯誤，請稍後再試。".

(** The [switch (intent.action)] of the fresh-request part.  Every case
    returns a text but [clarify_or_reject], which returns the [response]
    of the model as it is: a text, [null], or nothing. *)
Definition dispatchIntent (rowNumber : Z) (user : User.t) (intent : Intent.t)
  : M Js.value :=
  let action := Intent.action intent in
  if String.eqb action "plan_complex_task" then
    let plan := Intent.plan intent in
    planned <-
      (if JsString.truthy (Intent.objectiveTitle intent) then
         objective <- findObjectiveByTitle (User.id user) (Intent.objectiveTitle intent) ;;
         match objective with
         | Some objective =>
             plan <- lift (injectObjectiveId plan (Objective.objective_id objective)) ;;
             ret (inl (Some plan))
         | None =>
             ret (inr ("🤔 找不到名為「" +:+ show (Intent.objectiveTitle intent)
                       +:+ "」的學習目標，要先建立一個嗎？"))
         end
       else ret (inl plan)) ;;
    match planned with
    | inr reply => ret (Js.str reply)
    | inl plan =>
        let newState := waiting_confirmation plan in
        setUserState rowNumber (Some newState) ;;;
        returning (lift (formatPlanForConfirmation plan true))
    end
  else if String.eqb action "list_events" then returning (handleListEvents intent)
  else if String.eqb action "create_event" then returning (handleCreateEvent intent)
  else if String.eqb action "clarify_or_reject" then
    match Intent.params intent with
    | None => throw TypeError
    | Some params => ret (Params.response params)
    end
  else if String.eqb action "delete_event"
  then returning (handleDeleteRequest rowNumber intent)
  else if String.eqb action "create_learning_objective" then
    match Intent.params intent with
    | None => throw TypeError
    | Some params =>
        if negb (Js.truthy (Params.title params)) then
          ret (Js.str "🤔 請告訴我您的學習目標是什麼喔！")
        else
          newObjective <-
            createLearningObjective (User.id user) (Js.show (Params.title params))
              (Js.text (Js.orElse (Params.dueDate params) Js.null)) ;;
          ret (Js.str
                 ("✅ 已為您建立新的學習目標：" +:+ nl +:+ nl +:+ "🎯 "
                  +:+ Objective.title newObjective
                  +:+ (if JsString.truthy (Objective.due_date newObjective)
                       then nl +:+ "- 截止日期: " +:+ show (Objective.due_date newObjective)
                       else "")
                  +:+ nl +:+ nl +:+ "接下來，您可以說：「幫我規劃『"
                  +:+ Objective.title newObjective
                  +:+ "』」，來為這個目標安排具體行程。"))
    end
  else if String.eqb action "plan_for_objective" then
    match Intent.params intent with
    | None => throw TypeError
    | Some params =>
        let objectiveTitle := Params.objectiveTitle params in
        objective <- findObjectiveByTitle (User.id user) (Js.text objectiveTitle) ;;
        match objective with
        | None =>
            ret (Js.str ("🤔 找不到名為「" +:+ Js.show objectiveTitle
                         +:+ "」的學習目標，要先建立一個嗎？"))
        | Some objective =>
            planIntent <- generatePlanForObjective (Objective.title objective) ;;
            plan <- lift (injectObjectiveId (Intent.plan planIntent)
                                            (Objective.objective_id objective)) ;;
            let newState := waiting_confirmation (Some plan) in
            setUserState rowNumber (Some newState) ;;;
            returning (lift (formatPlanForConfirmation (Some plan) true))
        end
    end
  else if String.eqb action "plan_generic_task" then
    let plan := Intent.plan intent in
    let newState := waiting_confirmation plan in
    setUserState rowNumber (Some newState) ;;;
    returning (lift (formatPlanForConfirmation plan true))
  else
    ret (Js.str "🤔 抱歉，我不太理解您的需求。您可以試試：「幫我規劃下週的讀書計畫」。").

(** The fresh-request part of [handleMessage]: everything inside its
    [try]. *)
Definition freshRequest (rowNumber : Z) (user : User.t) (message : string)
  : M Js.value :=
  try_catch
    (intent <- understandAndPlan message ;;
     dispatchIntent rowNumber user intent)
    (fun _ => ret (Js.str genericError)).

(** [user.state_json ? JSON.parse(user.state_json) : null], then the test
    [if (userState)]: [None] is the falsy value. *)
Definition parseState (state_json : StateJson) : Outcome (option UserState) :=
  match state_json with
  | json_absent => Ret None
  | json_invalid _ => Throw SyntaxError
  | json_null => Ret None
  | json_state st => Ret (Some st)
  end.

(** The [switch (userState.status)]: [Some reply] when a case returned,
    [None] when control left the switch (only the [default] case does). *)
Definition dispatchState (rowNumber : Z) (user : User.t) (userState : UserState)
           (message : string) : M (option Js.value) :=
  match userState with
  | waiting_confirmation plan =>
      reply <- case_waiting_confirmation rowNumber plan message ;;
      ret (Some (Js.str reply))
  | waiting_delete_confirmation events =>
      reply <- case_waiting_delete_confirmation rowNumber events message ;;
      ret (Some (Js.str reply))
  | waiting_plan_correction partialPlan =>
      reply <- case_waiting_plan_correction rowNumber partialPlan message ;;
      ret (Some (Js.str reply))
  | waiting_knowledge_action noteId =>
      reply <- case_waiting_knowledge_action rowNumber user noteId message ;;
      ret (Some (Js.str reply))
  | unrecognized _ =>
      setUserState rowNumber None ;;; ret None
  end.

(** [handleMessage] is declared to return a text; what it returns is the
    value its branch returns. *)
Definition handleMessage (userContext : UserContext.t) (message : string)
  : M Js.value :=
  let rowNumber := UserContext.rowNumber userContext in
  let user := UserContext.user userContext in
  userState <- lift (parseState (User.state_json user)) ;;
  returned <-
    match userState with
    | Some userState => dispatchState rowNumber user userState message
    | None => ret None
    end ;;
  match returned with
  | Some reply => ret reply
  | None => freshRequest rowNumber user message
  end.

(** What [handleMessage] does once the state cell is read. *)
Definition afterSwitch (rowNumber : Z) (user : User.t) (message : string)
           (returned : option Js.value) : M Js.value :=
  match returned with
  | Some reply => ret reply
  | None => freshRequest rowNumber user message
  end.

(** The candidates a deletion choice designates, in the order the
    handler visits them: all of them, those at the listed positions
    (positions outside the list designate nothing), or none. *)
Definition selectedEvents (choice : Selection) (eventsToDelete : list CalendarEvent.t)
  : list CalendarEvent.t :=
  match choice with
  | sel_all => eventsToDelete
  | sel_indices selection => omap (at_index eventsToDelete) selection
  | _ => []
  end.

(** The same user with another content of the state cell. *)
Definition withState (userContext : UserContext.t) (state_json : StateJson)
  : UserContext.t :=
  {| UserContext.rowNumber := UserContext.rowNumber userContext;
     UserContext.user :=
       {| User.id := User.id (UserContext.user userContext);
          User.line_user_id := User.line_user_id (UserContext.user userContext);
          User.state_json := state_json |} |}.

(** *** Image messages *)

Definition isPlanComplete (plan : list PlanEvent.t) : bool :=
  forallb (fun event => Js.truthy (PlanEvent.date event)
                        || Js.truthy (PlanEvent.startTime event)) plan.

Definition formatIncompletePlanAsTemplate (plan : list PlanEvent.t) : string :=
  "好的，我從圖片中找到了這些活動，但有些日期不清楚，能請您幫忙提供嗎？" +:+ nl +:+ nl
  +:+ String.concat ""
        (imap (fun index event =>
                 let dateValue :=
                   Js.orElse (PlanEvent.date event) (PlanEvent.startTime event) in
                 "**事件 " +:+ pretty (index + 1)%nat +:+ ":** "
                 +:+ Js.show (PlanEvent.summary event) +:+ nl
                 +:+ "  **日期:** "
                 +:+ Js.show (Js.orElse dateValue "【請幫我填寫這個日期】")
                 +:+ nl +:+ nl)
              plan)
  +:+ "您可以像這樣回覆：『事件1的日期是8/18，事件2是8/20』".

(** [self.findIndex(p)]; [None] stands for the answer -1. *)
Fixpoint findIndex {A : Type} (p : A -> bool) (self : list A) : option nat :=
  match self with
  | [] => None
  | x :: rest => if p x then Some 0%nat else S <$> findIndex p rest
  end.

(** [t.summary === event.summary && t.date === event.date]: strict
    equality, under which [null], a missing property and a string are three
    different things. *)
Definition sameStep (event t : PlanEvent.t) : bool :=
  bool_decide (PlanEvent.summary t = PlanEvent.summary event)
  && bool_decide (PlanEvent.date t = PlanEvent.date event).

(** [intent.plan.filter(event => event.summary && (event.date || event.startTime))] *)
Definition completeEvents (plan : list PlanEvent.t) : list PlanEvent.t :=
  List.filter (fun event =>
                 Js.truthy (PlanEvent.summary event)
                 && (Js.truthy (PlanEvent.date event)
                     || Js.truthy (PlanEvent.startTime event))) plan.

(** [self.filter((event, index, self) => index === self.findIndex(sameStep))] *)
Definition uniqueEvents (self : list PlanEvent.t) : list PlanEvent.t :=
  map snd
    (List.filter (fun '(index, event) =>
                    bool_decide (findIndex (sameStep event) self = Some index))
                 (imap pair self)).

(** The post-processing at the head of [preparePushMessageFromIntent]; it
    assigns [intent.plan]. *)
Definition postProcess (intent : Intent.t) : Intent.t :=
  match Intent.plan intent with
  | Some plan =>
      if String.eqb (Intent.action intent) "plan_complex_task" then
        {| Intent.action := Intent.action intent;
           Intent.params := Intent.params intent;
           Intent.plan := Some (uniqueEvents (completeEvents plan));
           Intent.objectiveTitle := Intent.objectiveTitle intent;
           Intent.source := Intent.source intent;
           Intent.error := Intent.error intent |}
      else intent
  | None => intent
  end.

Definition noActivityText : string :=
  "🤔 抱歉，我從圖片中無法提取出任何完整的活動資訊。".

Definition preparePushMessageFromIntent (userContext : UserContext.t)
           (intent : Intent.t) : M string :=
  let rowNumber := UserContext.rowNumber userContext in
  let user := UserContext.user userContext in
  let intent := postProcess intent in
  let action := Intent.action intent in
  if String.eqb action "reconstruct_knowledge" then
    newNoteId <- saveKnowledgeNote (User.id user) intent ;;
    let newState := waiting_knowledge_action (Some newNoteId) in
    setUserState rowNumber (Some newState) ;;;
    let title := show (orElse (Intent.source intent) (Some "這份資料")) in
    ret ("✅ 分析完成！" +:+ nl +:+ "我已經整理好您關於「" +:+ title +:+ "」的筆記了。"
         +:+ nl +:+ nl +:+ "接下來，您想做什麼呢？" +:+ nl +:+ "您可以試著說：" +:+ nl
         +:+ "• 「幫我生成心智圖、flashcard、摘要」" +:+ nl
         +:+ "• 「出幾題考考我」" +:+ nl
         +:+ "• 「將筆記歸檔到『[您的目標名稱]』」")
  else if String.eqb action "plan_complex_task" then
    match Intent.plan intent with
    | None => throw TypeError
    | Some plan =>
        if isPlanComplete plan then
          let newState := waiting_confirmation (Some plan) in
          setUserState rowNumber (Some newState) ;;;
          lift (formatPlanForConfirmation (Some plan) true)
        else
          match plan with
          | [] => ret noActivityText
          | _ =>
              let newState := waiting_plan_correction intent in
              setUserState rowNumber (Some newState) ;;;
              ret (formatIncompletePlanAsTemplate plan)
          end
    end
  else if String.eqb action "create_event" then
    match Intent.params intent with
    | Some params =>
        if Js.truthy (Params.startTime params) then
          let plan := [Params.asPlanEvent params] in
          let newState := waiting_confirmation (Some plan) in
          setUserState rowNumber (Some newState) ;;;
          lift (formatPlanForConfirmation (Some plan) true)
        else
          let plan := [Params.asPlanEvent params] in
          let newState :=
            waiting_plan_correction
              {| Intent.action := "plan_complex_task"; Intent.params := None;
                 Intent.plan := Some plan; Intent.objectiveTitle := None;
                 Intent.source := None; Intent.error := None |} in
          setUserState rowNumber (Some newState) ;;;
          ret (formatIncompletePlanAsTemplate plan)
    | None =>
        (* the plan is [[undefined]]: it is stored, then reading
           [event.summary] in the template throws *)
        let newState :=
          waiting_plan_correction
            {| Intent.action := "plan_complex_task"; Intent.params := None;
               Intent.plan := Some [Params.asPlanEvent Params.empty];
               Intent.objectiveTitle := None;
               Intent.source := None; Intent.error := None |} in
        setUserState rowNumber (Some newState) ;;;
        throw TypeError
    end
  else
    ret "🤔 抱歉，我從圖片中看不出可以怎麽協助您。".

Definition imageApology : string :=
  "😵 抱歉，AI 大腦在分析您的圖片時似乎遇到了一點困難，請稍後再試一次。".

(** [lineHandler] tells whether [setLineHandler] has been called on the
    handler ([this.lineHandler] is an optional field). *)
Definition processImageInBackground (lineHandler : bool) (userContext : UserContext.t)
           (imageBuffer : string) : M unit :=
  let user := UserContext.user userContext in
  try_catch
    (intent <- analyzeImageAndPlan imageBuffer ;;
     pushMessageText <- preparePushMessageFromIntent userContext intent ;;
     if lineHandler && negb (String.eqb pushMessageText "") then
       pushMessage (User.line_user_id user) pushMessageText
     else ret tt)
    (fun _ =>
       if lineHandler then pushMessage (User.line_user_id user) imageApology
       else ret tt).

Definition imageAck : string :=
  "👌 已收到您的圖片，正在請 AI 大腦進行分析，請稍候...".

(** [handleImage] starts the background task without awaiting it and
    returns at once: its result is the acknowledgement together with the
    task left running. *)
Definition handleImage (lineHandler : bool) (userContext : UserContext.t)
           (imageBuffer : string) : string * M unit :=
  (imageAck, processImageInBackground lineHandler userContext imageBuffer).

(** ** Reading a trace *)

(** The [createEvent] calls of a trace, each with whether it returned. *)
Definition createdEvents (tr : list Entry.t) : list (EventData.t * bool) :=
  omap (fun e => match Entry.call e with
                 | CreateEvent d => Some (d, Entry.ok e)
                 | _ => None
                 end) tr.

(** The writes of the state cell: row and value written. *)
Definition stateWrites (tr : list Entry.t) : list (Z * option UserState) :=
  omap (fun e => match Entry.call e with
                 | SetUserState r st => Some (r, st)
                 | _ => None
                 end) tr.

(** The pushes: recipient, text and whether the push went through. *)
Definition pushes (tr : list Entry.t) : list (string * string * bool) :=
  omap (fun e => match Entry.call e with
                 | PushMessage u t => Some (u, t, Entry.ok e)
                 | _ => None
                 end) tr.

(** Calls to the language model. *)
Definition isOracleCall (c : Call) : bool :=
  match c with
  | UnderstandAndPlan _ | ModifyPlan _ _ | ParseDeletionChoice _ _
  | MergePlanWithCorrection _ _ | ProcessKnowledge _ _
  | GeneratePlanForObjective _ | AnalyzeImageAndPlan _ => true
  | _ => false
  end.

(** Calls to the calendar. *)
Definition isEventStoreCall (c : Call) : bool :=
  match c with
  | CreateEvent _ | DeleteEventById _ | SearchEvents _ | ListEvents _ => true
  | _ => false
  end.

(** The number of steps the calendar accepted. *)
Definition acceptedCount (tr : list Entry.t) : nat :=
  length (List.filter snd (createdEvents tr)).

(** ** Disciplines on computations *)

(** Every call the computation makes satisfies [P]. *)
Definition silent (P : Call -> bool) {A : Type} (m : M A) : Prop :=
  forall h, Forall (fun e => P (Entry.call e) = true) (snd (m h)).

Definition notWrite (c : Call) : bool :=
  match c with SetUserState _ _ => false | _ => true end.

Definition notPush (c : Call) : bool :=
  match c with PushMessage _ _ => false | _ => true end.

(** A write of the state cell goes to row [rowNumber]. *)
Definition writesRow (rowNumber : Z) (c : Call) : bool :=
  match c with SetUserState r _ => r =? rowNumber | _ => true end.

(** [P] holds of every call other than a state write or a push. *)
Definition benign (P : Call -> bool) : Prop :=
  forall c, notWrite c = true -> notPush c = true -> P c = true.

Definition writeCount (tr : list Entry.t) : nat := length (stateWrites tr).

(** The computation writes the state cell at most [hi] times, and at least
    [lo] times when it returns. *)
Definition writes (lo hi : nat) {A : Type} (m : M A) : Prop :=
  forall h,
    (writeCount (snd (m h)) <= hi)%nat /\
    (isRet (fst (m h)) = true -> lo <= writeCount (snd (m h)))%nat.

(** When the computation returns, its text is not empty. *)
Definition replies (m : M string) : Prop :=
  forall h t, fst (m h) = Ret t -> t <> "".



(** When the computation returns, what it returns is a text, and not the
    empty one. *)
Definition repliesText (m : M Js.value) : Prop :=
  forall h v, fst (m h) = Ret v -> exists text, v = Js.str text /\ text <> "".

(** A write of the state cell stores a state that [Q] allows. *)
Definition writesState (Q : option UserState -> bool) (c : Call) : bool :=
  match c with SetUserState _ st => Q st | _ => true end.

(** The empty state. *)
Definition clears (st : option UserState) : bool :=
  match st with None => true | Some _ => false end.

(** The empty state or WaitingConfirmation. *)
Definition clearsOrConfirms (st : option UserState) : bool :=
  match st with
  | None | Some (waiting_confirmation _) => true
  | _ => false
  end.

(** WaitingConfirmation or WaitingDeleteConfirmation. *)
Definition entersWaiting (st : option UserState) : bool :=
  match st with
  | Some (waiting_confirmation _) | Some (waiting_delete_confirmation _) => true
  | _ => false
  end.

(** How many times [handleMessage] writes the state cell, by the content
    of the cell it finds: at least the first number when it returns, at
    most the second. *)
Definition writeBounds (state_json : StateJson) : nat * nat :=
  match state_json with
  | json_state (waiting_confirmation _)
  | json_state (waiting_delete_confirmation _)
  | json_state (waiting_plan_correction _) => (1%nat, 1%nat)
  | json_state (waiting_knowledge_action _) => (0%nat, 1%nat)
  | json_state (unrecognized _) => (1%nat, 2%nat)
  | json_absent | json_null => (0%nat, 1%nat)
  | json_invalid _ => (0%nat, 0%nat)
  end.

(** The states in which every reply is a text the handler builds itself
    (the other states may pass on a text of the model as it is). *)
Definition buildsReply (state_json : StateJson) : bool :=
  match state_json with
  | json_state (waiting_confirmation _)
  | json_state (waiting_delete_confirmation _)
  | json_state (waiting_plan_correction _) => true
  | _ => false
  end.

(** The log entry of a deletion the calendar carried out. *)
Definition deleted (event : CalendarEvent.t) : Entry.t :=
  Entry.mk (DeleteEventById (CalendarEvent.id event)) true.

(** The log entry of a deletion the calendar refused. *)
Definition refused (event : CalendarEvent.t) : Entry.t :=
  Entry.mk (DeleteEventById (CalendarEvent.id event)) false.

(** What [deleteEventById] throws when the calendar refuses. *)
Definition deleteFailure : Exn :=
  ServiceError "刪除 Google Calendar 事件時發生錯誤。".

(** The reply of the deletion case for the events deleted. *)
Definition deletionReply (chosen : list CalendarEvent.t) : string :=
  if (0 <? length chosen)%nat
  then deletedText (length chosen) (map CalendarEvent.summary chosen)
  else "好的，已取消刪除操作。".

(** What the deletion case does when every call it makes returns. *)
Definition deletionDone (rowNumber : Z)
           (eventsToDelete : list CalendarEvent.t) (message : string) (h : History)
  : Outcome string * list Entry.t :=
  let answer := Oracle.parseDeletionChoice oracle h message (length eventsToDelete) in
  let choice := match answer with Ret c => c | Throw _ => sel_none end in
  let chosen := selectedEvents choice eventsToDelete in
  (Ret (if (0 <? length chosen)%nat
        then deletedText (length chosen) (map CalendarEvent.summary chosen)
        else "好的，已取消刪除操作。"),
   [Entry.mk (ParseDeletionChoice message (length eventsToDelete)) (isRet answer)]
   ++ map deleted chosen
   ++ [Entry.mk (SetUserState rowNumber None) true]).

(** ** Predicates on plans *)

(** The event data [handleCreatePlan] builds for a step that starts at [t]
    and ends at [e]. *)
Definition stepData (item : PlanEvent.t) (dates : Z * Z) : EventData.t :=
  {| EventData.summary := PlanEvent.summary item;
     EventData.start := iso (fst dates);
     EventData.end_ := iso (snd dates) |}.

(** The step carries neither [date] nor [startTime]. *)
Definition undated (item : PlanEvent.t) : bool :=
  negb (Js.truthy (PlanEvent.date item))
  && negb (Js.truthy (PlanEvent.startTime item)).

(** The start a step names itself, by [date] first, else by [startTime]. *)
Definition ownStart (item : PlanEvent.t) : option Z :=
  if Js.truthy (PlanEvent.date item)
  then Date_parse (Js.show (PlanEvent.date item) +:+ "T09:00:00")
  else newDate (Js.text (PlanEvent.startTime item)).

(** The date arithmetic of the loop of [handleCreatePlan] taken alone: the
    start and the end of every step (each possibly an Invalid Date), from
    the cursor the loop is entered with. *)
Fixpoint planDates (nextAvailableDate : option Z) (plan : list PlanEvent.t)
  : list (option Z * option Z) :=
  match plan with
  | [] => []
  | item :: rest =>
      let '(eventStart, nextAvailableDate) := stepStart nextAvailableDate item in
      (eventStart, plusHours eventStart (durationOf item))
        :: planDates nextAvailableDate rest
  end.

(** The time value, when the date is one [toISOString] takes. *)
Definition validDate (d : option Z) : option Z :=
  match toISOString d with
  | Ret t => Some t
  | Throw _ => None
  end.

(** Both the start and the end are dates. *)
Definition validDates (dates : option Z * option Z) : bool :=
  bool_decide (is_Some (validDate (fst dates)))
  && bool_decide (is_Some (validDate (snd dates))).

(** The steps the loop gets to send: those before the first step whose
    start or end is not a date, each with its start and end. *)
Fixpoint reached (plan : list PlanEvent.t) (dates : list (option Z * option Z))
  : list (PlanEvent.t * (Z * Z)) :=
  match plan, dates with
  | item :: rest, (eventStart, eventEnd) :: dates =>
      match validDate eventStart, validDate eventEnd with
      | Some t, Some e => (item, (t, e)) :: reached rest dates
      | _, _ => []
      end
  | _, _ => []
  end.

(** The cursor discipline of the undated steps: each start is a weekday
    not before the cursor, and the cursor then moves to the day after. *)
Fixpoint chain (cursor : Z) (starts : list Z) : Prop :=
  match starts with
  | [] => True
  | t :: rest =>
      cursor <= t /\ JsDate.isWeekend tzOffsetMs t = false /\
      chain (JsDate.addDays t 1) rest
  end.

End Program.

(** ** The dates of a plan *)

Section Schedule.
Context {host : Host}.


End Schedule.

(** ** Further readings of a trace *)

(** The calendar deletions of a trace: the ids asked to be deleted. *)
Definition deletions (tr : list Entry.t) : list string :=
  omap (fun e => match Entry.call e with
                 | DeleteEventById eventId => Some eventId
                 | _ => None
                 end) tr.

(** A state the dispatcher of [handleMessage] has a case for. *)
Definition recognized (st : UserState) : bool :=
  match st with unrecognized _ => false | _ => true end.

(** The call does not store a state the dispatcher has no case for. *)
Definition recognizedWrite (c : Call) : bool :=
  match c with
  | SetUserState _ (Some st) => recognized st
  | _ => true
  end.

(** The calls the background task of an image may make for the user
    [userContext]. *)
Definition imageFootprint (userContext : UserContext.t) (c : Call) : bool :=
  match c with
  | AnalyzeImageAndPlan _ => true
  | SaveKnowledgeNote userId _ => userId =? User.id (UserContext.user userContext)
  | SetUserState rowNumber state =>
      (rowNumber =? UserContext.rowNumber userContext)
      && match state with Some st => recognized st | None => true end
  | PushMessage userId _ =>
      String.eqb userId (User.line_user_id (UserContext.user userContext))
  | _ => false
  end.

Definition notEventStore (c : Call) : bool := negb (isEventStoreCall c).

Section Waiting.
Context {host : Host} {world : World}.

(** The events a deletion request is about: what the calendar search
    returns for the query, nothing when there is no query or the search
    fails. *)
Definition foundFor (intent : Intent.t) (h : History) : list CalendarEvent.t :=
  let query :=
    match Intent.params intent with Some p => Params.query p | None => Js.undefined end in
  if Js.truthy query then
    match EventStore.searchEvents eventStore h (Js.show query) with
    | Ret events => events
    | Throw _ => []
    end
  else [].

(** The waiting states in which this message is handled without the
    calendar. *)
Definition calendarFree (st : UserState) (message : string) : bool :=
  match st with
  | waiting_confirmation _ => negb (isPureConfirmation (JsString.trim message))
  | waiting_plan_correction _ | waiting_knowledge_action _ => true
  | _ => false
  end.

End Waiting.

(** ** Traces of other layers

    The layers around the calendar handler have collaborators of their
    own.  Their computations are those of [M], over a log of the calls
    [C] of the layer. *)

Module Trace.
Section Trace.
Context {C : Type}.

Record entry : Type := mk {
  call : C;
  ok : bool
}.

Definition T (A : Type) : Type := list entry -> Outcome A * list entry.

Definition ret {A : Type} (a : A) : T A := fun _ => (Ret a, []).

Definition throw {A : Type} (e : Exn) : T A := fun _ => (Throw e, []).

Definition bind {A B : Type} (m : T A) (k : A -> T B) : T B :=
  fun h =>
    match m h with
    | (Ret a, l1) => let '(r, l2) := k a (h ++ l1) in (r, l1 ++ l2)
    | (Throw e, l1) => (Throw e, l1)
    end.

Definition try_catch {A : Type} (m : T A) (handler : Exn -> T A) : T A :=
  fun h =>
    match m h with
    | (Ret a, l1) => (Ret a, l1)
    | (Throw e, l1) => let '(r, l2) := handler e (h ++ l1) in (r, l1 ++ l2)
    end.

Definition perform {A : Type} (c : C) (answer : list entry -> Outcome A) : T A :=
  fun h => let o := answer h in (o, [mk c (isRet o)]).

(** Every call the computation makes satisfies [P]. *)
Definition quiet (P : C -> bool) {A : Type} (m : T A) : Prop :=
  forall h, Forall (fun e => P (call e) = true) (snd (m h)).

End Trace.
Arguments entry : clear implicits.
Arguments T : clear implicits.
End Trace.

(** ** lineHandler.ts: LineHandler

    The transport layer receives a webhook event, asks the calendar handler
    for the reply and sends it.  Its own collaborators are the LINE client
    ([replyMessage], [getMessageContent]) and the sheet's
    [findOrCreateUser]; the calls the calendar handler makes meanwhile are
    logged among them, tagged [Handler]. *)

Inductive MessageBody : Type :=
| textMessage (text : string)
| imageMessage (id : string)
(* a message of another type: video, audio, sticker, ... *)
| otherMessage.

(** A webhook event: a message event with [source.userId], [replyToken]
    and [message], or an event of another type, which may carry a
    [replyToken]. *)
Inductive WebhookEvent : Type :=
| messageEvent (userId : option string) (replyToken : string) (message : MessageBody)
| otherEvent (replyToken : option string).

(** ['replyToken' in event] *)
Definition replyTokenOf (event : WebhookEvent) : option string :=
  match event with
  | messageEvent _ replyToken _ => Some replyToken
  | otherEvent replyToken => replyToken
  end.

Inductive LineCall : Type :=
| ReplyMessage (replyToken text : string)
| GetMessageContent (messageId : string)
| FindOrCreateUser (lineUserId : string)
(* [handleImage] calls [processImageInBackground] and does not await it:
   the task is entered there and then, and goes on beside whatever the
   transport layer does next *)
| StartImageTask (task : M unit)
| Handler (c : Call).

Module LineEntry.
Abbreviation t := (Trace.entry LineCall).
Abbreviation mk := (@Trace.mk LineCall).
Abbreviation call := (@Trace.call LineCall).
Abbreviation ok := (@Trace.ok LineCall).
End LineEntry.

(** What the LINE client and the sheet answer, given the calls so far. *)
Class Transport : Type := {
  replyMessage_answer : list LineEntry.t -> string -> string -> Outcome unit;
  (** the bytes of the image, once the stream has ended *)
  getMessageContent_answer : list LineEntry.t -> string -> Outcome string;
  findOrCreateUser_answer : list LineEntry.t -> string -> Outcome UserContext.t
}.

Module Line.

(** A computation of the transport layer. *)
Abbreviation L := (Trace.T LineCall).
Abbreviation ret := (@Trace.ret LineCall _).
Abbreviation throw := (@Trace.throw LineCall _).
Abbreviation bind := (@Trace.bind LineCall _ _).
Abbreviation try_catch := (@Trace.try_catch LineCall _).
Abbreviation perform := (@Trace.perform LineCall _).

Notation "x <~ m ;; k" := (bind m (fun x => k))
  (at level 100, m at next level, right associativity).
Notation "m ;;~ k" := (bind m (fun _ => k))
  (at level 100, right associativity).

(** The calls of the calendar handler among the calls so far. *)
Definition handlerHistory (h : list LineEntry.t) : History :=
  omap (fun e => match LineEntry.call e with
                 | Handler c => Some (Entry.mk c (LineEntry.ok e))
                 | _ => None
                 end) h.

(** A computation of the calendar handler, run from the transport
    layer. *)
Definition viaHandler {A : Type} (m : M A) : L A :=
  fun h =>
    let '(r, tr) := m (handlerHistory h) in
    (r, map (fun e => LineEntry.mk (Handler (Entry.call e)) (Entry.ok e)) tr).

Section LineHandler.
Context {host : Host} {world : World} {transport : Transport}.

Definition dq : string := String (ascii_of_N 34) EmptyString.

(** [getHelpMessage()]: the template literal, line by line. *)
Definition getHelpMessage : string :=
  "🤖 AI 學習助理 Bot 使用說明 🤖" +:+ nl
  +:+ nl
  +:+ "  🧠 **核心學習功能**" +:+ nl
  +:+ "  1️⃣ **傳送圖片分析**" +:+ nl
  +:+ "    直接傳送您的課堂筆記、活動海報或書籍內頁，我會自動分析內容。" +:+ nl
  +:+ nl
  +:+ "  2️⃣ **進行知識加工**" +:+ nl
  +:+ "    分析完圖片後，您可以接著說：" +:+ nl
  +:+ "    • " +:+ dq +:+ "幫我生成心智圖" +:+ dq +:+ nl
  +:+ "    • " +:+ dq +:+ "出幾題考考我" +:+ dq +:+ nl
  +:+ "    • " +:+ dq +:+ "為我做個摘要" +:+ dq +:+ nl
  +:+ nl
  +:+ "  📂 **學習目標管理 (新！)**" +:+ nl
  +:+ "  • **建立目標**: " +:+ dq +:+ "建立目標：準備 OpenVINO 競賽，截止日期是 8/20" +:+ dq +:+ nl
  +:+ "  • **規劃目標**: " +:+ dq +:+ "幫我規劃『準備 OpenVINO 競賽』" +:+ dq +:+ nl
  +:+ "  • **歸檔筆記**: (分析完筆記後) " +:+ dq +:+ "將筆記歸檔到『準備 OpenVINO 競賽』" +:+ dq +:+ nl
  +:+ nl
  +:+ "  📅 **行事曆基礎功能**" +:+ nl
  +:+ "  • **查詢**: " +:+ dq +:+ "今天有什麼事？" +:+ dq +:+ ", " +:+ dq +:+ "查詢下週行程" +:+ dq +:+ nl
  +:+ "  • **新增**: " +:+ dq +:+ "明天下午3點演算法小考" +:+ dq +:+ nl
  +:+ "  • **刪除**: " +:+ dq +:+ "取消明天的會議" +:+ dq +:+ nl
  +:+ nl
  +:+ "  ❓ **其他指令**" +:+ nl
  +:+ "  • " +:+ dq +:+ "幫助" +:+ dq +:+ " 或 " +:+ dq +:+ "/help" +:+ dq +:+ " - 顯示此說明" +:+ nl
  +:+ "  • " +:+ dq +:+ "你是誰" +:+ dq +:+ " - Bot 自我介紹" +:+ nl
  +:+ nl
  +:+ "  準備好了嗎？試著傳送一張您的筆記照片給我吧！".

Definition statusMessage : string :=
  "🤖 LINE Calendar Bot 運作正常" +:+ nl
  +:+ "📅 Google Calendar 連接正常" +:+ nl
  +:+ "✅ 準備為您服務！".

Definition findOrCreateUser (lineUserId : string) : L UserContext.t :=
  perform (FindOrCreateUser lineUserId) (fun h => findOrCreateUser_answer h lineUserId).

(** [downloadImageContent]: the promise resolves with the bytes when the
    stream ends and rejects when the client or the stream fails. *)
Definition downloadImageContent (messageId : string) : L string :=
  perform (GetMessageContent messageId) (fun h => getMessageContent_answer h messageId).

(** [replyMessage]: nothing is sent for a text that is missing
    ([!text]), empty or blank; what the client throws is logged and thrown
    again. *)
Definition replyMessage (replyToken : string) (text : Js.value) : L unit :=
  try_catch
    (match text with
     | Js.str text =>
         if String.eqb text "" || String.eqb (JsString.trim text) "" then ret tt
         else perform (ReplyMessage replyToken text)
                      (fun h => replyMessage_answer h replyToken text)
     | _ => ret tt
     end)
    (fun error => throw error).

(** What [handleMessage] returns is passed on as it is, a string or
    not. *)
Definition handleTextMessage (userId text : string) : L Js.value :=
  let userText := JsString.trim text in
  if String.eqb userText "/help" || String.eqb userText "幫助"
     || String.eqb userText "說明"
  then ret (Js.str getHelpMessage)
  else if String.eqb userText "/status" || String.eqb userText "狀態"
  then ret (Js.str statusMessage)
  else
    userContext <~ findOrCreateUser userId ;;
    viaHandler (handleMessage userContext text).

Definition imageFailure : string :=
  "📷 抱歉，處理您的圖片時發生錯誤，請稍後再試。".

(** The calendar handler was given this line handler in the constructor,
    so [handleImage] runs with [lineHandler] set.  The task [handleImage]
    leaves running is logged as started, with the computation it is; its
    own calls are not part of this trace, since nothing orders them
    against the reply that follows. *)
Definition handleImageMessage (userId messageId : string) : L string :=
  try_catch
    (imageBuffer <~ downloadImageContent messageId ;;
     userContext <~ findOrCreateUser userId ;;
     let '(ack, task) := handleImage true userContext imageBuffer in
     perform (StartImageTask task) (fun _ => Ret tt) ;;~
     ret ack)
    (fun _ => ret imageFailure).

Definition eventFailure : string :=
  "😅 抱歉，處理您的訊息時發生錯誤，請稍後再試。".

Definition handleSingleEvent (event : WebhookEvent) : L unit :=
  try_catch
    (match event with
     | otherEvent _ => ret tt
     | messageEvent userId replyToken message =>
         if negb (JsString.truthy userId) then ret tt
         else
           let userId := show userId in
           responseText <~
             match message with
             | textMessage text => handleTextMessage userId text
             | imageMessage id =>
                 text <~ handleImageMessage userId id ;; ret (Js.str text)
             | otherMessage => ret (Js.str "🤖 目前只支援文字訊息。")
             end ;;
           replyMessage replyToken responseText
     end)
    (fun _ =>
       match replyTokenOf event with
       | Some replyToken =>
           try_catch (replyMessage replyToken (Js.str eventFailure)) (fun _ => ret tt)
       | None => ret tt
       end).

(** The replies of a trace: token, text and whether the client took it. *)
Definition replyAttempts (tr : list LineEntry.t) : list (string * string * bool) :=
  omap (fun e => match LineEntry.call e with
                 | ReplyMessage replyToken text => Some (replyToken, text, LineEntry.ok e)
                 | _ => None
                 end) tr.

(** The image tasks a trace has started. *)
Definition startedTasks (tr : list LineEntry.t) : list (M unit) :=
  omap (fun e => match LineEntry.call e with
                 | StartImageTask task => Some task
                 | _ => None
                 end) tr.

Definition notReply (c : LineCall) : bool :=
  match c with ReplyMessage _ _ => false | _ => true end.

Definition isReply (c : LineCall) : bool :=
  match c with ReplyMessage _ _ => true | _ => false end.

(** The text is one [replyMessage] sends. *)
Definition sendable (text : Js.value) : bool :=
  match text with
  | Js.str text => negb (String.eqb text "" || String.eqb (JsString.trim text) "")
  | _ => false
  end.

(** The text is one of the commands answered by the transport layer. *)
Definition isCommand (text : string) : bool :=
  let userText := JsString.trim text in
  String.eqb userText "/help" || String.eqb userText "幫助" || String.eqb userText "說明"
  || String.eqb userText "/status" || String.eqb userText "狀態".

End LineHandler.

End Line.

(** ** The model is down *)

(** The call does not make the user wait: a write of the state cell is a
    reset. *)
Definition resetOnly (c : Call) : bool :=
  match c with
  | SetUserState _ (Some _) => false
  | _ => true
  end.

Section ModelDown.
Context {host : Host} {world : World}.

(** Every request to the language model fails. *)
Definition modelDown : Prop :=
  (forall h userInput, isRet (Oracle.understandAndPlan oracle h userInput) = false) /\
  (forall h plan request, isRet (Oracle.modifyPlan oracle h plan request) = false) /\
  (forall h request n, isRet (Oracle.parseDeletionChoice oracle h request n) = false) /\
  (forall h partialPlan correction,
      isRet (Oracle.mergePlanWithCorrection oracle h partialPlan correction) = false) /\
  (forall h knowledgeData goal,
      isRet (Oracle.processKnowledge oracle h knowledgeData goal) = false) /\
  (forall h title, isRet (Oracle.generatePlanForObjective oracle h title) = false) /\
  (forall h imageBuffer, isRet (Oracle.analyzeImageAndPlan oracle h imageBuffer) = false).

End ModelDown.

(** ** mcpClient.ts: the time window of a listing *)

Module TimeRange.
Import JsDate.

Section Local.
(** Offset of local time from UTC, in milliseconds. *)
Variable tz : Z.

(** [new Date(now.getFullYear(), now.getMonth(), now.getDate() + n)]:
    local midnight, [n] days after the day of [now]. *)
Definition localMidnight (now n : Z) : Z := (localDay tz now + n) * msPerDay - tz.

(** [d.setMonth(d.getMonth() + 1)]: the same day of the month and time of
    day in the following month; a day the following month does not have
    runs over into the month after. *)
Definition addMonth (t : Z) : Z :=
  let '(y, m, d) := civilFromDays (localDay tz t) in
  let first := if m =? 12 then daysFromCivil (y + 1) 1 1 else daysFromCivil y (m + 1) 1 in
  (first + d - 1) * msPerDay + (t + tz) mod msPerDay - tz.

(** [getTimeRange(range)] at the instant [now]: [timeMin] and [timeMax]
    (both are valid dates, so [toISOString] does not throw). *)
Definition getTimeRange (now : Z) (range : string) : Z * Z :=
  if String.eqb range "today" then
    let timeMin := localMidnight now 0 in (timeMin, addDays timeMin 1)
  else if String.eqb range "tomorrow" then
    let timeMin := localMidnight now 1 in (timeMin, addDays timeMin 1)
  else if String.eqb range "week" then (now, addDays now 7)
  else if String.eqb range "month" then (now, addMonth now)
  else (now, addDays now 1).

End Local.
End TimeRange.

(** ** review.ts: the weekly review

    [runReview] with its collaborators: the sheet ([getAllUsers],
    [getActiveObjectivesByUserId]), the calendar ([events.get], inside
    [analyzeEventsStatus]) and the LINE client ([pushMessage]). *)

Module LearningObjective.
Record t : Type := mk {
  objective_id : Z;
  user_id : Z;
  title : string;
  due_date : option string;
  gcal_event_ids : option string
}.
End LearningObjective.

(** An event as [events.get] returns it: the event and its [status]. *)
Module EventResource.
Record t : Type := mk {
  event : CalendarEvent.t;
  status : option string
}.
End EventResource.

Inductive ReviewCall : Type :=
| GetAllUsers
| GetActiveObjectivesByUserId (userId : Z)
| EventsGet (eventId : string)
| PushReport (userId text : string).

Module ReviewEntry.
Abbreviation t := (Trace.entry ReviewCall).
Abbreviation mk := (@Trace.mk ReviewCall).
Abbreviation call := (@Trace.call ReviewCall).
Abbreviation ok := (@Trace.ok ReviewCall).
End ReviewEntry.

(** What the collaborators of the review answer, given the calls so far. *)
Class Office : Type := {
  getAllUsers_answer : list ReviewEntry.t -> Outcome (list User.t);
  getActiveObjectivesByUserId_answer :
    list ReviewEntry.t -> Z -> Outcome (list LearningObjective.t);
  events_get_answer : list ReviewEntry.t -> string -> Outcome EventResource.t;
  pushReport_answer : list ReviewEntry.t -> string -> string -> Outcome unit;
  (** the time value of [new Date()] *)
  review_now : list ReviewEntry.t -> Z
}.

Module Review.

Abbreviation R := (Trace.T ReviewCall).
Abbreviation ret := (@Trace.ret ReviewCall _).
Abbreviation bind := (@Trace.bind ReviewCall _ _).
Abbreviation try_catch := (@Trace.try_catch ReviewCall _).
Abbreviation perform := (@Trace.perform ReviewCall _).

Notation "x <~ m ;; k" := (bind m (fun x => k))
  (at level 100, m at next level, right associativity).
Notation "m ;;~ k" := (bind m (fun _ => k))
  (at level 100, right associativity).

(** [s.split(',')]: the pieces between the commas, at least one. *)
Fixpoint splitComma (s : string) : list string :=
  match s with
  | EmptyString => [""]
  | String c rest =>
      if Ascii.eqb c ","%char then "" :: splitComma rest
      else
        match splitComma rest with
        | piece :: pieces => String c piece :: pieces
        | [] => [String c ""]
        end
  end.

Section Review.
Context {host : Host} {office : Office}.

Definition Date_now : R Z := fun h => (Ret (review_now h), []).

Definition oneWeek : Z := 7 * 24 * 60 * 60 * 1000.

(** [new Date(event.start.dateTime || event.start.date)] *)
Definition startOf (event : EventResource.t) : option Z :=
  let start := CalendarEvent.start (EventResource.event event) in
  newDate (orElse (EventDateTime.dateTime start) (EventDateTime.date start)).

Definition cancelled (event : EventResource.t) : bool :=
  bool_decide (EventResource.status event = Some "cancelled").

(** The [try] block of the loop of [analyzeEventsStatus], on the two
    lists; a comparison with an Invalid Date is false. *)
Definition analyzeOne (now : Z) (eventId : string)
           (lists : list EventResource.t * list EventResource.t)
  : R (list EventResource.t * list EventResource.t) :=
  let '(upcomingEvents, overdueEvents) := lists in
  try_catch
    (event <~ perform (EventsGet eventId) (fun h => events_get_answer h eventId) ;;
     let eventStartTime := startOf event in
     if cancelled event then ret lists
     else
       match eventStartTime with
       | Some t =>
           if t <? now then ret (upcomingEvents, overdueEvents ++ [event])
           else if t <=? now + oneWeek then ret (upcomingEvents ++ [event], overdueEvents)
           else ret lists
       | None => ret lists
       end)
    (fun _ => ret lists).

Fixpoint analyzeEach (now : Z) (eventIds : list string)
         (lists : list EventResource.t * list EventResource.t)
  : R (list EventResource.t * list EventResource.t) :=
  match eventIds with
  | [] => ret lists
  | eventId :: rest =>
      lists <~ analyzeOne now eventId lists ;;
      analyzeEach now rest lists
  end.

(** [analyzeEventsStatus(eventIds)]: the upcoming and the overdue events. *)
Definition analyzeEventsStatus (eventIds : list string)
  : R (list EventResource.t * list EventResource.t) :=
  now <~ Date_now ;;
  analyzeEach now eventIds ([], []).

Definition pushMessage (userId text : string) : R unit :=
  perform (PushReport userId text) (fun h => pushReport_answer h userId text).

Definition reportHeader : string :=
  "早安！☀️ 這是您本週的學習進度回顧：" +:+ nl.

Definition overdueClosing : string :=
  nl +:+ "需要我幫您將過期的任務重新安排到本週嗎？ (此功能開發中)".

Definition steadyClosing : string :=
  nl +:+ "做得很好，繼續保持這個節奏！💪".

(** The lines of one objective after its title, from the two lists. *)
Definition statusLines (upcomingEvents overdueEvents : list EventResource.t) : string :=
  (match overdueEvents with
   | [] => ""
   | _ =>
       "   - 🔴 **注意！有 " +:+ pretty (length overdueEvents) +:+ " 個任務已過期：**" +:+ nl
       +:+ String.concat ""
             (map (fun event =>
                     "     - " +:+ CalendarEvent.summary (EventResource.event event) +:+ nl)
                  overdueEvents)
   end)
  +:+ (match upcomingEvents with
       | [] =>
           match overdueEvents with
           | [] => "   - 👍 本週沒有即將到來的行程，一切都在您的掌握中！" +:+ nl
           | _ => ""
           end
       | _ =>
           "   - 🟢 **本週即將進行：**" +:+ nl
           +:+ String.concat ""
                 (map (fun event =>
                         "     - " +:+ toLocaleDateString (startOf event) +:+ " - "
                         +:+ CalendarEvent.summary (EventResource.event event) +:+ nl)
                      upcomingEvents)
       end).

(** [gcal_event_ids ? gcal_event_ids.split(',') : []] *)
Definition eventIdsOf (gcal_event_ids : option string) : list string :=
  if JsString.truthy gcal_event_ids then splitComma (show gcal_event_ids) else [].

(** [for (const objective of activeObjectives)], threading [reportText]
    and [hasOverdueTasks]. *)
Fixpoint reportObjectives (activeObjectives : list LearningObjective.t)
         (report : string * bool) : R (string * bool) :=
  match activeObjectives with
  | [] => ret report
  | objective :: rest =>
      let '(reportText, hasOverdueTasks) := report in
      let reportText :=
        reportText +:+ nl +:+ "🎯 **目標：" +:+ LearningObjective.title objective
        +:+ "**" +:+ nl in
      let eventIds := eventIdsOf (LearningObjective.gcal_event_ids objective) in
      match eventIds with
      | [] =>
          reportObjectives rest
            (reportText +:+ "   - 您還沒有為這個目標安排任何具體行程喔！" +:+ nl,
             hasOverdueTasks)
      | _ =>
          lists <~ analyzeEventsStatus eventIds ;;
          let '(upcomingEvents, overdueEvents) := lists in
          reportObjectives rest
            (reportText +:+ statusLines upcomingEvents overdueEvents,
             match overdueEvents with [] => hasOverdueTasks | _ => true end)
      end
  end.

(** The [try] block for one user; [delay(500)] only waits. *)
Definition reviewUser (user : User.t) : R unit :=
  activeObjectives <~
    perform (GetActiveObjectivesByUserId (User.id user))
            (fun h => getActiveObjectivesByUserId_answer h (User.id user)) ;;
  match activeObjectives with
  | [] => ret tt
  | _ =>
      report <~ reportObjectives activeObjectives (reportHeader, false) ;;
      let '(reportText, hasOverdueTasks) := report in
      let reportText :=
        reportText +:+ (if hasOverdueTasks then overdueClosing else steadyClosing) in
      pushMessage (User.line_user_id user) reportText
  end.

(** [for (const user of allUsers)]: what one user throws is logged. *)
Fixpoint reviewEach (allUsers : list User.t) : R unit :=
  match allUsers with
  | [] => ret tt
  | user :: rest =>
      try_catch (reviewUser user) (fun _ => ret tt) ;;~
      reviewEach rest
  end.

Definition runReview : R unit :=
  allUsers <~ perform GetAllUsers (fun h => getAllUsers_answer h) ;;
  match allUsers with
  | [] => ret tt
  | _ => reviewEach allUsers
  end.

(** The pushes of a trace: recipient and text. *)
Definition reports (tr : list ReviewEntry.t) : list (string * string) :=
  omap (fun e => match ReviewEntry.call e with
                 | PushReport userId text => Some (userId, text)
                 | _ => None
                 end) tr.

(** The events asked of the calendar. *)
Definition fetched (tr : list ReviewEntry.t) : list string :=
  omap (fun e => match ReviewEntry.call e with
                 | EventsGet eventId => Some eventId
                 | _ => None
                 end) tr.

Definition notReport (c : ReviewCall) : bool :=
  match c with PushReport _ _ => false | _ => true end.

End Review.
End Review.

(** ** googleSheetService.ts: GoogleSheetService

    The service over the three tables of the spreadsheet.  A table is the
    list of its rows and a row the list of its cells, as [values.get]
    returns them ([response.data.values] is [undefined] for a table
    without rows).  The spreadsheet is taken to keep the text of a cell
    as it was written, to append a row after the last one and to fill with
    empty cells up to a cell that is updated; the first column of a table
    is taken to have as many rows as the table.  The methods that read or
    append are given with their requests answered; the three that update a
    cell ([setUserState], [linkEventToObjective], [linkNoteToObjective])
    take what the service answers to their requests, so that they can
    fail. *)

(** What JavaScript decides about the texts in the cells. *)
Class JsText : Type := {
  (** the text of a number written to a cell *)
  numberText : Z -> string;
  (** [parseInt(text)]; [None] is [NaN] *)
  parseIntText : string -> option Z;
  (** [d.toISOString()] *)
  isoText : Z -> string;
  (** [JSON.stringify(state)] *)
  stringifyState : UserState -> string;
  (** the state cell as [JSON.parse] reads it *)
  readStateCell : string -> StateJson;
  (** [JSON.stringify(knowledgeData)] *)
  stringifyNote : Intent.t -> string;
  (** [JSON.parse(text)] of the text of a note *)
  parseNoteText : string -> Outcome KnowledgeData
}.

(** [parseInt(x)] of a cell that may be missing: [parseInt(undefined)] is
    [NaN]. *)
Definition parseInt {js : JsText} (cell : option string) : option Z :=
  match cell with
  | Some text => parseIntText text
  | None => None
  end.

(** [JSON.parse(x)] of the cell of a note, which may be missing:
    [JSON.parse(undefined)] throws a SyntaxError. *)
Definition parseNote {js : JsText} (cell : option string) : Outcome KnowledgeData :=
  match cell with
  | Some text => parseNoteText text
  | None => Throw SyntaxError
  end.

Module Sheet.

Abbreviation Row := (list string).

Record Book : Type := mkBook {
  users : list Row;        (* Users!A:D *)
  objectives : list Row;   (* LearningObjectives!A:F *)
  notes : list Row         (* KnowledgeNotes!A:F *)
}.

(** [interface User]; the id is [None] when the cell does not hold a
    number ([NaN]), and [state_json] is the state cell as the handler will
    parse it. *)
Module SheetUser.
Record t : Type := mk {
  id : option Z;
  line_user_id : string;
  state_json : StateJson
}.
End SheetUser.

(** [{ rowNumber, user }] *)
Module Found.
Record t : Type := mk {
  rowNumber : Z;
  user : SheetUser.t
}.
End Found.

(** [interface LearningObjective], with [NaN] as [None]. *)
Module Stored.
Record t : Type := mk {
  objective_id : option Z;
  user_id : option Z;
  title : option string;
  status : option string;
  due_date : option string;
  gcal_event_ids : option string
}.
End Stored.

(** [for (let i = start; i < rows.length; i++) if (p(rows[i])) return ...]:
    the first row from index [i] on that satisfies [p], with its index. *)
Fixpoint findRow (p : Row -> bool) (i : nat) (rows : list Row) : option (nat * Row) :=
  match rows with
  | [] => None
  | row :: rest => if p row then Some (i, row) else findRow p (S i) rest
  end.

(** The loops of the service start at index 1: the first row is the
    heading. *)
Definition findData (p : Row -> bool) (rows : list Row) : option (nat * Row) :=
  findRow p 1 (drop 1 rows).

(** The cell in column [col] of a row becomes [value]. *)
Definition setCell (col : nat) (value : string) (row : Row) : Row :=
  if (col <? length row)%nat then <[col := value]> row
  else row ++ replicate (col - length row) "" ++ [value].

(** [values.update] of one cell: the cell in column [col] of row
    [rowNumber] (rows are numbered from 1). *)
Definition updateCell (rowNumber : Z) (col : nat) (value : string) (rows : list Row)
  : Outcome (list Row) :=
  if rowNumber <? 1 then Throw (ServiceError "Unable to parse range")
  else
    let i := Z.to_nat (rowNumber - 1) in
    let rows := rows ++ replicate (S i - length rows) [] in
    Ret (alter (setCell col value) i rows).

(** [x || null] on a cell that may be missing *)
Definition orNull (cell : option string) : option string := orElse cell None.

(** What the spreadsheet service answers to the requests of one call of a
    method: whether [values.get] and [values.update] are carried out.  A
    request that is not carried out rejects with the error of the service
    and has changed nothing. *)
Record Api : Type := mkApi {
  get : Outcome unit;
  update : Outcome unit
}.

(** The service carries out every request. *)
Definition served : Api := {| get := Ret tt; update := Ret tt |}.

Section Service.
Context {js : JsText}.

(** [rows[i][3] || null], as the handler will parse it *)
Definition stateOf (row : Row) : StateJson :=
  match orNull (row !! 3%nat) with
  | Some text => readStateCell text
  | None => json_absent
  end.

Definition findOrCreateUser (now : Z) (lineUserId : string) (book : Book)
  : Found.t * Book :=
  let rows := users book in
  match findData (fun row => bool_decide (row !! 1%nat = Some lineUserId)) rows with
  | Some (i, row) =>
      ({| Found.rowNumber := Z.of_nat i + 1;
          Found.user :=
            {| SheetUser.id := parseInt (row !! 0%nat);
               SheetUser.line_user_id := lineUserId;
               SheetUser.state_json := stateOf row |} |},
       book)
  | None =>
      let newUserId := Z.of_nat (length rows) in
      let newRow := [numberText newUserId; lineUserId; isoText now; ""] in
      let newRowNumber := Z.of_nat (length rows) + 1 in
      ({| Found.rowNumber := newRowNumber;
          Found.user :=
            {| SheetUser.id := Some newUserId;
               SheetUser.line_user_id := lineUserId;
               SheetUser.state_json := json_absent |} |},
       {| users := rows ++ [newRow];
          objectives := objectives book;
          notes := notes book |})
  end.

(** An object is truthy, so a state that is not [null] is always
    written as its JSON text. *)
Definition setUserState (api : Api) (rowNumber : Z) (state : option UserState)
           (book : Book) : Outcome unit * Book :=
  let value :=
    match state with
    | Some state => stringifyState state
    | None => ""
    end in
  match update api with
  | Ret _ =>
      match updateCell rowNumber 3 value (users book) with
      | Ret rows =>
          (Ret tt, {| users := rows; objectives := objectives book; notes := notes book |})
      | Throw e => (Throw e, book)
      end
  | Throw e => (Throw e, book)
  end.

Definition getAllUsers (book : Book) : list SheetUser.t :=
  omap (fun row =>
          if JsString.truthy (row !! 0%nat) && JsString.truthy (row !! 1%nat)
          then Some {| SheetUser.id := parseInt (row !! 0%nat);
                       SheetUser.line_user_id := show (row !! 1%nat);
                       SheetUser.state_json := stateOf row |}
          else None)
       (drop 1 (users book)).

Definition storedOf (row : Row) : Stored.t :=
  {| Stored.objective_id := parseInt (row !! 0%nat);
     Stored.user_id := parseInt (row !! 1%nat);
     Stored.title := row !! 2%nat;
     Stored.status := row !! 3%nat;
     Stored.due_date := orNull (row !! 4%nat);
     Stored.gcal_event_ids := orNull (row !! 5%nat) |}.

Definition createLearningObjective (userId : Z) (title : string)
           (dueDate : option string) (book : Book) : Stored.t * Book :=
  let newObjectiveId := Z.of_nat (length (objectives book)) + 100 in
  let newRow :=
    [numberText newObjectiveId; numberText userId; title; "In Progress";
     show (orElse dueDate (Some "")); ""] in
  ({| Stored.objective_id := Some newObjectiveId;
      Stored.user_id := Some userId;
      Stored.title := Some title;
      Stored.status := Some "In Progress";
      Stored.due_date := dueDate;
      Stored.gcal_event_ids := None |},
   {| users := users book;
      objectives := objectives book ++ [newRow];
      notes := notes book |}).

Definition linkEventToObjective (api : Api) (objectiveId : Z) (eventId : string)
           (book : Book) : Outcome unit * Book :=
  match get api with
  | Ret _ =>
      match findData (fun row => bool_decide (parseInt (row !! 0%nat) = Some objectiveId))
                     (objectives book) with
      | Some (i, row) =>
          let rowNumber := Z.of_nat i + 1 in
          let currentEventIds := show (orElse (row !! 5%nat) (Some "")) in
          let newEventIds :=
            if negb (String.eqb currentEventIds "")
            then currentEventIds +:+ "," +:+ eventId
            else eventId in
          match update api with
          | Ret _ =>
              match updateCell rowNumber 5 newEventIds (objectives book) with
              | Ret rows =>
                  (Ret tt,
                   {| users := users book; objectives := rows; notes := notes book |})
              | Throw e => (Throw e, book)
              end
          | Throw e => (Throw e, book)
          end
      | None => (Ret tt, book)
      end
  | Throw e => (Throw e, book)
  end.

Definition findObjectiveByTitle (userId : Z) (title : string) (book : Book)
  : option Stored.t :=
  match findData (fun row =>
                    bool_decide (parseInt (row !! 1%nat) = Some userId)
                    && bool_decide (row !! 2%nat = Some title))
                 (objectives book) with
  | Some (_, row) => Some (storedOf row)
  | None => None
  end.

Definition getActiveObjectivesByUserId (userId : Z) (book : Book) : list Stored.t :=
  map (fun row =>
         {| Stored.objective_id := parseInt (row !! 0%nat);
            Stored.user_id := parseInt (row !! 1%nat);
            Stored.title := row !! 2%nat;
            Stored.status := Some "In Progress";
            Stored.due_date := orNull (row !! 4%nat);
            Stored.gcal_event_ids := orNull (row !! 5%nat) |})
      (List.filter (fun row =>
                      bool_decide (parseInt (row !! 1%nat) = Some userId)
                      && bool_decide (row !! 3%nat = Some "In Progress"))
                   (drop 1 (objectives book))).

(** The third cell of a note is written as [null]: an empty cell. *)
Definition saveKnowledgeNote (userId : Z) (knowledgeData : Intent.t) (book : Book)
  : Z * Book :=
  let noteId :=
    match notes book with
    | [] => 1
    | rows => Z.of_nat (length rows)
    end in
  let newRow :=
    [numberText noteId; numberText userId; ""; "image";
     show (orElse (Intent.source knowledgeData) (Some ""));
     stringifyNote knowledgeData] in
  (noteId,
   {| users := users book; objectives := objectives book;
      notes := notes book ++ [newRow] |}).

Definition getKnowledgeNoteById (noteId : Z) (book : Book)
  : Outcome (option KnowledgeData) :=
  match findData (fun row => bool_decide (parseInt (row !! 0%nat) = Some noteId))
                 (notes book) with
  | Some (_, row) =>
      match parseNote (row !! 5%nat) with
      | Ret knowledgeData => Ret (Some knowledgeData)
      | Throw e => Throw e
      end
  | None => Ret None
  end.

Definition linkNoteToObjective (api : Api) (noteId objectiveId : Z) (book : Book)
  : Outcome unit * Book :=
  match get api with
  | Ret _ =>
      match findData (fun row => bool_decide (parseInt (row !! 0%nat) = Some noteId))
                     (notes book) with
      | Some (i, _) =>
          match update api with
          | Ret _ =>
              match updateCell (Z.of_nat i + 1) 2 (numberText objectiveId) (notes book) with
              | Ret rows =>
                  (Ret tt,
                   {| users := users book; objectives := objectives book; notes := rows |})
              | Throw e => (Throw e, book)
              end
          | Throw e => (Throw e, book)
          end
      | None => (Ret tt, book)
      end
  | Throw e => (Throw e, book)
  end.

End Service.
End Sheet.

(** [s] holds no comma. *)
Fixpoint commaFree (s : string) : bool :=
  match s with
  | EmptyString => true
  | String c rest => negb (Ascii.eqb c ","%char) && commaFree rest
  end.

(** ** A concrete host and concrete collaborators

    Used to run the handler on explicit inputs.  The host is in the
    Asia/Taipei zone (UTC+8, no daylight saving) and reads the ISO 8601
    forms [YYYY-MM-DD] (UTC midnight) and [YYYY-MM-DDTHH:mm:ss] (local
    time); any other text is an Invalid Date for it. *)

Module Sample.

Definition tz : Z := 8 * JsDate.msPerHour.

Definition digit (c : ascii) : option Z :=
  let n := Z.of_N (N_of_ascii c) in
  if (48 <=? n) && (n <=? 57) then Some (n - 48) else None.

Fixpoint digits (s : string) (acc : Z) : option Z :=
  match s with
  | EmptyString => Some acc
  | String c r =>
      match digit c with
      | Some d => digits r (10 * acc + d)
      | None => None
      end
  end.

Definition field (s : string) (from len : nat) : option Z :=
  let f := String.substring from len s in
  if (String.length f =? len)%nat then digits f 0 else None.

Definition sepAt (s : string) (n : nat) (sep : string) : bool :=
  String.eqb (String.substring n 1 s) sep.

Definition parseIso (s : string) : option Z :=
  match field s 0 4, field s 5 2, field s 8 2 with
  | Some y, Some m, Some d =>
      let day := JsDate.daysFromCivil y m d in
      if sepAt s 4 "-" && sepAt s 7 "-"
         && bool_decide (JsDate.civilFromDays day = (y, m, d))
      then
        if (String.length s =? 10)%nat then Some (day * JsDate.msPerDay)
        else
          match field s 11 2, field s 14 2, field s 17 2 with
          | Some hh, Some mm, Some ss =>
              if (String.length s =? 19)%nat
                 && sepAt s 10 "T" && sepAt s 13 ":" && sepAt s 16 ":"
                 && (hh <? 24) && (mm <? 60) && (ss <? 60)
              then Some (day * JsDate.msPerDay + hh * JsDate.msPerHour
                         + mm * 60000 + ss * 1000 - tz)
              else None
          | _, _, _ => None
          end
      else None
  | _, _, _ => None
  end.

Definition localCivil (t : Z) : Z * Z * Z :=
  JsDate.civilFromDays (JsDate.localDay tz t).

Definition msOfDay (t : Z) : Z := (t + tz) mod JsDate.msPerDay.

Definition slashDate (t : Z) : string :=
  let '(y, m, d) := localCivil t in
  pretty y +:+ "/" +:+ pretty m +:+ "/" +:+ pretty d.

Definition weekdayName (t : Z) : string :=
  default "" (["星期日"; "星期一"; "星期二"; "星期三"; "星期四"; "星期五"; "星期六"]
                !! Z.to_nat (JsDate.getDay tz t)).

Definition longDate (t : Z) : string :=
  let '(y, m, d) := localCivil t in
  pretty y +:+ "年" +:+ pretty m +:+ "月" +:+ pretty d +:+ "日 " +:+ weekdayName t.

Definition clock12 (t : Z) : string :=
  let hh := msOfDay t / JsDate.msPerHour in
  let mm := msOfDay t mod JsDate.msPerHour / 60000 in
  let ss := msOfDay t mod 60000 / 1000 in
  (if hh <? 12 then "上午" else "下午")
  +:+ pretty (if hh mod 12 =? 0 then 12 else hh mod 12)
  +:+ ":" +:+ JsDate.pad 2 mm +:+ ":" +:+ JsDate.pad 2 ss.

Definition clock24 (t : Z) : string :=
  let hh := msOfDay t / JsDate.msPerHour in
  let mm := msOfDay t mod JsDate.msPerHour / 60000 in
  JsDate.pad 2 hh +:+ ":" +:+ JsDate.pad 2 mm.

Definition orInvalid (f : Z -> string) (d : option Z) : string :=
  match d with
  | Some t => f t
  | None => "Invalid Date"
  end.

(** The text of a number: in decimal for an integer, with all its
    decimals for a binary fraction (as for 1.5 or 0.25, where they are
    few). *)
Definition numberString (x : JsNumber.t) : string :=
  match x with
  | JsNumber.finite m e =>
      if 0 <=? e then pretty (m * 2 ^ e)
      else if m mod 2 ^ (- e) =? 0 then pretty (m / 2 ^ (- e))
      else
        let scaled := Z.abs m * 5 ^ (- e) in
        (if m <? 0 then "-" else "")
        +:+ pretty (scaled / 10 ^ (- e)) +:+ "."
        +:+ JsDate.pad (Z.to_nat (- e)) (scaled mod 10 ^ (- e))
  | JsNumber.infinite negative => if negative then "-Infinity" else "Infinity"
  | JsNumber.nan => "NaN"
  end.

Definition host : Host :=
  {| tzOffsetMs := tz;
     Date_parse := parseIso;
     toLocaleDateString := orInvalid slashDate;
     toLocaleDateStringLong := orInvalid longDate;
     toLocaleString := orInvalid (fun t => slashDate t +:+ " " +:+ clock12 t);
     toLocaleStringTaipei := orInvalid (fun t => slashDate t +:+ " " +:+ clock12 t);
     toLocaleTimeString := orInvalid clock24;
     Number_toString := numberString |}.

(** Collaborators that are up: the calendar stores what it is given, the
    sheet accepts every write and knows no objective, the model does not
    understand anything. *)
Definition stored (eventData : EventData.t) : CalendarEvent.t :=
  {| CalendarEvent.id := "evt-" +:+ Js.show (EventData.summary eventData);
     CalendarEvent.summary := Js.show (EventData.summary eventData);
     CalendarEvent.start := EventDateTime.mk None None;
     CalendarEvent.end_ := EventDateTime.mk None None |}.

Definition calendar : EventStore.t :=
  {| EventStore.createEvent := fun _ eventData => Ret (stored eventData);
     EventStore.deleteEventById := fun _ _ => Ret tt;
     EventStore.searchEvents := fun _ _ => Ret [];
     EventStore.listEvents := fun _ _ => Ret [] |}.

Definition sheet : UserStore.t :=
  {| UserStore.setUserState := fun _ _ _ => Ret tt;
     UserStore.findObjectiveByTitle := fun _ _ _ => Ret None;
     UserStore.linkNoteToObjective := fun _ _ _ => Ret tt;
     UserStore.getKnowledgeNoteById := fun _ _ => Ret None;
     UserStore.createLearningObjective :=
       fun _ _ title dueDate => Ret (Objective.mk 1 title dueDate);
     UserStore.linkEventToObjective := fun _ _ _ => Ret tt;
     UserStore.saveKnowledgeNote := fun _ _ _ => Ret 1 |}.

Definition intent (action : string) (params : option Params.t)
           (plan : option (list PlanEvent.t)) : Intent.t :=
  {| Intent.action := action; Intent.params := params; Intent.plan := plan;
     Intent.objectiveTitle := None; Intent.source := None; Intent.error := None |}.

(** A model that answers every question with the given intent and every
    deletion question with the given selection. *)
Definition model (answer : Intent.t) (selection : Selection) : Oracle.t :=
  {| Oracle.understandAndPlan := fun _ _ => Ret answer;
     Oracle.modifyPlan := fun _ _ _ => Ret answer;
     Oracle.parseDeletionChoice := fun _ _ _ => Ret selection;
     Oracle.mergePlanWithCorrection := fun _ _ _ => Ret answer;
     Oracle.processKnowledge := fun _ _ _ => Ret "";
     Oracle.generatePlanForObjective := fun _ _ => Ret answer;
     Oracle.analyzeImageAndPlan := fun _ _ => Ret answer |}.

(** Monday 2025-01-06, 10:00 in Taipei. *)
Definition clock : Z := 1736128800000.

Definition world (o : Oracle.t) (e : EventStore.t) (u : UserStore.t)
           (push : bool) : World :=
  {| oracle := o;
     eventStore := e;
     userStore := u;
     pushMessage_answer :=
       fun _ _ _ => if push then Ret tt else Throw (ServiceError "push failed");
     now := fun _ => clock |}.

Definition unknownIntent : Intent.t := intent "" None None.

Definition step (summary : string) : PlanEvent.t :=
  PlanEvent.mk summary Js.undefined Js.undefined None None.

Definition user (state_json : StateJson) : UserContext.t :=
  {| UserContext.rowNumber := 2;
     UserContext.user :=
       {| User.id := 1; User.line_user_id := "U1"; User.state_json := state_json |} |}.

Definition event (id summary day : string) : CalendarEvent.t :=
  {| CalendarEvent.id := id;
     CalendarEvent.summary := summary;
     CalendarEvent.start := EventDateTime.mk (Some day) None;
     CalendarEvent.end_ := EventDateTime.mk (Some day) None |}.

End Sample.

(** ** Concrete runs *)

Module Run.

(** Three undated steps; the calendar rejects the second. *)
Definition plan3 : list PlanEvent.t :=
  [Sample.step "step 1"; Sample.step "step 2"; Sample.step "step 3"].



Definition quiet : World :=
  Sample.world (Sample.model Sample.unknownIntent sel_none) Sample.calendar Sample.sheet true.

(** A user waiting to confirm [plan3]; the model answers a modification
    request with the same plan. *)
Definition confirming : UserContext.t :=
  Sample.user (json_state (waiting_confirmation (Some plan3))).

Definition samePlan : World :=
  Sample.world
    (Sample.model (Sample.intent "plan_complex_task" None (Some plan3)) sel_none)
    Sample.calendar Sample.sheet true.

(** The model reads every message as a request to create a meeting. *)
Definition meeting : Params.t :=
  {| Params.summary := "會議"; Params.startTime := "2025-01-07T14:00:00";
     Params.endTime := Js.undefined; Params.date := Js.undefined;
     Params.duration_hours := None;
     Params.timeRange := Js.undefined; Params.query := Js.undefined;
     Params.response := Js.undefined;
     Params.title := Js.undefined; Params.dueDate := Js.undefined;
     Params.objectiveTitle := Js.undefined |}.

Definition createsMeeting : World :=
  Sample.world (Sample.model (Sample.intent "create_event" (Some meeting) None) sel_none)
               Sample.calendar Sample.sheet true.

(** The model answers [clarify_or_reject] without [params]. *)
Definition malformedAnswer : World :=
  Sample.world (Sample.model (Sample.intent "clarify_or_reject" None None) sel_none)
               Sample.calendar Sample.sheet true.

(** The model answers [clarify_or_reject] with [params] that hold no
    [response]. *)
Definition noResponse : World :=
  Sample.world
    (Sample.model (Sample.intent "clarify_or_reject" (Some Params.empty) None) sel_none)
    Sample.calendar Sample.sheet true.

(** The model answers [clarify_or_reject] with an empty response. *)
Definition emptyAnswer : World :=
  Sample.world
    (Sample.model (clarify "") sel_none)
    Sample.calendar Sample.sheet true.

(** Three candidates for deletion. *)
Definition candidates : list CalendarEvent.t :=
  [Sample.event "e1" "A" "2025-01-06"; Sample.event "e2" "B" "2025-01-06";
   Sample.event "e3" "C" "2025-01-07"].

Definition deleting : UserContext.t :=
  Sample.user (json_state (waiting_delete_confirmation candidates)).

(** The model reads the reply as the first and the third candidate. *)
Definition firstAndThird : World :=
  Sample.world (Sample.model Sample.unknownIntent (sel_indices [0; 2]))
               Sample.calendar Sample.sheet true.

(** The calendar refuses to delete the third candidate. *)
Definition refusesThird : EventStore.t :=
  {| EventStore.createEvent := fun _ eventData => Ret (Sample.stored eventData);
     EventStore.deleteEventById :=
       fun _ eventId =>
         if String.eqb eventId "e3" then Throw (ServiceError "refused") else Ret tt;
     EventStore.searchEvents := fun _ _ => Ret [];
     EventStore.listEvents := fun _ _ => Ret [] |}.

Definition thirdRefused : World :=
  Sample.world (Sample.model Sample.unknownIntent (sel_indices [0; 2]))
               refusesThird Sample.sheet true.

(** The model reads the reply as all candidates; the calendar is down. *)
Definition calendarDown : EventStore.t :=
  {| EventStore.createEvent := fun _ _ => Throw (ServiceError "down");
     EventStore.deleteEventById := fun _ _ => Throw (ServiceError "down");
     EventStore.searchEvents := fun _ _ => Throw (ServiceError "down");
     EventStore.listEvents := fun _ _ => Throw (ServiceError "down") |}.

Definition deleteAllDown : World :=
  Sample.world (Sample.model Sample.unknownIntent sel_all)
               calendarDown Sample.sheet true.

(** The model answers an image with two dated steps; the push channel is
    down. *)
Definition poster : list PlanEvent.t :=
  [PlanEvent.mk "Submit ML Assignment" "2025-04-10" Js.undefined None None;
   PlanEvent.mk "FPGA Project Review" "2025-04-15" Js.undefined None None].

Definition pushDown : World :=
  Sample.world
    (Sample.model (Sample.intent "plan_complex_task" None (Some poster)) sel_none)
    Sample.calendar Sample.sheet false.

Definition pushUp : World :=
  Sample.world
    (Sample.model (Sample.intent "plan_complex_task" None (Some poster)) sel_none)
    Sample.calendar Sample.sheet true.

(** Two events of the same day, and an image plan without any date. *)
Definition sameDay : list CalendarEvent.t :=
  [Sample.event "e1" "A" "2025-01-06"; Sample.event "e2" "B" "2025-01-06"].



(** Three undated steps, the second of which is to last 2 ^ 1000
    hours. *)
Definition endless : list PlanEvent.t :=
  [Sample.step "step 1";
   PlanEvent.mk "step 2" Js.undefined Js.undefined (Some (JsNumber.finite 1 1000)) None;
   Sample.step "step 3"].

(** A step whose date is not one. *)
Definition badStep : PlanEvent.t :=
  PlanEvent.mk "step 2" "someday" Js.undefined None None.

(** The calendar finds the three candidates for every query; the model
    reads the reply as the first and the third. *)
Definition searching : EventStore.t :=
  {| EventStore.createEvent := fun _ eventData => Ret (Sample.stored eventData);
     EventStore.deleteEventById := fun _ _ => Ret tt;
     EventStore.searchEvents := fun _ _ => Ret candidates;
     EventStore.listEvents := fun _ _ => Ret [] |}.

Definition findsThree : World :=
  Sample.world (Sample.model Sample.unknownIntent (sel_indices [0; 2]))
               searching Sample.sheet true.

Definition deleteQuery : Intent.t :=
  Sample.intent "delete_event"
    (Some {| Params.summary := Js.undefined; Params.startTime := Js.undefined;
             Params.endTime := Js.undefined; Params.date := Js.undefined;
             Params.duration_hours := None;
             Params.timeRange := Js.undefined; Params.query := "A";
             Params.response := Js.undefined;
             Params.title := Js.undefined; Params.dueDate := Js.undefined;
             Params.objectiveTitle := Js.undefined |})
    None.

(** The calendar is down for every call. *)
Definition down : World :=
  Sample.world (Sample.model Sample.unknownIntent sel_none) calendarDown Sample.sheet true.

(** Two events without any start. *)
Definition noStart : list CalendarEvent.t :=
  [ {| CalendarEvent.id := "e1"; CalendarEvent.summary := "A";
       CalendarEvent.start := EventDateTime.mk None None;
       CalendarEvent.end_ := EventDateTime.mk None None |};
    {| CalendarEvent.id := "e2"; CalendarEvent.summary := "B";
       CalendarEvent.start := EventDateTime.mk None None;
       CalendarEvent.end_ := EventDateTime.mk None None |} ].

(** The same step twice, with different durations. *)
Definition twice : list PlanEvent.t :=
  [PlanEvent.mk "quiz" "2025-04-10" Js.undefined (Some (JsNumber.ofZ 1)) None;
   PlanEvent.mk "quiz" "2025-04-10" Js.undefined (Some (JsNumber.ofZ 2)) None].

(** The same step with a [date] that is [null] and without [date]. *)
Definition nullAndMissing : list PlanEvent.t :=
  [PlanEvent.mk "quiz" Js.null "2025-04-10T09:00:00" None None;
   PlanEvent.mk "quiz" Js.undefined "2025-04-10T09:00:00" None None].

(** A LINE client that takes every reply and a sheet that finds the
    given user. *)
Definition lineFor (userContext : UserContext.t) : Transport :=
  {| replyMessage_answer := fun _ _ _ => Ret tt;
     getMessageContent_answer := fun _ _ => Ret "bytes";
     findOrCreateUser_answer := fun _ _ => Ret userContext |}.

Definition line : Transport := lineFor (Sample.user json_absent).

Definition lineDeleting : Transport := lineFor deleting.

(** A model that fails every request. *)
Definition noModel : Oracle.t :=
  {| Oracle.understandAndPlan := fun _ _ => Throw (ServiceError "model down");
     Oracle.modifyPlan := fun _ _ _ => Throw (ServiceError "model down");
     Oracle.parseDeletionChoice := fun _ _ _ => Throw (ServiceError "model down");
     Oracle.mergePlanWithCorrection := fun _ _ _ => Throw (ServiceError "model down");
     Oracle.processKnowledge := fun _ _ _ => Throw (ServiceError "model down");
     Oracle.generatePlanForObjective := fun _ _ => Throw (ServiceError "model down");
     Oracle.analyzeImageAndPlan := fun _ _ => Throw (ServiceError "model down") |}.

Definition silentModel : World :=
  Sample.world noModel Sample.calendar Sample.sheet true.

(** Two users for the weekly review.  The objectives of the first cannot
    be read; the second has one objective with two events, of which the
    first started yesterday and the second starts in two days. *)
Definition reviewed : list User.t :=
  [ {| User.id := 1; User.line_user_id := "U1"; User.state_json := json_absent |};
    {| User.id := 2; User.line_user_id := "U2"; User.state_json := json_absent |} ].

Definition office : Office :=
  {| getAllUsers_answer := fun _ => Ret reviewed;
     getActiveObjectivesByUserId_answer :=
       fun _ userId =>
         if userId =? 1 then Throw (ServiceError "sheet down")
         else Ret [LearningObjective.mk 101 userId "Exam" None (Some "e1,e2")];
     events_get_answer :=
       fun _ eventId =>
         if String.eqb eventId "e1"
         then Ret (EventResource.mk (Sample.event "e1" "A" "2025-01-05") (Some "confirmed"))
         else Ret (EventResource.mk (Sample.event "e2" "B" "2025-01-08") (Some "confirmed"));
     pushReport_answer := fun _ _ _ => Ret tt;
     review_now := fun _ => Sample.clock |}.

(** A host for the texts of the sheet: numbers in decimal, the creation
    time in the ISO form, and the JSON texts of the one state and of the
    notes that the runs below store (a note is written with its [source]
    and kept as its text; any other state is written by its status alone,
    and a text that is not a pending note is read as text that is not
    JSON). *)
Fixpoint leadingDigits (s : string) (acc : option Z) : option Z :=
  match s with
  | String c r =>
      match Sample.digit c with
      | Some d => leadingDigits r (Some (10 * default 0 acc + d))
      | None => acc
      end
  | EmptyString => acc
  end.

Definition decimal (s : string) : option Z :=
  match s with
  | String "-" r => Z.opp <$> leadingDigits r None
  | _ => leadingDigits s None
  end.

Definition isoTime (t : Z) : string :=
  let ms := t mod JsDate.msPerDay in
  JsDate.isoDate t +:+ "T" +:+ JsDate.pad 2 (ms / JsDate.msPerHour)
  +:+ ":" +:+ JsDate.pad 2 (ms mod JsDate.msPerHour / 60000)
  +:+ ":" +:+ JsDate.pad 2 (ms mod 60000 / 1000)
  +:+ "." +:+ JsDate.pad 3 (ms mod 1000) +:+ "Z".

Definition property (name value : string) : string :=
  Line.dq +:+ name +:+ Line.dq +:+ ":" +:+ value.

Definition quoted (s : string) : string := Line.dq +:+ s +:+ Line.dq.

Definition stateText (state : UserState) : string :=
  match state with
  | waiting_confirmation _ => "{" +:+ property "status" (quoted "waiting_confirmation") +:+ "}"
  | waiting_delete_confirmation _ =>
      "{" +:+ property "status" (quoted "waiting_delete_confirmation") +:+ "}"
  | waiting_plan_correction _ =>
      "{" +:+ property "status" (quoted "waiting_plan_correction") +:+ "}"
  | waiting_knowledge_action (Some noteId) =>
      "{" +:+ property "status" (quoted "waiting_knowledge_action") +:+ ","
      +:+ property "noteId" (pretty noteId) +:+ "}"
  | waiting_knowledge_action None =>
      "{" +:+ property "status" (quoted "waiting_knowledge_action") +:+ "}"
  | unrecognized status => "{" +:+ property "status" (quoted status) +:+ "}"
  end.

Definition pendingNote : string :=
  "{" +:+ property "status" (quoted "waiting_knowledge_action") +:+ ","
  +:+ property "noteId" "".

Definition readState (text : string) : StateJson :=
  let n := String.length pendingNote in
  let rest := String.substring n (String.length text - n - 1)%nat text in
  if String.eqb text (pendingNote +:+ rest +:+ "}")
  then match decimal rest with
       | Some noteId => json_state (waiting_knowledge_action (Some noteId))
       | None => json_invalid text
       end
  else json_invalid text.

Definition noteText (knowledgeData : Intent.t) : string :=
  "{" +:+ property "source" (quoted (default "" (Intent.source knowledgeData))) +:+ "}".

Definition js : JsText :=
  {| numberText := pretty;
     parseIntText := decimal;
     isoText := isoTime;
     stringifyState := stateText;
     readStateCell := readState;
     stringifyNote := noteText;
     parseNoteText := Ret |}.

Definition book : Sheet.Book :=
  {| Sheet.users :=
       [["id"; "line_user_id"; "created_at"; "state_json"];
        ["1"; "U1"; "2025-01-01T00:00:00.000Z"; ""]];
     Sheet.objectives :=
       [["objective_id"; "user_id"; "title"; "status"; "due_date"; "gcal_event_ids"];
        ["101"; "1"; "Exam"; "In Progress"; "2025-02-01"; "ev1"]];
     Sheet.notes :=
       [["note_id"; "user_id"; "objective_id"; "source_type"; "raw_content";
         "structured_data_json"]] |}.

Definition emptyBook : Sheet.Book :=
  {| Sheet.users := []; Sheet.objectives := []; Sheet.notes := [] |}.

Definition lecture : Intent.t :=
  {| Intent.action := "create_learning_plan"; Intent.params := None;
     Intent.plan := None; Intent.objectiveTitle := None;
     Intent.source := Some "Lecture 3"; Intent.error := None |}.

End Run.

(** ** Duplicates in a plan *)

(** What [sameStep] compares. *)
Definition stepKey (event : PlanEvent.t) : Js.value * Js.value :=
  (PlanEvent.summary event, PlanEvent.date event).

(** Dropping duplicates in one pass, for comparison with [uniqueEvents]:
    a step is kept unless one of the steps gone through before it
    ([seen]) has the same summary and date. *)
Fixpoint keepFirst (seen l : list PlanEvent.t) : list PlanEvent.t :=
  match l with
  | [] => []
  | event :: rest =>
      if existsb (sameStep event) seen then keepFirst (seen ++ [event]) rest
      else event :: keepFirst (seen ++ [event]) rest
  end.

(** * Properties *)

(** ** The monad *)

Lemma bind_ret_l {A B : Type} (a : A) (k : A -> M B) (h : History) :
  bind (ret a) k h = k a h.
Proof.
  unfold bind, ret. rewrite app_nil_r. by destruct (k a h).
Qed.

Lemma bind_ret_r {A : Type} (m : M A) (h : History) :
  bind m ret h = m h.
Proof.
  unfold bind, ret. destruct (m h) as [[a|e] l]; [by rewrite app_nil_r | done].
Qed.

Lemma bind_assoc {A B C : Type} (m : M A) (k : A -> M B) (k' : B -> M C) (h : History) :
  bind (bind m k) k' h = bind m (fun a => bind (k a) k') h.
Proof.
  unfold bind. destruct (m h) as [[a|e] l1]; [|done].
  destruct (k a (h ++ l1)) as [[b|e] l2]; [|done].
  rewrite <- app_assoc. destruct (k' b (h ++ l1 ++ l2)) as [r l3].
  by rewrite app_assoc.
Qed.

Lemma bind_lift_ret {A B : Type} (a : A) (k : A -> M B) (h : History) :
  bind (lift (Ret a)) k h = k a h.
Proof. apply (bind_ret_l a k h). Qed.

Lemma bind_ext {A B : Type} (m : M A) (k k' : A -> M B) (h : History) :
  (forall a h', k a h' = k' a h') -> bind m k h = bind m k' h.
Proof. intros E. unfold bind. destruct (m h) as [[a|e] l]; [by rewrite E | done]. Qed.

(** ** Skipping the weekend *)

Module JsDateFacts.
Import JsDate.

Lemma localDay_addDays tz t : localDay tz (addDays t 1) = localDay tz t + 1.
Proof.
  unfold localDay, addDays, msPerDay.
  replace (t + 1 * 86400000 + tz) with (t + tz + 1 * 86400000) by lia.
  by rewrite Z.div_add.
Qed.

Lemma getDay_range tz t : 0 <= getDay tz t < 7.
Proof. unfold getDay. apply Z.mod_pos_bound. lia. Qed.

Lemma getDay_addDays tz t : getDay tz (addDays t 1) = (getDay tz t + 1) mod 7.
Proof.
  unfold getDay. rewrite localDay_addDays.
  replace (localDay tz t + 1 + 4) with (localDay tz t + 4 + 1) by lia.
  by rewrite Zplus_mod_idemp_l.
Qed.

(** After the loop the cursor is on a weekday: the two rounds of
    [skipWeekend] suffice. *)
Lemma skipWeekend_exits tz t : isWeekend tz (skipWeekend tz t) = false.
Proof.
  unfold skipWeekend, skipWeekendLoop.
  destruct (isWeekend tz t) eqn:E1; [|done].
  destruct (isWeekend tz (addDays t 1)) eqn:E2; [|done].
  unfold isWeekend in *.
  rewrite !getDay_addDays in *.
  pose proof (getDay_range tz t) as R.
  set (d := getDay tz t) in *.
  assert (d = 0 \/ d = 1 \/ d = 2 \/ d = 3 \/ d = 4 \/ d = 5 \/ d = 6) as C by lia.
  destruct C as [->|[->|[->|[->|[->|[->| ->]]]]]]; done.
Qed.

Lemma skipWeekend_ge tz t : t <= skipWeekend tz t.
Proof.
  unfold skipWeekend, skipWeekendLoop, addDays, msPerDay.
  destruct (isWeekend tz t); [|lia].
  destruct (isWeekend tz (t + 1 * 86400000)); lia.
Qed.

Lemma localDay_mono tz a b : a <= b -> localDay tz a <= localDay tz b.
Proof. intros. unfold localDay, msPerDay. apply Z.div_le_mono; lia. Qed.

Lemma localDay_next tz a b : addDays a 1 <= b -> localDay tz a < localDay tz b.
Proof.
  intros H. apply (localDay_mono tz) in H. rewrite localDay_addDays in H. lia.
Qed.
End JsDateFacts.

(** ** Plan commit *)

Section Commit.
Context {host : Host} {world : World}.

Lemma forallb_Forall {A : Type} (f : A -> bool) (l : list A) :
  forallb f l = true -> Forall (fun x => f x = true) l.
Proof.
  induction l as [|x l IH]; cbn; [constructor|].
  intros [Hx Hl]%andb_prop. constructor; auto.
Qed.

Lemma toISOString_validDate (d : option Z) :
  toISOString d
  = match validDate d with
    | Some t => Ret t
    | None => Throw RangeError
    end.
Proof.
  unfold validDate, toISOString. destruct d as [t|]; [|done].
  by destruct (JsDate.inRange t).
Qed.

Lemma validDate_Some (d : option Z) (t : Z) :
  validDate d = Some t <-> d = Some t /\ JsDate.inRange t = true.
Proof.
  unfold validDate, toISOString. destruct d as [t'|].
  - destruct (JsDate.inRange t') eqn:E; split.
    + by intros [= ->].
    + by intros [[= ->] _].
    + done.
    + intros [[= ->] H]. congruence.
  - split; [done | by intros [? _]].
Qed.

Lemma undated_stepStart item cursor :
  undated item = true ->
  stepStart cursor item = (skipWeekendDate cursor, nextDay (skipWeekendDate cursor)).
Proof.
  unfold undated, stepStart. intros [Hd Hs]%andb_prop.
  apply negb_true_iff in Hd, Hs. by rewrite Hd, Hs.
Qed.

Lemma dated_stepStart item cursor :
  undated item = false -> stepStart cursor item = (ownStart item, cursor).
Proof.
  unfold undated, stepStart, ownStart.
  destruct (Js.truthy (PlanEvent.date item)); [done|].
  by destruct (Js.truthy (PlanEvent.startTime item)).
Qed.

Lemma createdEvents_app l1 l2 :
  createdEvents (l1 ++ l2) = createdEvents l1 ++ createdEvents l2.
Proof. apply omap_app. Qed.

Lemma acceptedCount_app l1 l2 :
  acceptedCount (l1 ++ l2) = (acceptedCount l1 + acceptedCount l2)%nat.
Proof.
  unfold acceptedCount. by rewrite createdEvents_app, List.filter_app, length_app.
Qed.

Lemma stateWrites_app l1 l2 :
  stateWrites (l1 ++ l2) = stateWrites l1 ++ stateWrites l2.
Proof. apply omap_app. Qed.

(** The [try] block never throws: it makes one [createEvent] call and
    counts the step exactly when that call returned. *)
Lemma tryCreate_run eventData item createdCount h :
  exists (ok : bool) (l1 : list Entry.t),
    tryCreate eventData item createdCount h
    = (Ret (if ok then S createdCount else createdCount), l1) /\
    createdEvents l1 = [(eventData, ok)] /\
    stateWrites l1 = [].
Proof.
  unfold tryCreate, try_catch at 1, bind at 1, createEvent, perform.
  destruct (EventStore.createEvent eventStore h eventData) as [ev|e]; cbn [isRet].
  - destruct (truthyNum (PlanEvent.objectiveId item)).
    + unfold try_catch, bind, linkEventToObjective, perform, ret.
      destruct (UserStore.linkEventToObjective userStore _ _ _) as [[]|e'];
        cbn [isRet]; exists true; eexists; (split; [reflexivity|]); done.
    + exists true; eexists; (split; [reflexivity|]); done.
  - exists false; eexists; (split; [reflexivity|]); done.
Qed.

(** One round of the loop: with a start and an end that are dates, a
    single [createEvent] call in the [try] and then the remaining steps;
    otherwise [toISOString] throws outside the [try], before any call. *)
Lemma commitSteps_cons item rest createdCount cursor h :
  commitSteps (item :: rest) createdCount cursor h
  = let eventStart := fst (stepStart cursor item) in
    match validDate eventStart, validDate (plusHours eventStart (durationOf item)) with
    | Some t, Some e =>
        bind (tryCreate (stepData item (t, e)) item createdCount)
             (fun createdCount => commitSteps rest createdCount (snd (stepStart cursor item))) h
    | _, _ => (Throw RangeError, [])
    end.
Proof.
  cbn [commitSteps]. destruct (stepStart cursor item) as [eventStart cursor'].
  cbn [fst snd]. cbn zeta. rewrite !toISOString_validDate.
  destruct (validDate eventStart) as [t|]; [|done].
  rewrite bind_lift_ret.
  destruct (validDate (plusHours eventStart (durationOf item))) as [e|]; [|done].
  by rewrite bind_lift_ret.
Qed.

Lemma planDates_length plan : forall cursor, length (planDates cursor plan) = length plan.
Proof.
  induction plan as [|item rest IH]; intros cursor; [done|].
  cbn [planDates]. destruct (stepStart cursor item). cbn. by rewrite IH.
Qed.

Lemma reached_length plan : forall dates, (length (reached plan dates) <= length plan)%nat.
Proof.
  induction plan as [|item rest IH]; intros [|[eventStart eventEnd] dates]; cbn; try lia.
  destruct (validDate eventStart); [|cbn; lia].
  destruct (validDate eventEnd); cbn; [|lia].
  specialize (IH dates). lia.
Qed.

(** The steps reached are the first steps of the plan. *)
Lemma reached_prefix plan :
  forall dates, map fst (reached plan dates) = take (length (reached plan dates)) plan.
Proof.
  induction plan as [|item rest IH]; intros [|[eventStart eventEnd] dates]; cbn; try done.
  destruct (validDate eventStart); [|done].
  destruct (validDate eventEnd); [|done].
  cbn. by rewrite <- IH.
Qed.

(** Every step is reached exactly when every start and every end is a
    date. *)
Lemma reached_all plan :
  forall dates,
    length dates = length plan ->
    (length (reached plan dates) = length plan <-> forallb validDates dates = true).
Proof.
  induction plan as [|item rest IH]; intros [|[eventStart eventEnd] dates] Hlen;
    try discriminate; [done|].
  cbn [reached forallb]. unfold validDates at 1. cbn [fst snd].
  destruct (validDate eventStart) as [t|].
  - destruct (validDate eventEnd) as [e|].
    + rewrite !bool_decide_eq_true_2 by eauto. cbn [andb length].
      rewrite <- IH by (by injection Hlen). lia.
    + rewrite (bool_decide_eq_false_2 (is_Some None)) by (by intros [? ?]).
      rewrite andb_false_r. cbn. split; [lia | discriminate].
  - rewrite (bool_decide_eq_false_2 (is_Some None)) by (by intros [? ?]).
    cbn. split; [lia | discriminate].
Qed.

(** The first step not reached is the first of which the start or the end
    is not a date. *)
Lemma reached_first plan :
  forall dates,
    length dates = length plan ->
    let n := length (reached plan dates) in
    forallb validDates (take n dates) = true /\
    (forall d, dates !! n = Some d -> validDates d = false).
Proof.
  induction plan as [|item rest IH]; intros [|[eventStart eventEnd] dates] Hlen;
    try discriminate; [done|].
  cbn [reached]. cbn zeta.
  destruct (validDate eventStart) as [t|] eqn:E1.
  - destruct (validDate eventEnd) as [e|] eqn:E2.
    + cbn [length take forallb lookup]. unfold validDates at 1. cbn [fst snd].
      rewrite E1, E2, !bool_decide_eq_true_2 by eauto. cbn [andb].
      apply IH. by injection Hlen.
    + cbn. split; [done|]. intros d [= <-]. unfold validDates. cbn [fst snd].
      rewrite E2, (bool_decide_eq_false_2 (is_Some None)) by (by intros [? ?]).
      apply andb_false_r.
  - cbn. split; [done|]. intros d [= <-]. unfold validDates. cbn [fst snd].
    rewrite E1, (bool_decide_eq_false_2 (is_Some None)) by (by intros [? ?]). done.
Qed.

(** What the loop does, for every plan and whatever the calendar answers:
    one [createEvent] per step reached, in order; no write of the state
    cell; and it returns the count received plus the steps the calendar
    accepted when every step is reached, and throws a RangeError
    otherwise. *)
Lemma commitSteps_reached plan :
  forall createdCount cursor h,
    let run := commitSteps plan createdCount cursor h in
    let sent := reached plan (planDates cursor plan) in
    map fst (createdEvents (snd run)) = map (fun step => stepData (fst step) (snd step)) sent /\
    stateWrites (snd run) = [] /\
    fst run = if bool_decide (length sent = length plan)
              then Ret (createdCount + acceptedCount (snd run))%nat
              else Throw RangeError.
Proof.
  induction plan as [|item rest IH]; intros createdCount cursor h; cbn zeta.
  - cbn. split; [done|]. split; [done|]. f_equal. lia.
  - rewrite commitSteps_cons. cbn [planDates]. cbn zeta.
    destruct (stepStart cursor item) as [eventStart cursor'] eqn:Hs. cbn [fst snd reached].
    destruct (validDate eventStart) as [t|]; [|done].
    destruct (validDate (plusHours eventStart (durationOf item))) as [e|]; [|done].
    destruct (tryCreate_run (stepData item (t, e)) item createdCount h)
      as (ok & l1 & E & Hc & Hw).
    set (next := if ok then S createdCount else createdCount) in *.
    assert (bind (tryCreate (stepData item (t, e)) item createdCount)
                 (fun createdCount => commitSteps rest createdCount cursor') h
            = (fst (commitSteps rest next cursor' (h ++ l1)),
               l1 ++ snd (commitSteps rest next cursor' (h ++ l1)))) as ->.
    { unfold bind. rewrite E. by destruct (commitSteps rest next cursor' (h ++ l1)). }
    destruct (IH next cursor' (h ++ l1)) as (IH1 & IH2 & IH3).
    destruct (commitSteps rest next cursor' (h ++ l1)) as [r l2]. cbn [fst snd] in *.
    rewrite createdEvents_app, stateWrites_app, map_app, Hc, Hw, IH1, IH2.
    split; [done|]. split; [done|].
    destruct r as [n|err]; cbn [length].
    + destruct (bool_decide (length (reached rest (planDates cursor' rest)) = length rest))
        eqn:Hd; [|discriminate].
      apply bool_decide_eq_true in Hd. rewrite bool_decide_eq_true_2 by (by rewrite Hd).
      injection IH3 as ->. f_equal. rewrite acceptedCount_app.
      unfold acceptedCount at 2. rewrite Hc. subst next. destruct ok; cbn; lia.
    + destruct (bool_decide (length (reached rest (planDates cursor' rest)) = length rest))
        eqn:Hd; [discriminate|].
      apply bool_decide_eq_false in Hd. rewrite bool_decide_eq_false_2 by lia. done.
Qed.

Lemma chain_ge cursor starts : chain cursor starts -> Forall (fun t => cursor <= t) starts.
Proof.
  revert cursor. induction starts as [|t rest IH]; intros cursor Hc; [constructor|].
  destruct Hc as (Hle & _ & Hrest). constructor; [done|].
  apply IH in Hrest. eapply Forall_impl; [exact Hrest|].
  intros x Hx. unfold JsDate.addDays, JsDate.msPerDay in Hx. cbn beta in *. lia.
Qed.

Lemma chain_weekday cursor starts :
  chain cursor starts -> Forall (fun t => JsDate.isWeekend tzOffsetMs t = false) starts.
Proof.
  revert cursor. induction starts as [|t rest IH]; intros cursor Hc; [constructor|].
  destruct Hc as (_ & Hw & Hrest). constructor; eauto.
Qed.

Lemma chain_sorted cursor starts :
  chain cursor starts ->
  StronglySorted (fun a b => JsDate.localDay tzOffsetMs a < JsDate.localDay tzOffsetMs b) starts.
Proof.
  revert cursor. induction starts as [|t rest IH]; intros cursor Hc; [constructor|].
  destruct Hc as (_ & _ & Hrest). constructor; [eauto|].
  apply chain_ge in Hrest. eapply Forall_impl; [exact Hrest|].
  intros x Hx. by apply JsDateFacts.localDay_next.
Qed.

Lemma timeClip_Some t t' : JsDate.timeClip t = Some t' -> t' = t.
Proof. unfold JsDate.timeClip. destruct (JsDate.inRange t); congruence. Qed.

(** The starts of the undated steps reached follow the cursor discipline
    from the cursor the loop is entered with; no step is reached from a
    cursor that is not a date. *)
Lemma reached_undated plan :
  forall cursor,
    Forall (fun item => undated item = true) plan ->
    let starts := map (fun step => fst (snd step)) (reached plan (planDates cursor plan)) in
    match cursor with
    | Some t => chain t starts
    | None => starts = []
    end.
Proof.
  induction plan as [|item rest IH]; intros cursor Hp; cbn zeta.
  - by destruct cursor.
  - inversion Hp as [|? ? Hitem Hrest]; subst.
    cbn [planDates]. rewrite (undated_stepStart item cursor Hitem). cbn [reached].
    destruct (validDate (skipWeekendDate cursor)) as [t|] eqn:Hv;
      [|by destruct cursor].
    apply validDate_Some in Hv as [Hsk Hin].
    destruct cursor as [c|]; [|discriminate]. cbn [skipWeekendDate] in *.
    apply timeClip_Some in Hsk as Ht. rewrite Hsk.
    destruct (validDate (plusHours (Some t) (durationOf item))) as [e|]; [|done].
    cbn [map fst snd chain]. subst t.
    split; [apply JsDateFacts.skipWeekend_ge|].
    split; [apply JsDateFacts.skipWeekend_exits|].
    specialize (IH (nextDay (Some (JsDate.skipWeekend tzOffsetMs c))) Hrest).
    cbn zeta in IH. cbn [nextDay] in *.
    destruct (JsDate.timeClip (JsDate.addDays (JsDate.skipWeekend tzOffsetMs c) 1))
      as [c'|] eqn:Hc'.
    + apply timeClip_Some in Hc'. by subst c'.
    + by rewrite IH.
Qed.

(** The first cursor is 09:00 local time on the day after [t]'s. *)
Lemma firstAvailableDate_local t :
  firstAvailableDate t + tzOffsetMs
  = (JsDate.localDay tzOffsetMs t + 1) * JsDate.msPerDay + 9 * JsDate.msPerHour.
Proof.
  unfold firstAvailableDate, JsDate.setHours.
  rewrite JsDateFacts.localDay_addDays. lia.
Qed.

Lemma firstCursor_Some t cursor : firstCursor t = Some cursor -> cursor = firstAvailableDate t.
Proof.
  unfold firstCursor, firstAvailableDate, nextDay.
  destruct (JsDate.timeClip t) as [t'|] eqn:E1; [|done].
  apply timeClip_Some in E1. subst t'.
  destruct (JsDate.timeClip (JsDate.addDays t 1)) as [t'|] eqn:E2; [|done].
  apply timeClip_Some in E2. subst t'.
  intros E3. by apply timeClip_Some in E3.
Qed.

Lemma bind_Date_now {B : Type} (k : Z -> M B) h :
  bind Date_now k h = k (now h) h.
Proof.
  unfold bind, Date_now. rewrite app_nil_r. by destruct (k (now h) h).
Qed.

Lemma handleCreatePlan_run plan h :
  handleCreatePlan (Some plan) h
  = let run := commitSteps plan 0%nat (firstCursor (now h)) h in
    (match fst run with
     | Ret createdCount =>
         Ret (if (0 <? createdCount)%nat then createdText createdCount
              else nothingCreatedText)
     | Throw e => Throw e
     end, snd run).
Proof.
  unfold handleCreatePlan.
  rewrite bind_Date_now. unfold bind.
  destruct (commitSteps plan 0%nat (firstCursor (now h)) h) as [[n|e] l]; cbn;
    [|done].
  destruct n; cbn; by rewrite app_nil_r.
Qed.

(** What [handleCreatePlan] does, for every plan, clock and calendar. *)
Lemma handleCreatePlan_reached plan h :
  let run := handleCreatePlan (Some plan) h in
  let sent := reached plan (planDates (firstCursor (now h)) plan) in
  map fst (createdEvents (snd run)) = map (fun step => stepData (fst step) (snd step)) sent /\
  stateWrites (snd run) = [] /\
  fst run = if bool_decide (length sent = length plan)
            then Ret (if (0 <? acceptedCount (snd run))%nat
                      then createdText (acceptedCount (snd run))
                      else nothingCreatedText)
            else Throw RangeError.
Proof.
  cbn zeta. rewrite handleCreatePlan_run. cbn zeta. cbn [fst snd].
  destruct (commitSteps_reached plan 0%nat (firstCursor (now h)) h) as (E1 & E2 & E3).
  cbn zeta in *. split; [done|]. split; [done|]. rewrite E3.
  by destruct (bool_decide _).
Qed.






End Commit.

(** C4 (as amended).  For a plan whose steps carry neither [date] nor
    [startTime], [handleCreatePlan] sends the steps to the calendar in list
    order, with starts on strictly increasing local days, never on a
    Saturday or Sunday, and not before tomorrow 09:00 local time.  Every
    step is sent when every start and every end (the start plus
    [duration_hours], one hour by default) is a date in the range of
    [Date]; otherwise the commit stops at the first step of which one is
    not, with a RangeError, the steps before it having been sent.  A step
    that carries its own [date] or [startTime] starts at that value and
    leaves the cursor where it was. *)
Theorem C4_undated_steps_get_increasing_weekdays
        {host : Host} {world : World} (plan : list PlanEvent.t) (h : History) :
  forallb undated plan = true ->
  let run := handleCreatePlan (Some plan) h in
  let sent := map fst (createdEvents (snd run)) in
  let dates := planDates (firstCursor (now h)) plan in
  (exists starts : list Z,
      map EventData.start sent = map iso starts /\
      map EventData.summary sent = map PlanEvent.summary (take (length starts) plan) /\
      StronglySorted
        (fun a b => JsDate.localDay tzOffsetMs a < JsDate.localDay tzOffsetMs b) starts /\
      Forall (fun t => JsDate.getDay tzOffsetMs t <> 0 /\
                       JsDate.getDay tzOffsetMs t <> 6 /\
                       firstAvailableDate (now h) <= t) starts /\
      forallb validDates (take (length starts) dates) = true /\
      (forall d, dates !! length starts = Some d -> validDates d = false) /\
      (forallb validDates dates = true ->
       length starts = length plan /\ isRet (fst run) = true) /\
      (forallb validDates dates = false ->
       (length starts < length plan)%nat /\ fst run = Throw RangeError)) /\
  firstAvailableDate (now h) + tzOffsetMs
  = (JsDate.localDay tzOffsetMs (now h) + 1) * JsDate.msPerDay + 9 * JsDate.msPerHour /\
  (forall (cursor : option Z) (item : PlanEvent.t),
      undated item = false ->
      snd (stepStart cursor item) = cursor /\
      fst (stepStart cursor item)
      = if Js.truthy (PlanEvent.date item)
        then Date_parse (Js.show (PlanEvent.date item) +:+ "T09:00:00")
        else newDate (Js.text (PlanEvent.startTime item))).
Proof.
  intros Hp. cbn zeta. split; [|split].
  - apply forallb_Forall in Hp.
    destruct (handleCreatePlan_reached plan h) as (E1 & _ & E3). cbn zeta in E1, E3.
    pose proof (reached_undated plan (firstCursor (now h)) Hp) as Hch. cbn zeta in Hch.
    pose proof (planDates_length plan (firstCursor (now h))) as Hlen.
    pose proof (reached_prefix plan (planDates (firstCursor (now h)) plan)) as Hpre.
    pose proof (reached_first plan (planDates (firstCursor (now h)) plan) Hlen) as Hfirst.
    pose proof (reached_all plan (planDates (firstCursor (now h)) plan) Hlen) as Hall.
    pose proof (reached_length plan (planDates (firstCursor (now h)) plan)) as Hle.
    cbn zeta in Hfirst.
    set (steps := reached plan (planDates (firstCursor (now h)) plan)) in *.
    exists (map (fun step => fst (snd step)) steps).
    rewrite E1, E3, !length_map, !map_map. cbn [stepData EventData.start EventData.summary].
    split; [done|]. split; [by rewrite <- Hpre, map_map|].
    assert (match firstCursor (now h) with
            | Some t => t = firstAvailableDate (now h)
            | None => True
            end) as Hfc.
    { destruct (firstCursor (now h)) eqn:E; [by apply firstCursor_Some|done]. }
    split; [|split; [|split; [apply Hfirst|split; [apply Hfirst|split]]]].
    + destruct (firstCursor (now h)); [by eapply chain_sorted|].
      rewrite Hch. constructor.
    + destruct (firstCursor (now h)) as [c|]; [|rewrite Hch; constructor].
      subst c.
      pose proof (chain_ge _ _ Hch) as Hge. pose proof (chain_weekday _ _ Hch) as Hwd.
      rewrite Forall_forall in *. intros t Ht.
      specialize (Hge t Ht). specialize (Hwd t Ht). cbn beta in *.
      unfold JsDate.isWeekend in Hwd. apply orb_false_iff in Hwd as [H0 H6].
      apply Z.eqb_neq in H0, H6. done.
    + intros Hv. apply Hall in Hv. rewrite bool_decide_eq_true_2 by done. done.
    + intros Hv. assert (length steps <> length plan) as Hne.
      { intros Heq. apply Hall in Heq. congruence. }
      rewrite bool_decide_eq_false_2 by done. split; [lia | done].
  - apply firstAvailableDate_local.
  - intros cursor item Hu. rewrite (dated_stepStart item cursor Hu). split; [done|].
    reflexivity.
Qed.


Lemma C4_undated_steps_get_increasing_weekdays_witness :
  exists starts : list Z,
    map EventData.start
        (map fst (createdEvents
                    (snd (handleCreatePlan (host := Sample.host) (world := Run.quiet)
                                           (Some Run.plan3) []))))
    = map iso starts /\
    length starts = 3%nat.
Proof.
  destruct (C4_undated_steps_get_increasing_weekdays
              (host := Sample.host) (world := Run.quiet) Run.plan3 [] eq_refl)
    as [(starts & E & _ & _ & _ & _ & _ & Hall & _) _].
  exists starts. split; [exact E | apply Hall; reflexivity].
Defined.

(** C4 (as stated) fails for a plan with a step told to last 2 ^ 1000
    hours: its end is not a date, so the commit stops there with a
    RangeError; the first step has been sent, the second and the third
    are never sent. *)
Lemma C4_endless_step_stops_the_commit :
  let run := handleCreatePlan (host := Sample.host) (world := Run.quiet)
                              (Some Run.endless) [] in
  forallb undated Run.endless = true /\
  fst run = Throw RangeError /\
  map (fun c => EventData.summary (fst c)) (createdEvents (snd run))
  = [Js.str "step 1"].
Proof. cbn zeta. split; [reflexivity|]. split; vm_compute; reflexivity. Qed.


(** ** The state machine *)

Section StateMachine.
Context {host : Host} {world : World}.

Lemma handleMessage_parsed userContext message h userState :
  parseState (User.state_json (UserContext.user userContext)) = Ret userState ->
  handleMessage userContext message h
  = bind (match userState with
          | Some userState =>
              dispatchState (UserContext.rowNumber userContext)
                            (UserContext.user userContext) userState message
          | None => ret None
          end)
         (afterSwitch (UserContext.rowNumber userContext)
                      (UserContext.user userContext) message) h.
Proof.
  intros E. unfold handleMessage. rewrite E. by rewrite bind_lift_ret.
Qed.

(** A case of the switch that returns: the handler is that case. *)
Lemma returning_case (m : M string) rowNumber user message h :
  bind (bind m (fun reply => ret (Some (Js.str reply))))
       (afterSwitch rowNumber user message) h
  = returning m h.
Proof.
  rewrite bind_assoc. unfold returning. apply bind_ext.
  intros a h'. by rewrite bind_ret_l.
Qed.

Lemma returning_run (m : M string) h :
  returning m h
  = (match fst (m h) with
     | Ret text => Ret (Js.str text)
     | Throw e => Throw e
     end, snd (m h)).
Proof.
  unfold returning, bind, ret. destruct (m h) as [[text|e] l]; [|done].
  by rewrite app_nil_r.
Qed.

Lemma handleMessage_idle userContext message h :
  parseState (User.state_json (UserContext.user userContext)) = Ret None ->
  handleMessage userContext message h
  = freshRequest (UserContext.rowNumber userContext)
                 (UserContext.user userContext) message h.
Proof.
  intros E. rewrite (handleMessage_parsed _ _ _ _ E). by rewrite bind_ret_l.
Qed.

Lemma handleMessage_state userContext message h st :
  User.state_json (UserContext.user userContext) = json_state st ->
  handleMessage userContext message h
  = let rowNumber := UserContext.rowNumber userContext in
    let user := UserContext.user userContext in
    match st with
    | waiting_confirmation plan =>
        returning (case_waiting_confirmation rowNumber plan message) h
    | waiting_delete_confirmation events =>
        returning (case_waiting_delete_confirmation rowNumber events message) h
    | waiting_plan_correction partialPlan =>
        returning (case_waiting_plan_correction rowNumber partialPlan message) h
    | waiting_knowledge_action noteId =>
        returning (case_waiting_knowledge_action rowNumber user noteId message) h
    | unrecognized _ =>
        (setUserState rowNumber None ;;; freshRequest rowNumber user message) h
    end.
Proof.
  intros E.
  rewrite (handleMessage_parsed _ _ _ (Some st)); [|by rewrite E].
  destruct st; cbn [dispatchState]; cbn zeta; try apply returning_case.
  rewrite bind_assoc. apply bind_ext. intros [] h'. by rewrite bind_ret_l.
Qed.

Lemma pureConfirmTerms_short messageTrimmed :
  JsString.arrayIncludes pureConfirmTerms messageTrimmed = true ->
  (JsString.length messageTrimmed <? 5)%nat = true.
Proof.
  unfold JsString.arrayIncludes, pureConfirmTerms. cbn [existsb].
  rewrite !orb_true_iff.
  intros H; repeat destruct H as [H|H]; try discriminate;
    apply String.eqb_eq in H; subst; reflexivity.
Qed.

End StateMachine.

(** X14.  In state WaitingConfirmation with a stored plan, a reply whose trimmed
    text is one of the confirmation terms as written is shorter than five
    code units and makes the handler clear the state cell and then commit
    exactly the stored plan: [handleMessage] is the write of the empty state
    followed by [handleCreatePlan] on that plan. *)
Theorem exact_confirmation_commits_stored_plan
        {host : Host} {world : World}
        (userContext : UserContext.t) (plan : list PlanEvent.t)
        (message : string) (h : History) :
  User.state_json (UserContext.user userContext)
  = json_state (waiting_confirmation (Some plan)) ->
  JsString.arrayIncludes pureConfirmTerms (JsString.trim message) = true ->
  (JsString.length (JsString.trim message) < 5)%nat /\
  handleMessage userContext message h
  = returning (setUserState (UserContext.rowNumber userContext) None ;;;
               handleCreatePlan (Some plan)) h.
Proof.
  intros Hst Hin. pose proof (pureConfirmTerms_short _ Hin) as Hlen.
  split; [by apply Nat.ltb_lt|].
  rewrite (handleMessage_state _ _ _ _ Hst). cbn zeta.
  unfold case_waiting_confirmation, isPureConfirmation. by rewrite Hin, Hlen.
Qed.

Example exact_confirmation_trimmed_ok :
  handleMessage (host := Sample.host) (world := Run.quiet) Run.confirming " ok " []
  = returning
      (setUserState (world := Run.quiet) 2 None ;;;
       handleCreatePlan (host := Sample.host) (world := Run.quiet) (Some Run.plan3)) [].
Proof.
  exact (proj2 (exact_confirmation_commits_stored_plan
                  (host := Sample.host) (world := Run.quiet)
                  Run.confirming Run.plan3 " ok " [] eq_refl eq_refl)).
Defined.

(** C2.  The claim takes a reply for a confirmation when its trimmed text
    matches a confirmation token case-insensitively and is shorter than five
    code units; the state then has to become Idle and the stored plan has to
    be committed.  The handler compares the trimmed reply as written (only
    the test for a negative token lowers it): on the reply [OK], which
    lowered is the token [ok] and is two code units long, it sends the reply
    to the model as a modification request and stores WaitingConfirmation
    again; nothing is committed. *)
Lemma C2_uppercase_reply_is_not_a_confirmation :
  let message := "OK" in
  let run := handleMessage (host := Sample.host) (world := Run.samePlan)
                           Run.confirming message [] in
  In (JsString.toLowerCase (JsString.trim message)) ["好"; "可以"; "ok"; "同意"] /\
  (JsString.length (JsString.trim message) < 5)%nat /\
  map Entry.call (snd run)
  = [ModifyPlan (Some Run.plan3) "OK";
     SetUserState 2 (Some (waiting_confirmation (Some Run.plan3)))] /\
  createdEvents (snd run) = [].
Proof.
  cbn zeta. split; [vm_compute; tauto|]. split; [vm_compute; lia|].
  split; vm_compute; reflexivity.
Qed.

(** C6 (as amended).  An empty state cell, or one holding [null], is
    treated as Idle: the message is handled as a fresh request.  A state
    whose tag is not recognized is reset (one write of the empty state) and
    the same message is then handled as a fresh request, with whatever calls
    to the model and to the calendar that entails.  A cell whose text is not
    JSON makes [JSON.parse] throw out of [handleMessage] before any call. *)
Theorem C6_unknown_tag_is_reset_then_handled_as_fresh_request
        {host : Host} {world : World}
        (userContext : UserContext.t) (message : string) (h : History) :
  let rowNumber := UserContext.rowNumber userContext in
  let user state_json := UserContext.user (withState userContext state_json) in
  handleMessage (withState userContext json_absent) message h
  = freshRequest rowNumber (user json_absent) message h /\
  handleMessage (withState userContext json_null) message h
  = freshRequest rowNumber (user json_null) message h /\
  (forall tag : string,
      handleMessage (withState userContext (json_state (unrecognized tag))) message h
      = (setUserState rowNumber None ;;;
         freshRequest rowNumber (user (json_state (unrecognized tag))) message) h) /\
  (forall raw : string,
      handleMessage (withState userContext (json_invalid raw)) message h
      = (Throw SyntaxError, [])).
Proof.
  cbn zeta. split; [|split; [|split]].
  - exact (handleMessage_idle (withState userContext json_absent) message h eq_refl).
  - exact (handleMessage_idle (withState userContext json_null) message h eq_refl).
  - intros tag.
    exact (handleMessage_state (withState userContext (json_state (unrecognized tag)))
                               message h (unrecognized tag) eq_refl).
  - intros raw. reflexivity.
Qed.

(** C6 (as stated) fails twice: a state cell that is not JSON makes the
    handler throw, and under an unrecognized tag the message goes on to the
    model and, here, creates a calendar event. *)
Lemma C6_unknown_tag_reaches_oracle_and_calendar :
  fst (handleMessage (host := Sample.host) (world := Run.createsMeeting)
                     (Sample.user (json_invalid "{status:")) "hello" [])
  = Throw SyntaxError /\
  let run := handleMessage (host := Sample.host) (world := Run.createsMeeting)
                           (Sample.user (json_state (unrecognized "waiting_for_reply")))
                           "hello" [] in
  map Entry.call (snd run)
  = [SetUserState 2 None;
     UnderstandAndPlan "hello";
     CreateEvent {| EventData.summary := Js.str "會議";
                    EventData.start := raw "2025-01-07T14:00:00";
                    EventData.end_ := iso 1736233200000 |}] /\
  existsb (fun e => isOracleCall (Entry.call e)) (snd run) = true /\
  existsb (fun e => isEventStoreCall (Entry.call e)) (snd run) = true.
Proof. cbn zeta. repeat split; vm_compute; reflexivity. Qed.

(** ** Deleting the selected candidates *)

Section Deletion.
Context {host : Host} {world : World}.
Hypothesis calendar_deletes :
  forall h eventId, EventStore.deleteEventById eventStore h eventId = Ret tt.

Lemma deleteEventById_ok eventId h :
  deleteEventById eventId h = (Ret tt, [Entry.mk (DeleteEventById eventId) true]).
Proof.
  unfold deleteEventById, try_catch, perform. by rewrite calendar_deletes.
Qed.

Lemma deleteEach_ok events :
  forall acc h,
    deleteEach events acc h
    = (Ret ((fst acc + length events)%nat,
            snd acc ++ map CalendarEvent.summary events),
       map deleted events).
Proof.
  induction events as [|event rest IH]; intros [n l] h; cbn [deleteEach].
  - cbn. by rewrite Nat.add_0_r, app_nil_r.
  - unfold bind. rewrite deleteEventById_ok, IH. cbn.
    by rewrite <- app_assoc, Nat.add_succ_r.
Qed.

Lemma deleteSelected_ok eventsToDelete selection :
  forall acc h,
    deleteSelected eventsToDelete selection acc h
    = (Ret ((fst acc + length (omap (at_index eventsToDelete) selection))%nat,
            snd acc ++ map CalendarEvent.summary
                           (omap (at_index eventsToDelete) selection)),
       map deleted (omap (at_index eventsToDelete) selection)).
Proof.
  induction selection as [|index rest IH]; intros [n l] h; cbn [deleteSelected].
  - cbn. by rewrite Nat.add_0_r, app_nil_r.
  - change (omap (at_index eventsToDelete) (index :: rest))
      with (match at_index eventsToDelete index with
            | Some event => event :: omap (at_index eventsToDelete) rest
            | None => omap (at_index eventsToDelete) rest
            end).
    destruct (at_index eventsToDelete index) as [event|].
    + unfold bind. rewrite deleteEventById_ok, IH. cbn.
      by rewrite <- app_assoc, Nat.add_succ_r.
    + apply IH.
Qed.

End Deletion.

(** [parseDeletionChoice] never throws: a failure of the model is read as
    ["none"]. *)
Lemma parseDeletionChoice_run {world : World} (message : string) (n : nat) (h : History) :
  parseDeletionChoice message n h
  = (Ret (match Oracle.parseDeletionChoice oracle h message n with
          | Ret c => c
          | Throw _ => sel_none
          end),
     [Entry.mk (ParseDeletionChoice message n)
               (isRet (Oracle.parseDeletionChoice oracle h message n))]).
Proof.
  unfold parseDeletionChoice, try_catch, perform, ret.
  destruct (Oracle.parseDeletionChoice oracle h message n); [done|].
  by rewrite app_nil_r.
Qed.

Section DeletionReturns.
Context {host : Host} {world : World}.

Lemma deleteEventById_run eventId h :
  deleteEventById eventId h
  = (match EventStore.deleteEventById eventStore h eventId with
     | Ret _ => Ret tt
     | Throw _ => Throw (ServiceError "刪除 Google Calendar 事件時發生錯誤。")
     end,
     [Entry.mk (DeleteEventById eventId)
               (isRet (EventStore.deleteEventById eventStore h eventId))]).
Proof.
  unfold deleteEventById, try_catch, perform, throw.
  destruct (EventStore.deleteEventById eventStore h eventId) as [[]|e]; [done|].
  by rewrite app_nil_r.
Qed.

(** A loop of deletions that returns has carried out every one of them. *)
Lemma deleteEach_returns events :
  forall acc h r tr,
    deleteEach events acc h = (Ret r, tr) ->
    r = ((fst acc + length events)%nat, snd acc ++ map CalendarEvent.summary events) /\
    tr = map deleted events.
Proof.
  induction events as [|event rest IH]; intros [n l] h r tr; cbn [deleteEach].
  - cbn. intros [= <- <-]. by rewrite Nat.add_0_r, app_nil_r.
  - unfold bind. rewrite deleteEventById_run.
    destruct (EventStore.deleteEventById eventStore h (CalendarEvent.id event));
      cbn [isRet]; [|discriminate].
    destruct (deleteEach rest _ _) as [[r'|e] l2] eqn:E; intros [= <- <-].
    apply IH in E as [-> ->]. cbn. by rewrite <- app_assoc, Nat.add_succ_r.
Qed.

Lemma deleteSelected_returns eventsToDelete selection :
  forall acc h r tr,
    deleteSelected eventsToDelete selection acc h = (Ret r, tr) ->
    r = ((fst acc + length (omap (at_index eventsToDelete) selection))%nat,
         snd acc ++ map CalendarEvent.summary (omap (at_index eventsToDelete) selection)) /\
    tr = map deleted (omap (at_index eventsToDelete) selection).
Proof.
  induction selection as [|index rest IH]; intros [n l] h r tr; cbn [deleteSelected].
  - cbn. intros [= <- <-]. by rewrite Nat.add_0_r, app_nil_r.
  - change (omap (at_index eventsToDelete) (index :: rest))
      with (match at_index eventsToDelete index with
            | Some event => event :: omap (at_index eventsToDelete) rest
            | None => omap (at_index eventsToDelete) rest
            end).
    destruct (at_index eventsToDelete index) as [event|]; [|apply IH].
    unfold bind. rewrite deleteEventById_run.
    destruct (EventStore.deleteEventById eventStore h (CalendarEvent.id event));
      cbn [isRet]; [|discriminate].
    destruct (deleteSelected eventsToDelete rest _ _) as [[r'|e] l2] eqn:E;
      intros [= <- <-].
    apply IH in E as [-> ->]. cbn. by rewrite <- app_assoc, Nat.add_succ_r.
Qed.

(** The deletion case, when it returns, has done exactly [deletionDone]. *)
Lemma case_waiting_delete_confirmation_returns rowNumber eventsToDelete message h reply :
  fst (case_waiting_delete_confirmation rowNumber eventsToDelete message h) = Ret reply ->
  case_waiting_delete_confirmation rowNumber eventsToDelete message h
  = deletionDone rowNumber eventsToDelete message h.
Proof.
  destruct (case_waiting_delete_confirmation rowNumber eventsToDelete message h)
    as [r run] eqn:Hrun.
  cbn [fst]. intros ->. revert Hrun.
  unfold case_waiting_delete_confirmation, deletionDone.
  unfold bind at 1. rewrite parseDeletionChoice_run.
  set (choice := match Oracle.parseDeletionChoice oracle h message (length eventsToDelete)
                 with Ret c => c | Throw _ => sel_none end).
  set (h1 := h ++ _).
  unfold bind at 1.
  destruct (match choice with
            | sel_all => deleteEach eventsToDelete (0%nat, [])
            | sel_indices selection => deleteSelected eventsToDelete selection (0%nat, [])
            | _ => ret (0%nat, [])
            end h1) as [[[n l]|e] tr] eqn:E; [|discriminate].
  assert (n = length (selectedEvents choice eventsToDelete) /\
          l = map CalendarEvent.summary (selectedEvents choice eventsToDelete) /\
          tr = map deleted (selectedEvents choice eventsToDelete)) as (-> & -> & ->).
  { clearbody choice. destruct choice; cbn [selectedEvents].
    - apply deleteEach_returns in E as [[= -> ->] ->]. done.
    - by injection E as <- <- <-.
    - apply deleteSelected_returns in E as [[= -> ->] ->]. done.
    - by injection E as <- <- <-. }
  unfold bind, setUserState, perform.
  destruct (UserStore.setUserState userStore _ rowNumber None) as [[]|e];
    cbn [isRet]; [|discriminate].
  destruct (0 <? length (selectedEvents choice eventsToDelete))%nat;
    cbn; by intros [= <- <-].
Qed.

End DeletionReturns.

Section DeletionRuns.
Context {host : Host} {world : World}.

(** What a loop of deletions does, whatever the calendar answers: it
    deletes the events in order up to the first the calendar refuses; with
    none refused it returns the count and the summaries, otherwise it
    throws at the one refused and the later ones are not asked for. *)
Lemma deleteEach_run events :
  forall acc h,
    deleteEach events acc h
    = (Ret ((fst acc + length events)%nat, snd acc ++ map CalendarEvent.summary events),
       map deleted events) \/
    exists done failed rest,
      events = done ++ failed :: rest /\
      deleteEach events acc h = (Throw deleteFailure, map deleted done ++ [refused failed]).
Proof.
  induction events as [|event rest IH]; intros [n l] h; cbn [deleteEach].
  - left. cbn. by rewrite Nat.add_0_r, app_nil_r.
  - unfold bind. rewrite deleteEventById_run.
    destruct (EventStore.deleteEventById eventStore h (CalendarEvent.id event));
      cbn [isRet fst snd].
    + destruct (IH (S n, l ++ [CalendarEvent.summary event])
                   (h ++ [Entry.mk (DeleteEventById (CalendarEvent.id event)) true]))
        as [E|(done & failed & rest' & -> & E)]; rewrite E.
      * left. cbn. by rewrite <- app_assoc, Nat.add_succ_r.
      * right. exists (event :: done), failed, rest'. done.
    + right. by exists [], event, rest.
Qed.

Lemma deleteSelected_run eventsToDelete selection :
  forall acc h,
    let events := omap (at_index eventsToDelete) selection in
    deleteSelected eventsToDelete selection acc h
    = (Ret ((fst acc + length events)%nat, snd acc ++ map CalendarEvent.summary events),
       map deleted events) \/
    exists done failed rest,
      events = done ++ failed :: rest /\
      deleteSelected eventsToDelete selection acc h
      = (Throw deleteFailure, map deleted done ++ [refused failed]).
Proof.
  induction selection as [|index rest IH]; intros [n l] h; cbn zeta; cbn [deleteSelected].
  - left. cbn. by rewrite Nat.add_0_r, app_nil_r.
  - change (omap (at_index eventsToDelete) (index :: rest))
      with (match at_index eventsToDelete index with
            | Some event => event :: omap (at_index eventsToDelete) rest
            | None => omap (at_index eventsToDelete) rest
            end).
    destruct (at_index eventsToDelete index) as [event|]; [|apply IH].
    unfold bind. rewrite deleteEventById_run.
    destruct (EventStore.deleteEventById eventStore h (CalendarEvent.id event));
      cbn [isRet fst snd].
    + destruct (IH (S n, l ++ [CalendarEvent.summary event])
                   (h ++ [Entry.mk (DeleteEventById (CalendarEvent.id event)) true]))
        as [E|(done & failed & rest' & Hsplit & E)]; cbn zeta in *; rewrite E.
      * left. cbn. by rewrite <- app_assoc, Nat.add_succ_r.
      * right. exists (event :: done), failed, rest'. by rewrite Hsplit.
    + right. by exists [], event, (omap (at_index eventsToDelete) rest).
Qed.

Lemma stateWrites_deleted (events : list CalendarEvent.t) :
  stateWrites (map deleted events) = [].
Proof. induction events as [|e l IH]; [done | exact IH]. Qed.

Lemma bind_parseDeletionChoice {B : Type} message n (k : Selection -> M B) h :
  bind (parseDeletionChoice message n) k h
  = let answer := Oracle.parseDeletionChoice oracle h message n in
    let choice := match answer with Ret c => c | Throw _ => sel_none end in
    let asked := Entry.mk (ParseDeletionChoice message n) (isRet answer) in
    (fst (k choice (h ++ [asked])), [asked] ++ snd (k choice (h ++ [asked]))).
Proof.
  unfold bind. rewrite parseDeletionChoice_run. cbn zeta. by destruct (k _ _).
Qed.

(** The deletion case, whatever the collaborators answer. *)
Lemma case_waiting_delete_confirmation_run rowNumber eventsToDelete message h :
  let answer := Oracle.parseDeletionChoice oracle h message (length eventsToDelete) in
  let choice := match answer with Ret c => c | Throw _ => sel_none end in
  let chosen := selectedEvents choice eventsToDelete in
  let asked := Entry.mk (ParseDeletionChoice message (length eventsToDelete)) (isRet answer) in
  let run := case_waiting_delete_confirmation rowNumber eventsToDelete message h in
  (exists written : Outcome unit,
      UserStore.setUserState userStore (h ++ [asked] ++ map deleted chosen) rowNumber None
      = written /\
      run = (match written with
             | Ret _ => Ret (deletionReply chosen)
             | Throw e => Throw e
             end,
             [asked] ++ map deleted chosen
             ++ [Entry.mk (SetUserState rowNumber None) (isRet written)])) \/
  (exists done failed rest,
      chosen = done ++ failed :: rest /\
      run = (Throw deleteFailure, [asked] ++ map deleted done ++ [refused failed])).
Proof.
  cbn zeta. unfold case_waiting_delete_confirmation.
  rewrite !bind_parseDeletionChoice. cbn zeta.
  set (answer := Oracle.parseDeletionChoice oracle h message (length eventsToDelete)).
  set (choice := match answer with Ret c => c | Throw _ => sel_none end).
  set (asked := Entry.mk (ParseDeletionChoice message (length eventsToDelete)) (isRet answer)).
  set (chosen := selectedEvents choice eventsToDelete).
  assert (match choice with
          | sel_all => deleteEach eventsToDelete (0%nat, [])
          | sel_indices selection => deleteSelected eventsToDelete selection (0%nat, [])
          | _ => ret (0%nat, [])
          end (h ++ [asked])
          = (Ret (length chosen, map CalendarEvent.summary chosen), map deleted chosen) \/
          exists done failed rest,
            chosen = done ++ failed :: rest /\
            match choice with
            | sel_all => deleteEach eventsToDelete (0%nat, [])
            | sel_indices selection => deleteSelected eventsToDelete selection (0%nat, [])
            | _ => ret (0%nat, [])
            end (h ++ [asked])
            = (Throw deleteFailure, map deleted done ++ [refused failed])) as Hloop.
  { subst chosen. clearbody choice.
    destruct choice as [| |selection|]; cbn [selectedEvents].
    - apply (deleteEach_run eventsToDelete (0%nat, [])).
    - by left.
    - apply (deleteSelected_run eventsToDelete selection (0%nat, [])).
    - by left. }
  destruct Hloop as [E|(done & failed & rest & Hsplit & E)].
  - left. eexists. split; [reflexivity|].
    match goal with
    | |- context [bind ?m ?k ?hh] =>
        assert (bind m k hh
                = (match UserStore.setUserState userStore
                           (h ++ [asked] ++ map deleted chosen) rowNumber None with
                   | Ret _ => Ret (deletionReply chosen)
                   | Throw e => Throw e
                   end,
                   map deleted chosen
                   ++ [Entry.mk (SetUserState rowNumber None)
                                (isRet (UserStore.setUserState userStore
                                          (h ++ [asked] ++ map deleted chosen)
                                          rowNumber None))])) as ->
    end.
    { unfold bind at 1. rewrite E. unfold bind, setUserState, perform.
      rewrite <- app_assoc.
      destruct (UserStore.setUserState userStore _ rowNumber None) as [[]|e]; cbn [isRet].
      - unfold deletionReply. by destruct (0 <? length chosen)%nat.
      - done. }
    done.
  - right. exists done, failed, rest. split; [done|].
    match goal with
    | |- context [bind ?m ?k ?hh] =>
        assert (bind m k hh
                = (Throw deleteFailure, map deleted done ++ [refused failed])) as ->
    end.
    { unfold bind at 1. by rewrite E. }
    done.
Qed.

End DeletionRuns.

(** C7 (as amended).  In state WaitingDeleteConfirmation with candidates
    [C], the handler asks [parseDeletionChoice] with the number of
    candidates and then asks the calendar to delete the candidates the
    answer designates, in order: every candidate for ["all"], those at the
    listed 0-based positions for an index list (a position outside the
    list designates nothing), none for ["none"] or when the model fails.
    When the calendar has carried out all of these deletions, the handler
    writes the empty state and, if the sheet takes the write, replies with
    the summaries deleted or, when there are none, that the deletion is
    cancelled.  When the calendar refuses one, the handling ends there with
    an error: the candidates before it are deleted, those after it are not
    asked for, and the state cell is not written. *)
Theorem C7_selected_candidates_are_deleted_then_state_cleared
        {host : Host} {world : World}
        (userContext : UserContext.t) (eventsToDelete : list CalendarEvent.t)
        (message : string) (h : History) :
  User.state_json (UserContext.user userContext)
  = json_state (waiting_delete_confirmation eventsToDelete) ->
  let rowNumber := UserContext.rowNumber userContext in
  let answer := Oracle.parseDeletionChoice oracle h message (length eventsToDelete) in
  let choice := match answer with Ret c => c | Throw _ => sel_none end in
  let chosen := selectedEvents choice eventsToDelete in
  let asked := Entry.mk (ParseDeletionChoice message (length eventsToDelete)) (isRet answer) in
  let run := handleMessage userContext message h in
  (selectedEvents sel_all eventsToDelete = eventsToDelete /\
   (forall selection,
       selectedEvents (sel_indices selection) eventsToDelete
       = omap (fun index => if index <? 0 then None
                            else eventsToDelete !! Z.to_nat index) selection) /\
   selectedEvents sel_none eventsToDelete = []) /\
  ((exists written : bool,
       snd run = [asked] ++ map deleted chosen
                 ++ [Entry.mk (SetUserState rowNumber None) written] /\
       if written
       then fst run
            = Ret (Js.str (if (0 <? length chosen)%nat
                           then deletedText (length chosen)
                                            (map CalendarEvent.summary chosen)
                           else "好的，已取消刪除操作。"))
       else isRet (fst run) = false) \/
   (exists done failed rest,
       chosen = done ++ failed :: rest /\
       snd run = [asked] ++ map deleted done ++ [refused failed] /\
       stateWrites (snd run) = [] /\
       fst run = Throw (ServiceError "刪除 Google Calendar 事件時發生錯誤。"))).
Proof.
  intros Hst. cbn zeta. split; [done|].
  rewrite (handleMessage_state _ _ _ _ Hst). cbn zeta. rewrite returning_run.
  destruct (case_waiting_delete_confirmation_run
              (UserContext.rowNumber userContext) eventsToDelete message h)
    as [(written & _ & E)|(done & failed & rest & Hsplit & E)]; cbn zeta in E; rewrite E.
  - left. exists (isRet written). cbn [fst snd]. split; [done|].
    by destruct written.
  - right. exists done, failed, rest. cbn [fst snd]. split; [done|]. split; [done|].
    split; [|done].
    by rewrite !stateWrites_app, stateWrites_deleted.
Qed.

Lemma C7_selected_candidates_are_deleted_then_state_cleared_witness :
  let run := handleMessage (host := Sample.host) (world := Run.firstAndThird)
                           Run.deleting "1 和 3" [] in
  snd run
  = [Entry.mk (ParseDeletionChoice "1 和 3" 3) true;
     Entry.mk (DeleteEventById "e1") true;
     Entry.mk (DeleteEventById "e3") true;
     Entry.mk (SetUserState 2 None) true] /\
  fst run = Ret (Js.str (deletedText 2 ["A"; "C"])).
Proof.
  destruct (C7_selected_candidates_are_deleted_then_state_cleared
              (host := Sample.host) (world := Run.firstAndThird)
              Run.deleting Run.candidates "1 和 3" [] eq_refl)
    as (_ & [(written & Htr & Hout)|(done & failed & rest & _ & _ & _ & Habs)]).
  - cbn zeta. split; [vm_compute; reflexivity|].
    assert (written = true) as ->.
    { revert Htr. vm_compute. intros [= <-]. reflexivity. }
    exact Hout.
  - exfalso. revert Habs. vm_compute. discriminate.
Defined.

(** C7 (as stated) fails when the calendar refuses a deletion: the model
    reads the reply as the first and the third candidate and the calendar
    refuses to delete the third.  The first is deleted, the handler
    throws, and the state cell is not written: the user is still in
    WaitingDeleteConfirmation. *)
Lemma C7_refused_deletion_leaves_the_state :
  let run := handleMessage (host := Sample.host) (world := Run.thirdRefused)
                           Run.deleting "1 和 3" [] in
  fst run = Throw (ServiceError "刪除 Google Calendar 事件時發生錯誤。") /\
  snd run
  = [Entry.mk (ParseDeletionChoice "1 和 3" 3) true;
     Entry.mk (DeleteEventById "e1") true;
     Entry.mk (DeleteEventById "e3") false] /\
  stateWrites (snd run) = [].
Proof. cbn zeta. repeat split; vm_compute; reflexivity. Qed.

(** ** Disciplines on traces

    [silent P m]: every call [m] makes satisfies [P].  [writes lo hi m]: [m]
    writes the state cell at most [hi] times, and at least [lo] times when
    it returns.  [replies m]: when [m] returns, its text is not empty. *)

Section Discipline.
Context {host : Host} {world : World}.

Lemma silent_ret P {A} (a : A) : silent P (ret a).
Proof. intros h. constructor. Qed.

Lemma silent_throw P {A} (e : Exn) : silent P (throw (A := A) e).
Proof. intros h. constructor. Qed.

Lemma silent_lift P {A} (o : Outcome A) : silent P (lift o).
Proof. intros h. constructor. Qed.

Lemma silent_Date_now P : silent P Date_now.
Proof. intros h. constructor. Qed.

Lemma silent_perform P {A} (c : Call) (answer : History -> Outcome A) :
  P c = true -> silent P (perform c answer).
Proof. intros Hc h. cbn. by constructor. Qed.

Lemma silent_bind P {A B} (m : M A) (k : A -> M B) :
  silent P m -> (forall a, silent P (k a)) -> silent P (bind m k).
Proof.
  intros Hm Hk h. unfold bind. specialize (Hm h).
  destruct (m h) as [[a|e] l1]; cbn [fst snd isRet] in *; [|done].
  specialize (Hk a (h ++ l1)). destruct (k a (h ++ l1)) as [r l2]. cbn [fst snd isRet] in *.
  by apply Forall_app.
Qed.

Lemma silent_try_catch P {A} (m : M A) (handler : Exn -> M A) :
  silent P m -> (forall e, silent P (handler e)) -> silent P (try_catch m handler).
Proof.
  intros Hm Hk h. unfold try_catch. specialize (Hm h).
  destruct (m h) as [[a|e] l1]; cbn [fst snd isRet] in *; [done|].
  specialize (Hk e (h ++ l1)). destruct (handler e (h ++ l1)) as [r l2]. cbn [fst snd isRet] in *.
  by apply Forall_app.
Qed.

Lemma silent_returning P (m : M string) : silent P m -> silent P (returning m).
Proof. intros Hm. apply silent_bind; [done|]. intros. apply silent_ret. Qed.

Lemma silent_stateWrites {A} (m : M A) h :
  silent notWrite m -> stateWrites (snd (m h)) = [].
Proof.
  intros Hm. specialize (Hm h). induction Hm as [|e l He _ IH]; [done|].
  cbn. destruct (Entry.call e); try done.
Qed.

Lemma silent_pushes {A} (m : M A) h :
  silent notPush m -> pushes (snd (m h)) = [].
Proof.
  intros Hm. specialize (Hm h). induction Hm as [|e l He _ IH]; [done|].
  cbn. destruct (Entry.call e); try done.
Qed.

Lemma writes_silent {A} hi (m : M A) : silent notWrite m -> writes 0 hi m.
Proof.
  intros Hm h. unfold writeCount. rewrite (silent_stateWrites m h Hm). cbn. lia.
Qed.

Lemma writes_throw {A} lo hi (e : Exn) : writes lo hi (throw (A := A) e).
Proof. intros h. cbn. split; [lia | discriminate]. Qed.

Lemma writes_bind_silent {A B} lo hi (m : M A) (k : A -> M B) :
  silent notWrite m -> (forall a, writes lo hi (k a)) -> writes lo hi (bind m k).
Proof.
  intros Hm Hk h. pose proof (silent_stateWrites m h Hm) as E0. unfold bind.
  destruct (m h) as [[a|e] l1]; cbn [fst snd isRet] in *.
  - specialize (Hk a (h ++ l1)). destruct (k a (h ++ l1)) as [r l2]. cbn [fst snd isRet] in *.
    unfold writeCount in *. by rewrite stateWrites_app, E0.
  - unfold writeCount. rewrite E0. cbn. split; [lia | discriminate].
Qed.

Lemma writes_bind_setUserState {B} lo hi rowNumber state (k : unit -> M B) :
  (1 <= hi)%nat ->
  (forall a, writes (lo - 1) (hi - 1) (k a)) ->
  writes lo hi (bind (setUserState rowNumber state) k).
Proof.
  intros Hhi Hk h. unfold bind, setUserState, perform.
  destruct (UserStore.setUserState userStore h rowNumber state) as [[]|e]; cbn [isRet].
  - match goal with
    | |- context [k tt ?hh] => specialize (Hk tt hh); destruct (k tt hh) as [r l2]
    end.
    cbn [fst snd] in *. unfold writeCount in *.
    rewrite stateWrites_app, length_app. cbn [stateWrites omap list_omap Entry.call length].
    destruct Hk as [H1 H2].
    split; [lia|]. intros Hr. specialize (H2 Hr). lia.
  - cbn [fst snd isRet]. unfold writeCount. cbn. split; [lia | discriminate].
Qed.

Lemma writes_try_catch {A} hi (m : M A) (handler : Exn -> M A) :
  writes 0 hi m -> (forall e, silent notWrite (handler e)) ->
  writes 0 hi (try_catch m handler).
Proof.
  intros Hm Hk h. unfold try_catch. specialize (Hm h).
  destruct (m h) as [[a|e] l1]; cbn [fst snd isRet] in *; [done|].
  pose proof (silent_stateWrites (handler e) (h ++ l1) (Hk e)) as E0.
  destruct (handler e (h ++ l1)) as [r l2]. cbn [fst snd isRet] in *.
  unfold writeCount in *. rewrite stateWrites_app, E0, app_nil_r. split; [lia|lia].
Qed.

Lemma writes_returning lo hi (m : M string) :
  writes lo hi m -> writes lo hi (returning m).
Proof.
  intros Hm h. rewrite returning_run. cbn [fst snd]. specialize (Hm h).
  by destruct (fst (m h)).
Qed.

Lemma replies_ret (s : string) : s <> "" -> replies (ret s).
Proof. intros Hs h t. cbn. congruence. Qed.

Lemma replies_throw (e : Exn) : replies (throw e).
Proof. intros h t. discriminate. Qed.

Lemma replies_bind {A} (m : M A) (k : A -> M string) :
  (forall a, replies (k a)) -> replies (bind m k).
Proof.
  intros Hk h t. unfold bind. destruct (m h) as [[a|e] l1]; cbn; [|discriminate].
  specialize (Hk a (h ++ l1) t). destruct (k a (h ++ l1)) as [r l2]. cbn [fst snd isRet] in *. done.
Qed.

Lemma replies_try_catch (m : M string) (handler : Exn -> M string) :
  replies m -> (forall e, replies (handler e)) -> replies (try_catch m handler).
Proof.
  intros Hm Hk h t. unfold try_catch. specialize (Hm h t).
  destruct (m h) as [[a|e] l1]; cbn [fst snd isRet] in *; [done|].
  specialize (Hk e (h ++ l1) t). destruct (handler e (h ++ l1)) as [r l2]. cbn [fst snd isRet] in *. done.
Qed.

End Discipline.

(** ** Which calls the handlers make *)

Create HintDb prog.
Create HintDb silent.

#[local] Hint Unfold
  createEvent deleteEventById searchEvents listEvents
  setUserState findObjectiveByTitle linkNoteToObjective getKnowledgeNoteById
  createLearningObjective linkEventToObjective saveKnowledgeNote pushMessage
  understandAndPlan modifyPlan parseDeletionChoice mergePlanWithCorrection
  processKnowledge generatePlanForObjective analyzeImageAndPlan
  tryCreate handleListEvents handleCreateEvent handleDeleteRequest returning : prog.

Ltac silent_leaf :=
  first
    [ apply silent_ret | apply silent_throw | apply silent_lift | apply silent_Date_now
    | apply silent_perform;
      first [ reflexivity | apply Z.eqb_refl
            | match goal with H : benign _ |- _ => apply H; reflexivity end ] ].

Ltac silent_step :=
  first
    [ silent_leaf
    | solve [eauto with silent]
    | apply silent_bind; [|intros]
    | apply silent_try_catch; [|intros]
    | match goal with
      | |- silent _ (if ?b then _ else _) => destruct b
      | |- silent _ (match ?x with _ => _ end) => destruct x
      | |- silent _ (let '(_, _) := ?x in _) => destruct x
      end ].

Ltac silent_solve := autounfold with prog; repeat silent_step.

Section Calls.
Context {host : Host} {world : World}.
Variable P : Call -> bool.
Hypothesis HP : benign P.

Lemma commitSteps_silent plan :
  forall createdCount cursor, silent P (commitSteps plan createdCount cursor).
Proof.
  induction plan as [|item rest IH]; intros createdCount cursor; cbn [commitSteps].
  - silent_solve.
  - destruct (stepStart cursor item). silent_solve.
Qed.

Lemma deleteEach_silent events : forall acc, silent P (deleteEach events acc).
Proof.
  induction events as [|event rest IH]; intros acc; cbn [deleteEach].
  - silent_solve.
  - silent_solve.
Qed.

Lemma deleteSelected_silent eventsToDelete selection :
  forall acc, silent P (deleteSelected eventsToDelete selection acc).
Proof.
  induction selection as [|index rest IH]; intros acc; cbn [deleteSelected].
  - silent_solve.
  - destruct (at_index eventsToDelete index); [|apply IH].
    silent_solve.
Qed.

Lemma handleCreatePlan_silent plan : silent P (handleCreatePlan plan).
Proof.
  unfold handleCreatePlan. apply silent_bind; [apply silent_Date_now|].
  intros t. destruct plan; [|apply silent_throw].
  apply silent_bind; [apply commitSteps_silent|]. intros. silent_solve.
Qed.

Lemma handleListEvents_silent intent : silent P (handleListEvents intent).
Proof. silent_solve. Qed.

Lemma handleCreateEvent_silent intent : silent P (handleCreateEvent intent).
Proof. silent_solve. Qed.

End Calls.

Lemma benign_notWrite : benign notWrite.
Proof. intros c Hw _. exact Hw. Qed.

Lemma benign_notPush : benign notPush.
Proof. intros c _ Hp. exact Hp. Qed.

Lemma benign_writesRow rowNumber : benign (writesRow rowNumber).
Proof. intros c Hw _. by destruct c. Qed.

Lemma benign_writesState Q : benign (writesState Q).
Proof. intros c Hw _. by destruct c. Qed.

#[local] Hint Resolve benign_notWrite benign_notPush benign_writesRow
  benign_writesState : silent.
#[local] Hint Resolve commitSteps_silent deleteEach_silent deleteSelected_silent
  handleCreatePlan_silent handleListEvents_silent handleCreateEvent_silent : silent.

Create HintDb top.

#[local] Hint Unfold
  case_waiting_confirmation case_waiting_delete_confirmation
  case_waiting_plan_correction case_waiting_knowledge_action
  dispatchIntent freshRequest handleDeleteRequest preparePushMessageFromIntent : top.

Ltac writes_step :=
  first
    [ apply writes_throw
    | apply writes_returning
    | apply writes_bind_setUserState; [lia | intros; cbn [Nat.sub]]
    | apply writes_bind_silent; [solve [silent_solve] | intros]
    | apply writes_try_catch; [| intros; solve [silent_solve]]
    | apply writes_silent; solve [silent_solve]
    | match goal with
      | |- writes _ _ (if ?b then _ else _) => destruct b
      | |- writes _ _ (match ?x with _ => _ end) => destruct x
      | |- writes _ _ (let '(_, _) := ?x in _) => destruct x
      end ].

Ltac writes_solve := autounfold with top; repeat writes_step.

Section Writes.
Context {host : Host} {world : World}.

Lemma case_waiting_confirmation_writes rowNumber plan message :
  writes 1 1 (case_waiting_confirmation rowNumber plan message).
Proof. writes_solve. Qed.

Lemma case_waiting_delete_confirmation_writes rowNumber events message :
  writes 1 1 (case_waiting_delete_confirmation rowNumber events message).
Proof. writes_solve. Qed.

Lemma case_waiting_plan_correction_writes rowNumber partialPlan message :
  writes 1 1 (case_waiting_plan_correction rowNumber partialPlan message).
Proof. writes_solve. Qed.

Lemma case_waiting_knowledge_action_writes rowNumber user noteId message :
  writes 0 1 (case_waiting_knowledge_action rowNumber user noteId message).
Proof. writes_solve. Qed.

Lemma freshRequest_writes rowNumber user message :
  writes 0 1 (freshRequest rowNumber user message).
Proof. writes_solve. Qed.

End Writes.

(** ** Which replies are never empty *)

Lemma append_nonempty_r (a b : string) : b <> "" -> a +:+ b <> "".
Proof. destruct a; cbn; [done | discriminate]. Qed.

Lemma show_orElse_nonempty (a : option string) (d : string) :
  d <> "" -> show (orElse a (Some d)) <> "".
Proof.
  intros Hd. unfold orElse, JsString.truthy.
  destruct a as [s|]; cbn; [|done].
  destruct (String.eqb_spec s ""); cbn; done.
Qed.

Lemma Js_truthy_str (v : Js.value) :
  Js.truthy v = true -> exists text, v = Js.str text /\ text <> "".
Proof.
  destruct v as [| |text]; try discriminate. cbn.
  destruct (String.eqb_spec text ""); [discriminate | eauto].
Qed.

Lemma Js_show_orElse_nonempty (a : Js.value) (d : string) :
  d <> "" -> Js.show (Js.orElse a (Js.str d)) <> "".
Proof.
  intros Hd. unfold Js.orElse. destruct (Js.truthy a) eqn:E; [|done].
  by destruct (Js_truthy_str a E) as (text & -> & Ht).
Qed.

Lemma append_nonempty_l (a b : string) : a <> "" -> a +:+ b <> "".
Proof. destruct a; [done | discriminate]. Qed.

Ltac nonempty :=
  first
    [ discriminate
    | apply show_orElse_nonempty; discriminate
    | apply Js_show_orElse_nonempty; discriminate
    | apply append_nonempty_l; discriminate
    | unfold createdText, nothingCreatedText, deletedText, noActivityText,
        formatIncompletePlanAsTemplate, genericError; cbn; discriminate ].

Section Replies.
Context {host : Host} {world : World}.

Lemma replies_formatPlanForConfirmation plan showGreeting (k : string -> M string) :
  (forall text, text <> "" -> replies (k text)) ->
  replies (bind (lift (formatPlanForConfirmation plan showGreeting)) k).
Proof.
  intros Hk. destruct plan as [plan|]; cbn [formatPlanForConfirmation].
  - intros h t. rewrite bind_lift_ret. apply Hk.
    apply append_nonempty_r, append_nonempty_r. discriminate.
  - intros h t. discriminate.
Qed.

Lemma replies_lift_formatPlanForConfirmation plan showGreeting :
  replies (lift (formatPlanForConfirmation plan showGreeting)).
Proof.
  intros h t E. rewrite <- (bind_ret_r (lift _) h) in E. revert h t E.
  apply replies_formatPlanForConfirmation. intros text Ht. by apply replies_ret.
Qed.

End Replies.

Ltac replies_step :=
  first
    [ apply replies_throw
    | apply replies_ret; solve [nonempty]
    | apply replies_lift_formatPlanForConfirmation
    | apply replies_bind; intros
    | apply replies_try_catch; [|intros]
    | match goal with
      | |- replies (if ?b then _ else _) => destruct b
      | |- replies (match ?x with _ => _ end) => destruct x
      | |- replies (let '(_, _) := ?x in _) => destruct x
      end ].

Ltac replies_solve := autounfold with top; repeat replies_step.

Section Cases.
Context {host : Host} {world : World}.

Lemma handleCreatePlan_replies plan : replies (handleCreatePlan plan).
Proof. unfold handleCreatePlan. repeat replies_step. Qed.

Lemma case_waiting_confirmation_replies rowNumber plan message :
  replies (case_waiting_confirmation rowNumber plan message).
Proof.
  unfold case_waiting_confirmation.
  destruct (isPureConfirmation _);
    [apply replies_bind; intros; apply handleCreatePlan_replies|].
  repeat replies_step.
Qed.

Lemma case_waiting_delete_confirmation_replies rowNumber events message :
  replies (case_waiting_delete_confirmation rowNumber events message).
Proof. replies_solve. Qed.

Lemma case_waiting_plan_correction_replies rowNumber partialPlan message :
  replies (case_waiting_plan_correction rowNumber partialPlan message).
Proof. replies_solve. Qed.

Lemma preparePushMessageFromIntent_replies userContext intent :
  replies (preparePushMessageFromIntent userContext intent).
Proof. replies_solve. Qed.

Lemma preparePushMessageFromIntent_notPush userContext intent :
  silent notPush (preparePushMessageFromIntent userContext intent).
Proof. unfold preparePushMessageFromIntent. silent_solve. Qed.

Lemma analyzeImageAndPlan_notPush imageBuffer :
  silent notPush (analyzeImageAndPlan imageBuffer).
Proof. silent_solve. Qed.

Lemma handleMessage_writesRow userContext message :
  silent (writesRow (UserContext.rowNumber userContext))
         (handleMessage userContext message).
Proof.
  unfold handleMessage, dispatchState, afterSwitch. autounfold with top. silent_solve.
Qed.

End Cases.

Section TextReplies.
Context {host : Host} {world : World}.

Lemma repliesText_returning (m : M string) : replies m -> repliesText (returning m).
Proof.
  intros Hm h v. rewrite returning_run. cbn [fst]. specialize (Hm h).
  destruct (fst (m h)) as [text|e]; [|discriminate].
  intros [= <-]. exists text. split; [done|]. by apply Hm.
Qed.

Lemma repliesText_ret (s : string) : s <> "" -> repliesText (ret (Js.str s)).
Proof. intros Hs h v [= <-]. eauto. Qed.

Lemma repliesText_throw (e : Exn) : repliesText (throw e).
Proof. intros h v. discriminate. Qed.

Lemma repliesText_bind {A} (m : M A) (k : A -> M Js.value) :
  (forall a, repliesText (k a)) -> repliesText (bind m k).
Proof.
  intros Hk h t. unfold bind. destruct (m h) as [[a|e] l1]; cbn; [|discriminate].
  specialize (Hk a (h ++ l1) t). destruct (k a (h ++ l1)) as [r l2]. cbn [fst snd] in *. done.
Qed.

Lemma repliesText_bind_post {A} (P : A -> Prop) (m : M A) (k : A -> M Js.value) :
  (forall h a, fst (m h) = Ret a -> P a) ->
  (forall a, P a -> repliesText (k a)) ->
  repliesText (bind m k).
Proof.
  intros Hm Hk h t. unfold bind. specialize (Hm h).
  destruct (m h) as [[a|e] l1]; cbn; [|discriminate].
  specialize (Hk a (Hm a eq_refl) (h ++ l1) t).
  destruct (k a (h ++ l1)) as [r l2]. cbn [fst snd] in *. done.
Qed.

Lemma formatEventsForLine_nonempty events text :
  formatEventsForLine events = Ret text -> text <> "".
Proof.
  unfold formatEventsForLine. destruct events as [|event rest]; [by intros [= <-]|].
  destruct (groupEvents ∅ (event :: rest)) as [eventsByDate|e]; [|discriminate].
  intros [= <-]. unfold renderGroups.
  destruct (map_to_list eventsByDate) as [|[dateKey dailyEvents] [|? ?]];
    by apply append_nonempty_l.
Qed.

Lemma handleListEvents_replies intent : replies (handleListEvents intent).
Proof.
  unfold handleListEvents. apply replies_try_catch; [|intros; by apply replies_ret].
  apply replies_bind. intros events h text. cbn. apply formatEventsForLine_nonempty.
Qed.

Lemma handleCreateEvent_replies intent : replies (handleCreateEvent intent).
Proof.
  unfold handleCreateEvent. apply replies_try_catch; [|intros; by apply replies_ret].
  destruct (Intent.params intent) as [params|]; [|by apply replies_ret].
  destruct (_ || _); [by apply replies_ret|].
  apply replies_bind. intros end_. apply replies_bind. intros createdEvent.
  apply replies_ret. by apply append_nonempty_l.
Qed.

Lemma handleDeleteRequest_replies rowNumber intent :
  replies (handleDeleteRequest rowNumber intent).
Proof.
  unfold handleDeleteRequest. destruct (negb _); [by apply replies_ret|].
  apply replies_bind. intros [|event rest]; [apply replies_ret; by apply append_nonempty_l|].
  apply replies_bind. intros _. apply replies_ret.
  destruct rest; by apply append_nonempty_l.
Qed.

(** Every case of the switch on the action but [clarify_or_reject] with
    [params] answers with a text that is not empty. *)
Lemma dispatchIntent_repliesText rowNumber user intent :
  String.eqb (Intent.action intent) "clarify_or_reject" = false \/
  Intent.params intent = None ->
  repliesText (dispatchIntent rowNumber user intent).
Proof.
  intros Hc. unfold dispatchIntent. cbn zeta.
  destruct (String.eqb (Intent.action intent) "plan_complex_task").
  { apply (repliesText_bind_post
             (fun planned : option (list PlanEvent.t) + string =>
                match planned with inr reply => reply <> "" | inl _ => True end)).
    - intros h planned.
      destruct (JsString.truthy (Intent.objectiveTitle intent)); [|by intros [= <-]].
      unfold bind. destruct (findObjectiveByTitle _ _ h) as [[[objective|]|e] l1];
        cbn [fst snd]; [| |discriminate].
      + destruct (injectObjectiveId _ _) as [plan|e]; cbn; [|discriminate].
        by intros [= <-].
      + cbn. intros [= <-]. by apply append_nonempty_l.
    - intros [plan|reply] Hp.
      + apply repliesText_bind. intros _. apply repliesText_returning.
        apply replies_lift_formatPlanForConfirmation.
      + by apply repliesText_ret. }
  destruct (String.eqb (Intent.action intent) "list_events");
    [apply repliesText_returning, handleListEvents_replies|].
  destruct (String.eqb (Intent.action intent) "create_event");
    [apply repliesText_returning, handleCreateEvent_replies|].
  destruct (String.eqb (Intent.action intent) "clarify_or_reject").
  { destruct Hc as [Hc|Hc]; [discriminate|]. rewrite Hc. apply repliesText_throw. }
  destruct (String.eqb (Intent.action intent) "delete_event");
    [apply repliesText_returning, handleDeleteRequest_replies|].
  destruct (String.eqb (Intent.action intent) "create_learning_objective").
  { destruct (Intent.params intent) as [params|]; [|apply repliesText_throw].
    destruct (negb _); [by apply repliesText_ret|].
    apply repliesText_bind. intros newObjective. apply repliesText_ret.
    by apply append_nonempty_l. }
  destruct (String.eqb (Intent.action intent) "plan_for_objective").
  { destruct (Intent.params intent) as [params|]; [|apply repliesText_throw].
    apply repliesText_bind. intros [objective|].
    - apply repliesText_bind. intros planIntent. apply repliesText_bind. intros plan.
      apply repliesText_bind. intros _. apply repliesText_returning.
      apply replies_lift_formatPlanForConfirmation.
    - apply repliesText_ret. by apply append_nonempty_l. }
  destruct (String.eqb (Intent.action intent) "plan_generic_task").
  { apply repliesText_bind. intros _. apply repliesText_returning.
    apply replies_lift_formatPlanForConfirmation. }
  by apply repliesText_ret.
Qed.

Lemma dispatchIntent_clarify rowNumber user intent params h :
  String.eqb (Intent.action intent) "clarify_or_reject" = true ->
  Intent.params intent = Some params ->
  dispatchIntent rowNumber user intent h = (Ret (Params.response params), []).
Proof.
  intros Ha Hp. apply String.eqb_eq in Ha. unfold dispatchIntent. rewrite Ha, Hp.
  reflexivity.
Qed.

Lemma understandAndPlan_run message h :
  understandAndPlan message h
  = (Ret (match Oracle.understandAndPlan oracle h message with
          | Ret intent => intent
          | Throw _ => clarify "抱歉，我的 AI 大腦暫時短路了，請稍後再試一次。"
          end),
     [Entry.mk (UnderstandAndPlan message)
               (isRet (Oracle.understandAndPlan oracle h message))]).
Proof.
  unfold understandAndPlan, try_catch, perform, ret.
  destruct (Oracle.understandAndPlan oracle h message); [done|].
  by rewrite app_nil_r.
Qed.

(** What a write of the state cell stores, call by call. *)
Lemma writesState_stateWrites Q (tr : list Entry.t) :
  Forall (fun e => writesState Q (Entry.call e) = true) tr ->
  Forall (fun w => Q (snd w) = true) (stateWrites tr).
Proof.
  induction 1 as [|e l He _ IH]; [constructor|].
  cbn. destruct (Entry.call e); try exact IH.
  constructor; [|exact IH]. exact He.
Qed.

Lemma case_waiting_confirmation_stores rowNumber plan message :
  silent (writesState clearsOrConfirms) (case_waiting_confirmation rowNumber plan message).
Proof. unfold case_waiting_confirmation. silent_solve. Qed.

Lemma case_waiting_delete_confirmation_stores rowNumber events message :
  silent (writesState clears) (case_waiting_delete_confirmation rowNumber events message).
Proof. unfold case_waiting_delete_confirmation. silent_solve. Qed.

Lemma case_waiting_plan_correction_stores rowNumber partialPlan message :
  silent (writesState clearsOrConfirms)
         (case_waiting_plan_correction rowNumber partialPlan message).
Proof. unfold case_waiting_plan_correction. silent_solve. Qed.

Lemma case_waiting_knowledge_action_stores rowNumber user noteId message :
  silent (writesState clears) (case_waiting_knowledge_action rowNumber user noteId message).
Proof. unfold case_waiting_knowledge_action. silent_solve. Qed.

Lemma freshRequest_stores rowNumber user message :
  silent (writesState entersWaiting) (freshRequest rowNumber user message).
Proof. unfold freshRequest, dispatchIntent. silent_solve. Qed.

End TextReplies.

Lemma writesRow_stateWrites rowNumber (tr : list Entry.t) :
  Forall (fun e => writesRow rowNumber (Entry.call e) = true) tr ->
  Forall (fun w => fst w = rowNumber) (stateWrites tr).
Proof.
  induction 1 as [|e l He _ IH]; [constructor|].
  cbn. destruct (Entry.call e); try exact IH.
  constructor; [|exact IH]. cbn in *. by apply Z.eqb_eq.
Qed.

(** C1 (as amended).  For a user without pending state, [handleMessage]
    always returns: whatever is thrown while the fresh request is handled,
    by the handler or by a collaborator, is turned into the generic failure
    reply.  What it returns is a text that is not empty, in every case but
    one: when the model answers [clarify_or_reject] with [params], the
    reply is the [response] found there, passed on as it is, which may be
    the empty text, [null], or missing. *)
Theorem C1_fresh_request_always_replies
        {host : Host} {world : World}
        (userContext : UserContext.t) (message : string) (h : History) :
  parseState (User.state_json (UserContext.user userContext)) = Ret None ->
  let rowNumber := UserContext.rowNumber userContext in
  let user := UserContext.user userContext in
  let run := handleMessage userContext message h in
  (exists reply : Js.value, fst run = Ret reply) /\
  (forall e : Exn,
      fst ((intent <- understandAndPlan message ;;
            dispatchIntent rowNumber user intent) h) = Throw e ->
      fst run = Ret (Js.str genericError)) /\
  (forall reply : Js.value,
      fst run = Ret reply ->
      (exists text : string, reply = Js.str text /\ text <> "") \/
      (exists intent params,
          fst (understandAndPlan message h) = Ret intent /\
          Intent.action intent = "clarify_or_reject" /\
          Intent.params intent = Some params /\
          reply = Params.response params)).
Proof.
  intros Hidle. cbn zeta. rewrite (handleMessage_idle _ _ _ Hidle).
  unfold freshRequest, try_catch.
  split; [|split].
  - destruct ((intent <- understandAndPlan message ;; dispatchIntent _ _ intent) h)
      as [[reply|e] l]; cbn; eauto.
  - intros e.
    destruct ((intent <- understandAndPlan message ;; dispatchIntent _ _ intent) h)
      as [[reply|e'] l]; cbn; [discriminate|done].
  - intros reply. unfold bind. rewrite understandAndPlan_run. cbn [fst].
    set (intent := match Oracle.understandAndPlan oracle h message with
                   | Ret intent => intent
                   | Throw _ => clarify _
                   end).
    set (h1 := h ++ _).
    destruct (String.eqb (Intent.action intent) "clarify_or_reject") eqn:Ha.
    + destruct (Intent.params intent) as [params|] eqn:Hp.
      * rewrite (dispatchIntent_clarify _ _ intent params h1 Ha Hp). cbn.
        intros [= <-]. right. exists intent, params. apply String.eqb_eq in Ha. done.
      * pose proof (dispatchIntent_repliesText (UserContext.rowNumber userContext)
                      (UserContext.user userContext) intent (or_intror Hp) h1) as Hr.
        destruct (dispatchIntent _ _ intent h1) as [[v|e] l]; cbn [fst snd] in *.
        -- intros [= <-]. left. by apply Hr.
        -- cbn. intros [= <-]. left. eexists. split; [reflexivity|]. discriminate.
    + pose proof (dispatchIntent_repliesText (UserContext.rowNumber userContext)
                    (UserContext.user userContext) intent (or_introl Ha) h1) as Hr.
      destruct (dispatchIntent _ _ intent h1) as [[v|e] l]; cbn [fst snd] in *.
      * intros [= <-]. left. by apply Hr.
      * cbn. intros [= <-]. left. eexists. split; [reflexivity|]. discriminate.
Qed.

Lemma C1_fresh_request_always_replies_witness :
  fst (handleMessage (host := Sample.host) (world := Run.malformedAnswer)
                     (Sample.user json_absent) "hello" [])
  = Ret (Js.str genericError).
Proof.
  destruct (C1_fresh_request_always_replies
              (host := Sample.host) (world := Run.malformedAnswer)
              (Sample.user json_absent) "hello" [] eq_refl) as (_ & H & _).
  apply (H TypeError). vm_compute. reflexivity.
Defined.

(** C1 (as stated) fails in a waiting state: the switch on the state runs
    outside the [try], so the error [deleteEventById] throws when the
    calendar is down leaves [handleMessage]; the state cell is not
    written. *)
Lemma C1_delete_failure_escapes_handleMessage :
  let run := handleMessage (host := Sample.host) (world := Run.deleteAllDown)
                           Run.deleting "全部" [] in
  fst run = Throw (ServiceError "刪除 Google Calendar 事件時發生錯誤。") /\
  map Entry.call (snd run) = [ParseDeletionChoice "全部" 3; DeleteEventById "e1"] /\
  stateWrites (snd run) = [].
Proof. cbn zeta. repeat split; vm_compute; reflexivity. Qed.

(** C3 (as amended).  Every write [handleMessage] makes goes to the state
    cell of the user it handles.  In the states WaitingConfirmation,
    WaitingDeleteConfirmation and WaitingPlanCorrection a call that
    completes has written that cell exactly once, and its reply is a text
    that is not empty; what is written is the empty state or, in
    WaitingConfirmation and WaitingPlanCorrection, a new
    WaitingConfirmation.  Elsewhere the number of writes is bounded but not
    fixed: at most one for a user without pending state, which enters
    WaitingConfirmation or WaitingDeleteConfirmation; at most one in
    WaitingKnowledgeAction, of the empty state; one or two under an
    unrecognized tag, the reset first and then what the fresh request
    writes. *)
Theorem C3_writes_per_state
        {host : Host} {world : World}
        (userContext : UserContext.t) (message : string) (h : History) :
  let state_json := User.state_json (UserContext.user userContext) in
  let rowNumber := UserContext.rowNumber userContext in
  let run := handleMessage userContext message h in
  let n := writeCount (snd run) in
  (n <= snd (writeBounds state_json))%nat /\
  (isRet (fst run) = true -> fst (writeBounds state_json) <= n)%nat /\
  Forall (fun w => fst w = rowNumber) (stateWrites (snd run)) /\
  (buildsReply state_json = true ->
   forall reply, fst run = Ret reply -> exists text, reply = Js.str text /\ text <> "") /\
  match state_json with
  | json_state (waiting_confirmation _) | json_state (waiting_plan_correction _) =>
      Forall (fun w => snd w = None \/ exists plan, snd w = Some (waiting_confirmation plan))
             (stateWrites (snd run))
  | json_state (waiting_delete_confirmation _) | json_state (waiting_knowledge_action _) =>
      Forall (fun w => snd w = None) (stateWrites (snd run))
  | json_state (unrecognized _) =>
      exists rest,
        stateWrites (snd run) = (rowNumber, None) :: rest /\
        Forall (fun w => entersWaiting (snd w) = true) rest
  | json_absent | json_null =>
      Forall (fun w => entersWaiting (snd w) = true) (stateWrites (snd run))
  | json_invalid _ => stateWrites (snd run) = []
  end.
Proof.
  cbn zeta.
  assert (forall lo hi (m : M Js.value),
             writes lo hi m -> handleMessage userContext message h = m h ->
             (writeCount (snd (handleMessage userContext message h)) <= hi)%nat /\
             (isRet (fst (handleMessage userContext message h)) = true ->
              lo <= writeCount (snd (handleMessage userContext message h)))%nat) as Hw.
  { intros lo hi m Hm E. rewrite E. apply Hm. }
  assert (forall (m : M string),
             replies m -> handleMessage userContext message h = returning m h ->
             forall reply, fst (handleMessage userContext message h) = Ret reply ->
                           exists text, reply = Js.str text /\ text <> "") as Hr.
  { intros m Hm E reply. rewrite E. by apply repliesText_returning. }
  assert (forall Q (m : M string),
             silent (writesState Q) m ->
             handleMessage userContext message h = returning m h ->
             Forall (fun w => Q (snd w) = true)
                    (stateWrites (snd (handleMessage userContext message h)))) as Hq.
  { intros Q m Hm E. rewrite E, returning_run. cbn [snd].
    apply writesState_stateWrites, Hm. }
  assert ((writeCount (snd (handleMessage userContext message h))
           <= snd (writeBounds (User.state_json (UserContext.user userContext))))%nat /\
          (isRet (fst (handleMessage userContext message h)) = true ->
           fst (writeBounds (User.state_json (UserContext.user userContext)))
           <= writeCount (snd (handleMessage userContext message h)))%nat) as [H1 H2];
    [|split; [exact H1|]; split; [exact H2|]; split; [|split]].
  - destruct (User.state_json (UserContext.user userContext)) as [|raw| |st] eqn:Hst;
      cbn [writeBounds fst snd].
    + eapply Hw; [apply freshRequest_writes|]. apply handleMessage_idle. by rewrite Hst.
    + unfold handleMessage. rewrite Hst. cbn. unfold writeCount. cbn. lia.
    + eapply Hw; [apply freshRequest_writes|]. apply handleMessage_idle. by rewrite Hst.
    + pose proof (handleMessage_state userContext message h st Hst) as E. cbn zeta in E.
      destruct st; cbn [writeBounds fst snd].
      * eapply Hw; [apply writes_returning, case_waiting_confirmation_writes | exact E].
      * eapply Hw; [apply writes_returning, case_waiting_delete_confirmation_writes
                   | exact E].
      * eapply Hw; [apply writes_returning, case_waiting_plan_correction_writes | exact E].
      * eapply Hw; [apply writes_returning, case_waiting_knowledge_action_writes | exact E].
      * eapply Hw; [|exact E].
        apply writes_bind_setUserState; [lia|]. intros _. apply freshRequest_writes.
  - apply writesRow_stateWrites. apply handleMessage_writesRow.
  - intros Hb.
    destruct (User.state_json (UserContext.user userContext)) as [|raw| |st] eqn:Hst;
      try discriminate.
    pose proof (handleMessage_state userContext message h st Hst) as E. cbn zeta in E.
    destruct st; try discriminate.
    + eapply Hr; [apply case_waiting_confirmation_replies | exact E].
    + eapply Hr; [apply case_waiting_delete_confirmation_replies | exact E].
    + eapply Hr; [apply case_waiting_plan_correction_replies | exact E].
  - assert (forall l : list (Z * option UserState),
               Forall (fun w => clearsOrConfirms (snd w) = true) l ->
               Forall (fun w => snd w = None \/
                                exists plan, snd w = Some (waiting_confirmation plan)) l)
      as Hcc.
    { intros l Hl. eapply Forall_impl; [exact Hl|].
      intros [r [[]|]]; cbn; try discriminate; eauto. }
    assert (forall l : list (Z * option UserState),
               Forall (fun w => clears (snd w) = true) l ->
               Forall (fun w => snd w = None) l) as Hcl.
    { intros l Hl. eapply Forall_impl; [exact Hl|].
      intros [r [st|]]; cbn; [discriminate|done]. }
    destruct (User.state_json (UserContext.user userContext)) as [|raw| |st] eqn:Hst.
    + rewrite handleMessage_idle by (by rewrite Hst).
      apply writesState_stateWrites, freshRequest_stores.
    + unfold handleMessage. rewrite Hst. reflexivity.
    + rewrite handleMessage_idle by (by rewrite Hst).
      apply writesState_stateWrites, freshRequest_stores.
    + pose proof (handleMessage_state userContext message h st Hst) as E. cbn zeta in E.
      destruct st.
      * apply Hcc. eapply Hq; [apply case_waiting_confirmation_stores | exact E].
      * apply Hcl. eapply Hq; [apply case_waiting_delete_confirmation_stores | exact E].
      * apply Hcc. eapply Hq; [apply case_waiting_plan_correction_stores | exact E].
      * apply Hcl. eapply Hq; [apply case_waiting_knowledge_action_stores | exact E].
      * rewrite E. unfold bind, setUserState, perform.
        destruct (UserStore.setUserState userStore h _ None) as [[]|e]; cbn [isRet].
        -- match goal with
           | |- context [freshRequest ?r ?u ?m ?hh] =>
               pose proof (freshRequest_stores r u m hh) as Hf;
               destruct (freshRequest r u m hh) as [o l]
           end.
           cbn [fst snd] in *. eexists. split; [reflexivity|].
           by apply writesState_stateWrites.
        -- eexists. split; [reflexivity|]. constructor.
Qed.

Lemma C3_writes_per_state_witness :
  let run := handleMessage (host := Sample.host) (world := Run.quiet)
                           Run.confirming "不用了" [] in
  stateWrites (snd run) = [(2, None)] /\ fst run = Ret (Js.str "好的，已為您取消安排。").
Proof.
  cbn zeta.
  destruct (C3_writes_per_state (host := Sample.host) (world := Run.quiet)
                                Run.confirming "不用了" []) as (Hhi & Hlo & _ & Hr & _).
  assert (fst (handleMessage (host := Sample.host) (world := Run.quiet)
                             Run.confirming "不用了" [])
          = Ret (Js.str "好的，已為您取消安排。")) as E
    by (vm_compute; reflexivity).
  split; [|exact E]. vm_compute. reflexivity.
Defined.

(** C3 (as stated) fails for a user without pending state whose message the
    model answers with [clarify_or_reject]: the call completes without any
    write of the state cell, and its reply is the [response] of the model,
    here the empty text and, in the second run, no text at all. *)
Lemma C3_fresh_request_may_write_nothing_and_reply_nothing :
  let run := handleMessage (host := Sample.host) (world := Run.emptyAnswer)
                           (Sample.user json_absent) "hello" [] in
  let run' := handleMessage (host := Sample.host) (world := Run.noResponse)
                            (Sample.user json_absent) "hello" [] in
  fst run = Ret (Js.str "") /\ stateWrites (snd run) = [] /\
  map Entry.call (snd run) = [UnderstandAndPlan "hello"] /\
  fst run' = Ret Js.undefined /\ stateWrites (snd run') = [].
Proof. cbn zeta. repeat split; vm_compute; reflexivity. Qed.

(** ** The background image task *)

(** C8 (as amended).  With a line handler attached, the background task
    makes one push to the user who sent the image, or two: the prepared
    text when the analysis and the preparation went through, the apology
    otherwise.  When that push goes through the task returns; when the
    push of the prepared text throws, the apology is attempted as a second
    push; when the push of the apology throws, the task ends with that
    error.  So with a push channel that does not fail the task returns
    after exactly one push that went through.  Without a line handler
    nothing is pushed and the task returns. *)
Theorem C8_pushes_of_the_background_task
        {host : Host} {world : World} (lineHandler : bool)
        (userContext : UserContext.t) (imageBuffer : string) (h : History) :
  let userId := User.line_user_id (UserContext.user userContext) in
  let prepared :=
    (intent <- analyzeImageAndPlan imageBuffer ;;
     preparePushMessageFromIntent userContext intent) h in
  let run := processImageInBackground lineHandler userContext imageBuffer h in
  (lineHandler = false -> fst run = Ret tt /\ pushes (snd run) = []) /\
  (lineHandler = true ->
   exists ok : bool,
     match fst prepared with
     | Ret text =>
         if ok then fst run = Ret tt /\ pushes (snd run) = [(userId, text, true)]
         else exists ok' : bool,
             pushes (snd run) = [(userId, text, false); (userId, imageApology, ok')] /\
             if ok' then fst run = Ret tt else isRet (fst run) = false
     | Throw _ =>
         pushes (snd run) = [(userId, imageApology, ok)] /\
         if ok then fst run = Ret tt else isRet (fst run) = false
     end) /\
  (lineHandler = true ->
   (forall h' userId text, pushMessage_answer h' userId text = Ret tt) ->
   fst run = Ret tt /\
   pushes (snd run)
   = [(userId,
       match fst prepared with Ret text => text | Throw _ => imageApology end,
       true)]).
Proof.
  cbn zeta.
  pose (prepare := bind (analyzeImageAndPlan imageBuffer)
                        (preparePushMessageFromIntent userContext)).
  pose (userId := User.line_user_id (UserContext.user userContext)).
  assert (silent notPush prepare) as Hq.
  { apply silent_bind; [apply analyzeImageAndPlan_notPush|].
    intros. apply preparePushMessageFromIntent_notPush. }
  assert (replies prepare) as Hr.
  { apply replies_bind. intros. apply preparePushMessageFromIntent_replies. }
  pose proof (silent_pushes _ h Hq) as E0. specialize (Hr h).
  assert (forall text h',
             pushMessage userId text h'
             = (pushMessage_answer h' userId text,
                [Entry.mk (PushMessage userId text)
                          (isRet (pushMessage_answer h' userId text))])) as Hp
      by reflexivity.
  assert (processImageInBackground lineHandler userContext imageBuffer h
          = try_catch
              (bind prepare
                    (fun text => if lineHandler && negb (String.eqb text "")
                                 then pushMessage userId text else ret tt))
              (fun _ => if lineHandler then pushMessage userId imageApology else ret tt)
              h) as ->.
  { unfold processImageInBackground, try_catch. fold userId.
    by rewrite <- (bind_assoc (analyzeImageAndPlan imageBuffer)
                              (preparePushMessageFromIntent userContext) _ h). }
  change ((intent <- analyzeImageAndPlan imageBuffer ;;
           preparePushMessageFromIntent userContext intent) h) with (prepare h).
  unfold try_catch, bind.
  destruct (prepare h) as [[text|e] l1]; cbn [fst snd] in *.
  - specialize (Hr text eq_refl).
    destruct (String.eqb_spec text ""); [done|]. cbn [negb]. rewrite andb_true_r.
    destruct lineHandler.
    + rewrite Hp.
      destruct (pushMessage_answer (h ++ l1) userId text) as [[]|e1] eqn:E1;
        cbn [isRet fst snd].
      * split; [discriminate|]. unfold pushes in *. rewrite omap_app, E0.
        split; [intros _; by exists true|]. by intros _ _.
      * rewrite Hp.
        match goal with
        | |- context [pushMessage_answer ?hh userId imageApology] =>
            destruct (pushMessage_answer hh userId imageApology) as [[]|e2] eqn:E2
        end; cbn [isRet fst snd]; unfold pushes in *; rewrite !omap_app, E0.
        -- split; [discriminate|].
           split; [intros _; exists false; by exists true|].
           intros _ Hpush. rewrite Hpush in E1. discriminate.
        -- split; [discriminate|].
           split; [intros _; exists false; by exists false|].
           intros _ Hpush. rewrite Hpush in E1. discriminate.
    + cbn. rewrite app_nil_r. by repeat split.
  - destruct lineHandler.
    + rewrite Hp.
      destruct (pushMessage_answer (h ++ l1) userId imageApology) as [[]|e1] eqn:E1;
        cbn [isRet fst snd]; unfold pushes in *; rewrite omap_app, E0.
      * split; [discriminate|]. split; [intros _; by exists true|]. by intros _ _.
      * split; [discriminate|]. split; [intros _; by exists false|].
        intros _ Hpush. rewrite Hpush in E1. discriminate.
    + cbn. rewrite app_nil_r. by repeat split.
Qed.

Lemma C8_pushes_of_the_background_task_witness :
  let run := processImageInBackground (host := Sample.host) (world := Run.pushUp)
                                      true (Sample.user json_absent) "jpeg" [] in
  fst run = Ret tt /\ length (pushes (snd run)) = 1%nat.
Proof.
  cbn zeta.
  destruct (C8_pushes_of_the_background_task
              (host := Sample.host) (world := Run.pushUp) true
              (Sample.user json_absent) "jpeg" []) as (_ & _ & H).
  destruct (H eq_refl (fun _ _ _ => eq_refl)) as [E1 E2].
  split; [exact E1|]. by rewrite E2.
Defined.

(** C8 (as stated) fails when the push channel is down: the push of the
    result throws inside the [try], the [catch] pushes the apology, that
    push throws as well and the task ends with that error, nothing having
    reached the user. *)
Lemma C8_background_task_can_end_without_delivering :
  let down := processImageInBackground (host := Sample.host) (world := Run.pushDown)
                                       true (Sample.user json_absent) "jpeg" [] in
  fst down = Throw (ServiceError "push failed") /\
  map (fun p => snd p) (pushes (snd down)) = [false; false] /\
  map (fun p => snd (fst p)) (pushes (snd down))
  = [match formatPlanForConfirmation (host := Sample.host) (Some Run.poster) true with
     | Ret text => text
     | Throw _ => ""
     end; imageApology].
Proof. cbn zeta. repeat split; vm_compute; reflexivity. Qed.

(** ** The formatter *)

Section Formatter.
Context {host : Host}.

Lemma groupEvent_dateKeyOf eventsByDate event :
  groupEvent eventsByDate event
  = match dateKeyOf event with
    | None => Ret eventsByDate
    | Some (Throw e) => Throw e
    | Some (Ret dateKey) =>
        Ret (<[dateKey := default [] (eventsByDate !! dateKey) ++ [event]]> eventsByDate)
    end.
Proof.
  unfold groupEvent, dateKeyOf.
  destruct (negb (JsString.truthy _)); [done|].
  by destruct (toISOString _).
Qed.

Lemma dateKeyOf_throws event e : dateKeyOf event = Some (Throw e) -> e = RangeError.
Proof.
  unfold dateKeyOf. rewrite toISOString_validDate.
  destruct (negb (JsString.truthy _)); [done|].
  destruct (validDate _); congruence.
Qed.

(** An event whose start is not a date makes the grouping throw. *)
Lemma groupEvents_throws events :
  forall eventsByDate,
    allDated events = false -> groupEvents eventsByDate events = Throw RangeError.
Proof.
  induction events as [|event rest IH]; intros m; cbn [allDated forallb groupEvents];
    [discriminate|].
  rewrite groupEvent_dateKeyOf.
  destruct (dateKeyOf event) as [[key|e]|] eqn:E; cbn [andb]; intros H.
  - by apply IH.
  - by rewrite (dateKeyOf_throws _ _ E).
  - by apply IH.
Qed.

(** Otherwise each date ends up with the events filed under it, in the
    order received, after what the map held for that date. *)
Lemma groupEvents_lookup events :
  forall eventsByDate,
    allDated events = true ->
    exists grouped,
      groupEvents eventsByDate events = Ret grouped /\
      forall dateKey,
        grouped !! dateKey
        = match List.filter (onDate dateKey) events with
          | [] => eventsByDate !! dateKey
          | filed => Some (default [] (eventsByDate !! dateKey) ++ filed)
          end.
Proof.
  induction events as [|event rest IH]; intros m; cbn [allDated forallb groupEvents].
  - intros _. by exists m.
  - rewrite groupEvent_dateKeyOf.
    destruct (dateKeyOf event) as [[key|e]|] eqn:E; cbn [andb]; intros H;
      [|discriminate|].
    + destruct (IH (<[key := default [] (m !! key) ++ [event]]> m) H)
        as (grouped & Hg & Hl).
      exists grouped. split; [done|]. intros dateKey. rewrite Hl. cbn [List.filter].
      assert (onDate dateKey event = String.eqb key dateKey) as ->
          by (unfold onDate; by rewrite E).
      destruct (String.eqb_spec key dateKey) as [->|Hne].
      * rewrite lookup_insert_eq. cbn [default].
        destruct (List.filter (onDate dateKey) rest); [done|].
        unfold id. by rewrite <- app_assoc.
      * by rewrite lookup_insert_ne.
    + destruct (IH m H) as (grouped & Hg & Hl).
      exists grouped. split; [done|]. intros dateKey. rewrite Hl. cbn [List.filter].
      assert (onDate dateKey event = false) as -> by (unfold onDate; by rewrite E).
      done.
Qed.

Lemma allDated_Permutation events events' :
  Permutation events events' -> allDated events = allDated events'.
Proof.
  unfold allDated. induction 1 as [|x l l' _ IH|x y l|l l' l'' _ IH1 _ IH2]; cbn.
  - done.
  - by rewrite IH.
  - by rewrite !andb_assoc, (andb_comm (match dateKeyOf y with
                                         | Some (Throw _) => false | _ => true end)).
  - congruence.
Qed.

End Formatter.

(** C9 (as amended).  [formatEventsForLine] is a function of its argument,
    and its text is the same for two orderings of the same events as soon
    as the events filed under each date come in the same relative order in
    both: the formatter orders the dates, not the events of a date. *)
Theorem C9_same_text_when_order_within_each_date_is_kept
        {host : Host} (events events' : list CalendarEvent.t) :
  Permutation events events' ->
  (forall dateKey,
      List.filter (onDate dateKey) events = List.filter (onDate dateKey) events') ->
  formatEventsForLine events = formatEventsForLine events'.
Proof.
  intros Hperm Hsame.
  pose proof (Permutation_length Hperm) as Hlen.
  pose proof (allDated_Permutation _ _ Hperm) as Hdated.
  destruct events as [|e1 rest1]; [by apply Permutation_nil in Hperm; subst|].
  destruct events' as [|e2 rest2]; [by apply Permutation_sym, Permutation_nil in Hperm|].
  unfold formatEventsForLine. rewrite Hlen.
  destruct (allDated (e1 :: rest1)) eqn:Hd.
  - destruct (groupEvents_lookup (e1 :: rest1) ∅ Hd) as (g1 & -> & Hl1).
    symmetry in Hdated.
    destruct (groupEvents_lookup (e2 :: rest2) ∅ Hdated) as (g2 & -> & Hl2).
    f_equal. f_equal. apply map_eq. intros dateKey.
    by rewrite Hl1, Hl2, Hsame.
  - rewrite (groupEvents_throws _ ∅ Hd). symmetry in Hdated.
    by rewrite (groupEvents_throws _ ∅ Hdated).
Qed.

Lemma C9_same_text_when_order_within_each_date_is_kept_witness :
  formatEventsForLine (host := Sample.host)
    [Sample.event "e1" "A" "2025-01-07"; Sample.event "e2" "B" "2025-01-06"]
  = formatEventsForLine (host := Sample.host)
      [Sample.event "e2" "B" "2025-01-06"; Sample.event "e1" "A" "2025-01-07"].
Proof.
  apply C9_same_text_when_order_within_each_date_is_kept.
  - apply perm_swap.
  - intros dateKey. cbn [List.filter]. unfold onDate.
    change (dateKeyOf (host := Sample.host) (Sample.event "e1" "A" "2025-01-07"))
      with (Some (Ret "2025-01-07")).
    change (dateKeyOf (host := Sample.host) (Sample.event "e2" "B" "2025-01-06"))
      with (Some (Ret "2025-01-06")).
    destruct (String.eqb "2025-01-07" dateKey) eqn:E7,
             (String.eqb "2025-01-06" dateKey) eqn:E6; try reflexivity.
    apply String.eqb_eq in E7, E6. congruence.
Defined.

(** C9 (as stated) fails for two events of the same date: they are listed
    in the order received, so exchanging them changes the text. *)
Lemma C9_order_within_a_date_shows_in_the_text :
  Permutation Run.sameDay (rev Run.sameDay) /\
  formatEventsForLine (host := Sample.host) Run.sameDay
  = Ret ("📅 您在 2025/1/6 有 2 個行程:" +:+ nl
         +:+ nl +:+ "1. A (全天)" +:+ nl +:+ "2. B (全天)") /\
  formatEventsForLine (host := Sample.host) (rev Run.sameDay)
  = Ret ("📅 您在 2025/1/6 有 2 個行程:" +:+ nl
         +:+ nl +:+ "1. B (全天)" +:+ nl +:+ "2. A (全天)") /\
  formatEventsForLine (host := Sample.host) Run.sameDay
  <> formatEventsForLine (host := Sample.host) (rev Run.sameDay).
Proof.
  split; [apply Permutation_rev|].
  split; [vm_compute; reflexivity|].
  split; [vm_compute; reflexivity|].
  vm_compute. discriminate.
Qed.

(** ** Image plans *)

Lemma uniqueEvents_Forall (Q : PlanEvent.t -> Prop) (self : list PlanEvent.t) :
  Forall Q self -> Forall Q (uniqueEvents self).
Proof.
  intros H. unfold uniqueEvents. rewrite Forall_forall in *.
  intros event Hin. apply list_elem_of_In, in_map_iff in Hin as ([index x] & <- & Hin).
  apply filter_In in Hin as [Hin _].
  apply list_elem_of_In, elem_of_lookup_imap in Hin as (i & y & [= -> ->] & Hi).
  apply H. by eapply list_elem_of_lookup_2.
Qed.



Section ImageReplies.
Context {host : Host} {world : World}.







End ImageReplies.



(** * Further properties *)

(** ** De-duplication of image plans *)

Lemma sameStep_stepKey event t : sameStep event t = true <-> stepKey t = stepKey event.
Proof.
  unfold sameStep, stepKey. rewrite andb_true_iff, !bool_decide_eq_true.
  split; [intros [-> ->]; done | intros [= -> ->]; done].
Qed.

Lemma existsb_sameStep event seen :
  existsb (sameStep event) seen = true <-> stepKey event ∈ map stepKey seen.
Proof.
  rewrite existsb_exists, list_elem_of_fmap. split.
  - intros (t & Hin & Hs). exists t. apply sameStep_stepKey in Hs.
    split; [done | by apply list_elem_of_In].
  - intros (t & Hk & Hin). exists t. split; [by apply list_elem_of_In|].
    by apply sameStep_stepKey.
Qed.

Lemma findIndex_lt {A : Type} (p : A -> bool) (self : list A) (i : nat) :
  findIndex p self = Some i -> (i < length self)%nat.
Proof.
  revert i. induction self as [|x rest IH]; intros i; cbn; [discriminate|].
  destruct (p x); [intros [= <-]; lia|].
  destruct (findIndex p rest) as [j|]; cbn; [|discriminate].
  intros [= <-]. specialize (IH j eq_refl). lia.
Qed.

Lemma findIndex_None {A : Type} (p : A -> bool) (self : list A) :
  findIndex p self = None <-> existsb p self = false.
Proof.
  induction self as [|x rest IH]; cbn; [done|].
  destruct (p x); cbn; [done|].
  destruct (findIndex p rest); cbn; [|tauto].
  split; [discriminate|]. intros H. by apply IH in H.
Qed.

Lemma findIndex_app {A : Type} (p : A -> bool) (l1 l2 : list A) :
  findIndex p (l1 ++ l2)
  = match findIndex p l1 with
    | Some i => Some i
    | None => (fun i => (length l1 + i)%nat) <$> findIndex p l2
    end.
Proof.
  induction l1 as [|x rest IH]; cbn.
  - by destruct (findIndex p l2).
  - destruct (p x); [done|]. rewrite IH.
    destruct (findIndex p rest); [done|]. by destruct (findIndex p l2).
Qed.

(** The filter of [uniqueEvents], started after the steps [seen]. *)
Lemma uniqueEvents_from (l : list PlanEvent.t) :
  forall seen,
    map snd
      (List.filter (fun '(index, event) =>
                      bool_decide (findIndex (sameStep event) (seen ++ l) = Some index))
                   (imap (fun index event => ((length seen + index)%nat, event)) l))
    = keepFirst seen l.
Proof.
  induction l as [|event rest IH]; intros seen; [done|].
  rewrite imap_cons. cbn [List.filter keepFirst].
  assert (bool_decide (findIndex (sameStep event) (seen ++ event :: rest)
                       = Some (length seen + 0)%nat)
          = negb (existsb (sameStep event) seen)) as ->.
  { rewrite findIndex_app. cbn [findIndex].
    assert (sameStep event event = true) as -> by by apply sameStep_stepKey.
    destruct (findIndex (sameStep event) seen) as [i|] eqn:E.
    - apply findIndex_lt in E as Hlt.
      assert (existsb (sameStep event) seen = true) as ->.
      { destruct (existsb (sameStep event) seen) eqn:Hx; [done|].
        apply findIndex_None in Hx. congruence. }
      apply bool_decide_eq_false. intros [= ->]. lia.
    - apply findIndex_None in E as ->. by apply bool_decide_eq_true. }
  specialize (IH (seen ++ [event])).
  rewrite <- app_assoc in IH. cbn [app] in IH.
  rewrite (imap_ext _ (fun index event0 => ((length (seen ++ [event]) + index)%nat, event0)))
    by (intros i x _; cbn; rewrite length_app; cbn; f_equal; lia).
  destruct (existsb (sameStep event) seen); cbn [negb map snd]; by rewrite IH.
Qed.

(** [index === self.findIndex(...)] keeps the first step of each summary
    and date. *)
Lemma uniqueEvents_keepFirst (self : list PlanEvent.t) :
  uniqueEvents self = keepFirst [] self.
Proof. exact (uniqueEvents_from self []). Qed.

Lemma keepFirst_sublist (l : list PlanEvent.t) : forall seen, sublist (keepFirst seen l) l.
Proof.
  induction l as [|event rest IH]; intros seen; cbn; [constructor|].
  destruct (existsb _ seen); [apply sublist_cons | apply sublist_skip]; apply IH.
Qed.

Lemma keepFirst_fresh (l : list PlanEvent.t) :
  forall seen event, event ∈ keepFirst seen l -> stepKey event ∉ map stepKey seen.
Proof.
  induction l as [|x rest IH]; intros seen event; cbn; [by intros ?%elem_of_nil|].
  assert (event ∈ keepFirst (seen ++ [x]) rest -> stepKey event ∉ map stepKey seen) as Hrest.
  { intros Hin%IH Hk. apply Hin. rewrite map_app. apply elem_of_app. by left. }
  destruct (existsb (sameStep x) seen) eqn:E; [done|].
  intros [->|Hin]%elem_of_cons; [|auto].
  intros Hk. apply existsb_sameStep in Hk. congruence.
Qed.

Lemma keepFirst_NoDup (l : list PlanEvent.t) :
  forall seen, NoDup (map stepKey (keepFirst seen l)).
Proof.
  induction l as [|x rest IH]; intros seen; cbn; [constructor|].
  destruct (existsb (sameStep x) seen); [apply IH|].
  cbn. constructor; [|apply IH].
  intros (y & Hk & Hin)%list_elem_of_fmap.
  apply keepFirst_fresh in Hin. apply Hin. rewrite map_app, <- Hk.
  apply elem_of_app. right. left.
Qed.

Lemma keepFirst_first (l1 : list PlanEvent.t) :
  forall seen event l2,
    stepKey event ∉ map stepKey (seen ++ l1) ->
    event ∈ keepFirst seen (l1 ++ event :: l2).
Proof.
  induction l1 as [|x rest IH]; intros seen event l2 Hk; cbn.
  - rewrite app_nil_r in Hk.
    destruct (existsb (sameStep event) seen) eqn:E; [|left].
    by apply existsb_sameStep in E.
  - assert (event ∈ keepFirst (seen ++ [x]) (rest ++ event :: l2)) as Hin.
    { apply IH. by rewrite <- app_assoc. }
    destruct (existsb (sameStep x) seen); [done | by right].
Qed.

Lemma keepFirst_cover (l : list PlanEvent.t) :
  forall seen event,
    event ∈ l -> stepKey event ∈ map stepKey (seen ++ keepFirst seen l).
Proof.
  induction l as [|x rest IH]; intros seen event; [by intros ?%elem_of_nil|].
  cbn [keepFirst]. intros [->|Hin]%elem_of_cons.
  - rewrite map_app. apply elem_of_app.
    destruct (existsb (sameStep x) seen) eqn:E.
    + left. by apply existsb_sameStep.
    + right. left.
  - specialize (IH (seen ++ [x]) event Hin). rewrite !map_app in IH. cbn in IH.
    rewrite map_app. rewrite !elem_of_app in *. rewrite list_elem_of_singleton in IH.
    destruct IH as [[IH| ->]|IH]; [by left| |].
    + destruct (existsb (sameStep x) seen) eqn:E.
      * left. by apply existsb_sameStep.
      * right. left.
    + right. destruct (existsb (sameStep x) seen); [done | by right].
Qed.

Lemma keepFirst_id (l : list PlanEvent.t) :
  forall seen, NoDup (map stepKey (seen ++ l)) -> keepFirst seen l = l.
Proof.
  induction l as [|x rest IH]; intros seen Hnd; [done|].
  cbn [keepFirst].
  assert (existsb (sameStep x) seen = false) as ->.
  { destruct (existsb (sameStep x) seen) eqn:E; [|done].
    apply existsb_sameStep in E. rewrite map_app in Hnd. cbn in Hnd.
    apply NoDup_app in Hnd as (_ & Hd & _). exfalso. apply (Hd _ E). left. }
  f_equal. apply IH. by rewrite <- app_assoc.
Qed.

(** X1.  The de-duplication of an image plan keeps its steps in the order
    received, keeps no two steps with the same summary and date, keeps for
    every step received one with its summary and date, and the one it keeps
    is the first received. *)
Theorem uniqueEvents_keeps_first_of_each_key (self : list PlanEvent.t) :
  sublist (uniqueEvents self) self /\
  NoDup (map stepKey (uniqueEvents self)) /\
  (forall event, event ∈ self -> stepKey event ∈ map stepKey (uniqueEvents self)) /\
  (forall l1 event l2,
      self = l1 ++ event :: l2 -> stepKey event ∉ map stepKey l1 ->
      event ∈ uniqueEvents self).
Proof.
  rewrite uniqueEvents_keepFirst. split; [apply keepFirst_sublist|].
  split; [apply keepFirst_NoDup|]. split.
  - intros event Hin. exact (keepFirst_cover self [] event Hin).
  - intros l1 event l2 -> Hk. by apply keepFirst_first.
Qed.

Lemma uniqueEvents_keeps_first_of_each_key_witness :
  PlanEvent.mk "quiz" "2025-04-10" Js.undefined (Some (JsNumber.ofZ 1)) None
  ∈ uniqueEvents Run.twice.
Proof.
  apply (proj2 (proj2 (proj2 (uniqueEvents_keeps_first_of_each_key Run.twice)))
           [] _ [PlanEvent.mk "quiz" "2025-04-10" Js.undefined
                              (Some (JsNumber.ofZ 2)) None]).
  - reflexivity.
  - cbn. apply not_elem_of_nil.
Defined.

(** A date that is [null] and a date that is missing are different keys:
    both steps are kept. *)
Example uniqueEvents_null_is_not_missing :
  uniqueEvents Run.nullAndMissing = Run.nullAndMissing /\
  uniqueEvents (Run.nullAndMissing ++ Run.nullAndMissing) = Run.nullAndMissing.
Proof. split; vm_compute; reflexivity. Qed.

Lemma completeEvents_id (plan : list PlanEvent.t) :
  Forall (fun event =>
            Js.truthy (PlanEvent.summary event)
            && (Js.truthy (PlanEvent.date event)
                || Js.truthy (PlanEvent.startTime event)) = true) plan ->
  completeEvents plan = plan.
Proof.
  induction 1 as [|event rest He _ IH]; [done|].
  unfold completeEvents in *. cbn [List.filter]. by rewrite He, IH.
Qed.

Lemma postProcess_plan_fix (plan : list PlanEvent.t) :
  uniqueEvents (completeEvents (uniqueEvents (completeEvents plan)))
  = uniqueEvents (completeEvents plan).
Proof.
  rewrite (completeEvents_id (uniqueEvents _)).
  - rewrite (uniqueEvents_keepFirst (uniqueEvents _)). apply keepFirst_id.
    rewrite uniqueEvents_keepFirst. apply keepFirst_NoDup.
  - apply uniqueEvents_Forall. apply List.Forall_forall. intros event Hin.
    unfold completeEvents in Hin. by apply filter_In in Hin as [_ Hc].
Qed.

(** X2.  The post-processing of an image intent changes nothing when it is
    applied a second time: what it keeps is complete and free of
    duplicates already. *)
Theorem postProcess_idempotent (intent : Intent.t) :
  postProcess (postProcess intent) = postProcess intent.
Proof.
  unfold postProcess. destruct (Intent.plan intent) as [plan|] eqn:Hp.
  - destruct (String.eqb (Intent.action intent) "plan_complex_task") eqn:Ha.
    + cbn [Intent.plan Intent.action]. rewrite Ha. cbn.
      by rewrite postProcess_plan_fix.
    + by rewrite Hp, Ha.
  - by rewrite Hp.
Qed.

(** ** The weekend loop *)

(** X3.  The loop that moves the cursor off a weekend leaves a weekday
    where it is, moves a Saturday by two days and a Sunday by one, so it
    always ends on a Monday when it moves at all; running it for more than
    two rounds changes nothing. *)
Theorem skipWeekend_next_monday (tz t : Z) (rounds : nat) :
  JsDate.skipWeekend tz t
  = JsDate.addDays t (if JsDate.getDay tz t =? 6 then 2
                      else if JsDate.getDay tz t =? 0 then 1 else 0) /\
  (JsDate.isWeekend tz t = true -> JsDate.getDay tz (JsDate.skipWeekend tz t) = 1) /\
  JsDate.skipWeekendLoop tz (2 + rounds) t = JsDate.skipWeekend tz t.
Proof.
  pose proof (JsDateFacts.getDay_range tz t) as R.
  pose proof (JsDateFacts.getDay_addDays tz t) as E1.
  pose proof (JsDateFacts.getDay_addDays tz (JsDate.addDays t 1)) as E2.
  rewrite E1 in E2.
  assert (JsDate.addDays (JsDate.addDays t 1) 1 = JsDate.addDays t 2) as E3
      by (unfold JsDate.addDays; lia).
  assert (JsDate.addDays t 0 = t) as E0 by (unfold JsDate.addDays; lia).
  rewrite E3 in E2.
  set (d := JsDate.getDay tz t) in *.
  assert (JsDate.isWeekend tz t = (d =? 0) || (d =? 6)) as Hw0 by reflexivity.
  assert (JsDate.isWeekend tz (JsDate.addDays t 1)
          = ((d + 1) mod 7 =? 0) || ((d + 1) mod 7 =? 6)) as Hw1
      by (unfold JsDate.isWeekend; by rewrite E1).
  assert (JsDate.isWeekend tz (JsDate.addDays t 2)
          = (((d + 1) mod 7 + 1) mod 7 =? 0) || (((d + 1) mod 7 + 1) mod 7 =? 6)) as Hw2
      by (unfold JsDate.isWeekend; by rewrite E2).
  assert (JsDate.skipWeekendLoop tz rounds (JsDate.addDays t 2)
          = if (((d + 1) mod 7 + 1) mod 7 =? 0) || (((d + 1) mod 7 + 1) mod 7 =? 6)
            then JsDate.skipWeekendLoop tz rounds (JsDate.addDays t 2)
            else JsDate.addDays t 2) as Hloop.
  { destruct rounds; cbn [JsDate.skipWeekendLoop]; rewrite ?Hw2;
      match goal with |- context [if ?b then _ else _] => by destruct b end. }
  unfold JsDate.skipWeekend. cbn [Nat.add JsDate.skipWeekendLoop].
  rewrite E3, Hloop, Hw0, Hw1. clear Hw0 Hw1 Hw2 Hloop.
  assert (d = 0 \/ d = 1 \/ d = 2 \/ d = 3 \/ d = 4 \/ d = 5 \/ d = 6) as C by lia.
  clearbody d.
  destruct C as [C|[C|[C|[C|[C|[C|C]]]]]]; subst d; cbn in E1, E2; cbn;
    rewrite ?E0; repeat split; try done.
Qed.

Lemma skipWeekend_next_monday_witness :
  JsDate.getDay Sample.tz (JsDate.skipWeekend Sample.tz 1736560800000) = 1.
Proof.
  apply (proj1 (proj2 (skipWeekend_next_monday Sample.tz 1736560800000 0))).
  vm_compute. reflexivity.
Defined.

(** ** Plans with dated and undated steps *)

Section Mixed.
Context {host : Host} {world : World}.


(** The loop stops at the first step of which the start or the end is not
    a date. *)
Lemma reached_stops plan :
  forall dates k,
    length dates = length plan ->
    forallb validDates (take k dates) = true ->
    forallb validDates (take (S k) dates) = false ->
    length (reached plan dates) = k.
Proof.
  induction plan as [|item rest IH]; intros [|[eventStart eventEnd] dates] k Hlen Hk HSk;
    try discriminate.
  destruct k as [|k]; cbn [take forallb] in *.
  - rewrite andb_true_r in HSk. unfold validDates in HSk. cbn [fst snd reached] in *.
      destruct (validDate eventStart); [|done].
      destruct (validDate eventEnd); [|done].
    rewrite !bool_decide_eq_true_2 in HSk by eauto. discriminate.
  - apply andb_prop in Hk as [Hd Hk]. rewrite Hd in HSk. cbn [andb] in HSk.
    unfold validDates in Hd. cbn [fst snd] in Hd. apply andb_prop in Hd as [Hs He].
    apply bool_decide_eq_true in Hs as [t Ht], He as [e He].
    cbn [reached]. rewrite Ht, He. cbn [length]. f_equal.
    apply IH; [by injection Hlen | done | done].
Qed.



End Mixed.



(** X5.  A plan step of which the start or the end is not a date, the
    first such, aborts the commit with a RangeError: the steps before it
    have been sent to the calendar, it and the steps after it are never
    sent. *)
Theorem handleCreatePlan_invalid_date_aborts
        {host : Host} {world : World}
        (pre : list PlanEvent.t) (bad : PlanEvent.t) (post : list PlanEvent.t)
        (h : History) :
  let dates := planDates (firstCursor (now h)) (pre ++ bad :: post) in
  forallb validDates (take (length pre) dates) = true ->
  forallb validDates (take (S (length pre)) dates) = false ->
  let run := handleCreatePlan (Some (pre ++ bad :: post)) h in
  fst run = Throw RangeError /\
  map (fun c => EventData.summary (fst c)) (createdEvents (snd run))
  = map PlanEvent.summary pre.
Proof.
  cbn zeta. intros Hpre Hbad.
  destruct (handleCreatePlan_reached (pre ++ bad :: post) h) as (E1 & _ & E3).
  cbn zeta in E1, E3.
  pose proof (reached_stops _ _ _ (planDates_length _ _) Hpre Hbad) as Hlen.
  pose proof (reached_prefix (pre ++ bad :: post)
                (planDates (firstCursor (now h)) (pre ++ bad :: post))) as Hp.
  rewrite Hlen, take_app_length in Hp.
  split.
  - rewrite E3, Hlen, bool_decide_eq_false_2; [done|].
    rewrite length_app. cbn. lia.
  - rewrite <- (map_map fst EventData.summary), E1, map_map.
    transitivity (map PlanEvent.summary
                      (map fst (reached (pre ++ bad :: post)
                                  (planDates (firstCursor (now h)) (pre ++ bad :: post)))));
      [by rewrite map_map | by rewrite Hp].
Qed.

Lemma handleCreatePlan_invalid_date_aborts_witness :
  let run := handleCreatePlan (host := Sample.host) (world := Run.quiet)
               (Some ([Sample.step "step 1"] ++ Run.badStep :: [Sample.step "step 3"])) [] in
  fst run = Throw RangeError /\
  map (fun c => EventData.summary (fst c)) (createdEvents (snd run)) = [Js.str "step 1"].
Proof.
  exact (handleCreatePlan_invalid_date_aborts
           (host := Sample.host) (world := Run.quiet)
           [Sample.step "step 1"] Run.badStep [Sample.step "step 3"] [] eq_refl eq_refl).
Defined.

(** ** Listing, creating, asking to delete *)

Section ThreeHandlers.
Context {host : Host} {world : World}.

Lemma listEvents_run timeRange h :
  listEvents timeRange h
  = (Ret (match EventStore.listEvents eventStore h timeRange with
          | Ret events => events
          | Throw _ => []
          end),
     [Entry.mk (ListEvents timeRange)
               (isRet (EventStore.listEvents eventStore h timeRange))]).
Proof.
  unfold listEvents, try_catch, perform, ret.
  destruct (EventStore.listEvents eventStore h timeRange); [done|].
  by rewrite app_nil_r.
Qed.

Lemma searchEvents_run query h :
  searchEvents query h
  = (Ret (match EventStore.searchEvents eventStore h query with
          | Ret events => events
          | Throw _ => []
          end),
     [Entry.mk (SearchEvents query)
               (isRet (EventStore.searchEvents eventStore h query))]).
Proof.
  unfold searchEvents, try_catch, perform, ret.
  destruct (EventStore.searchEvents eventStore h query); [done|].
  by rewrite app_nil_r.
Qed.

Lemma formatEventsForLine_throws events :
  (exists e, formatEventsForLine events = Throw e) <-> allDated events = false.
Proof.
  unfold formatEventsForLine. destruct events as [|event rest].
  - split; [intros [e ?]; discriminate | discriminate].
  - destruct (allDated (event :: rest)) eqn:Hd.
    + destruct (groupEvents_lookup (event :: rest) ∅ Hd) as (g & -> & _).
      split; [intros [e ?]; discriminate | discriminate].
    + rewrite (groupEvents_throws _ ∅ Hd). split; [done | by exists RangeError].
Qed.

End ThreeHandlers.

(** X6.  [handleListEvents] never throws and asks the calendar exactly once,
    for the range named in the request or ["today"].  A calendar that fails
    is not reported: [listEvents] swallows the failure into an empty list,
    so the reply is the text for a free schedule.  The apology is the reply
    exactly when an event returned has a start that is not a date. *)
Theorem handleListEvents_never_fails
        {host : Host} {world : World} (intent : Intent.t) (h : History) :
  let timeRange :=
    Js.show (Js.orElse (match Intent.params intent with
                        | Some p => Params.timeRange p
                        | None => Js.undefined
                        end) "today") in
  let answer := EventStore.listEvents eventStore h timeRange in
  let events := match answer with Ret events => events | Throw _ => [] end in
  handleListEvents intent h
  = (Ret (match formatEventsForLine events with
          | Ret text => text
          | Throw _ => "📅 抱歉，查詢日曆事件時發生錯誤，請確認您的 Google 連接正常。"
          end),
     [Entry.mk (ListEvents timeRange) (isRet answer)]) /\
  (isRet answer = false ->
   fst (handleListEvents intent h) = Ret "📅 太好了，這段時間內沒有任何安排！") /\
  (fst (handleListEvents intent h)
   = Ret "📅 抱歉，查詢日曆事件時發生錯誤，請確認您的 Google 連接正常。"
   <-> allDated events = false).
Proof.
  cbn zeta.
  set (timeRange := Js.show _).
  assert (handleListEvents intent h
          = (Ret (match formatEventsForLine
                          (match EventStore.listEvents eventStore h timeRange with
                           | Ret events => events
                           | Throw _ => []
                           end) with
                  | Ret text => text
                  | Throw _ => "📅 抱歉，查詢日曆事件時發生錯誤，請確認您的 Google 連接正常。"
                  end),
             [Entry.mk (ListEvents timeRange)
                       (isRet (EventStore.listEvents eventStore h timeRange))])) as E.
  { unfold handleListEvents. fold timeRange. unfold try_catch, bind.
    rewrite listEvents_run. unfold lift.
    destruct (formatEventsForLine _); cbn; by rewrite ?app_nil_r. }
  rewrite E. cbn [fst]. split; [done|]. split.
  - destruct (EventStore.listEvents eventStore h timeRange); [discriminate | done].
  - set (events := match EventStore.listEvents eventStore h timeRange with
                   | Ret events => events | Throw _ => [] end).
    rewrite <- formatEventsForLine_throws.
    destruct (formatEventsForLine events) as [text|e] eqn:Hf.
    + split; [|intros [e ?]; discriminate].
      intros [= ->]. exfalso. revert Hf. unfold formatEventsForLine.
      destruct events as [|ev rest]; [discriminate|].
      destruct (groupEvents ∅ (ev :: rest)); [|discriminate].
      unfold renderGroups.
      destruct (map_to_list _) as [|[k l] [|? ?]]; cbn; discriminate.
    + split; [by exists e | done].
Qed.

Lemma handleListEvents_never_fails_witness :
  fst (handleListEvents (host := Sample.host) (world := Run.down) Sample.unknownIntent [])
  = Ret "📅 太好了，這段時間內沒有任何安排！".
Proof.
  apply (proj1 (proj2 (handleListEvents_never_fails
                         (host := Sample.host) (world := Run.down)
                         Sample.unknownIntent []))).
  reflexivity.
Defined.
Lemma try_catch_bind_ret {A B : Type} (a : A) (k : A -> M B) (handler : Exn -> M B)
      (h : History) :
  try_catch (bind (ret a) k) handler h = try_catch (k a) handler h.
Proof. unfold try_catch. by rewrite bind_ret_l. Qed.

Lemma try_catch_bind_lift {A B : Type} (o : Outcome A) (k : A -> M B)
      (handler : Exn -> M B) (h : History) :
  try_catch (bind (lift o) k) handler h
  = match o with
    | Ret a => try_catch (k a) handler h
    | Throw e => handler e h
    end.
Proof.
  destruct o as [a|e].
  - unfold try_catch. by rewrite bind_lift_ret.
  - unfold try_catch, bind, lift. rewrite app_nil_r. by destruct (handler e h).
Qed.

Lemma try_catch_ext {A : Type} (m m' : M A) (handler : Exn -> M A) (h : History) :
  m h = m' h -> try_catch m handler h = try_catch m' handler h.
Proof. intros E. unfold try_catch. by rewrite E. Qed.

Lemma createEvent_reply {host : Host} {world : World}
      (eventData : EventData.t) (f : CalendarEvent.t -> string) (a : string) (h : History) :
  try_catch (createdEvent <- createEvent eventData ;; ret (f createdEvent))
            (fun _ => ret a) h
  = (Ret (match EventStore.createEvent eventStore h eventData with
          | Ret createdEvent => f createdEvent
          | Throw _ => a
          end),
     [Entry.mk (CreateEvent eventData)
               (isRet (EventStore.createEvent eventStore h eventData))]).
Proof.
  unfold try_catch, bind, createEvent, perform, ret.
  destruct (EventStore.createEvent eventStore h eventData); cbn; by rewrite ?app_nil_r.
Qed.

(** X7.  [handleCreateEvent] never throws.  Without a title or without a
    start time it asks for them and does not call the calendar; otherwise
    it makes at most one call, a [createEvent] with the title and the start
    time as received (none when the end has to be computed from a start
    that is not a date). *)
Theorem handleCreateEvent_one_call_at_most
        {host : Host} {world : World} (intent : Intent.t) (h : History) :
  let run := handleCreateEvent intent h in
  let summary :=
    match Intent.params intent with Some p => Params.summary p | None => Js.undefined end in
  let startTime :=
    match Intent.params intent with Some p => Params.startTime p | None => Js.undefined end in
  (exists reply, fst run = Ret reply) /\
  (Js.truthy summary && Js.truthy startTime = false ->
   run = (Ret "📝 抱歉，我需要明確的「事件標題」和「開始時間」才能為您新增行程喔！", [])) /\
  (snd run = [] \/
   exists eventData ok,
     snd run = [Entry.mk (CreateEvent eventData) ok] /\
     EventData.summary eventData = summary /\
     EventData.start eventData = raw (Js.show startTime)).
Proof.
  cbn zeta. unfold handleCreateEvent.
  destruct (Intent.params intent) as [params|]; [|cbn; eauto 6].
  destruct (Js.truthy (Params.summary params)) eqn:Hs; cbn [negb orb andb];
    [|cbn; eauto 6].
  destruct (Js.truthy (Params.startTime params)) eqn:Ht; cbn [negb orb andb];
    [|cbn; eauto 6].
  destruct (Js.truthy (Params.endTime params)).
  - rewrite try_catch_bind_ret, createEvent_reply. cbn [fst snd].
    split; [eauto|]. split; [discriminate|]. right. eauto.
  - destruct (toISOString _) as [t|e].
    + erewrite try_catch_ext; [|by rewrite bind_assoc, bind_lift_ret, bind_ret_l].
      rewrite createEvent_reply. cbn [fst snd].
      split; [eauto|]. split; [discriminate|]. right. eauto.
    + cbn. split; [eauto|]. split; [discriminate | by left].
Qed.

Lemma handleCreateEvent_one_call_at_most_witness :
  handleCreateEvent (host := Sample.host) (world := Run.quiet) Sample.unknownIntent []
  = (Ret "📝 抱歉，我需要明確的「事件標題」和「開始時間」才能為您新增行程喔！", []).
Proof.
  apply (proj1 (proj2 (handleCreateEvent_one_call_at_most
                         (host := Sample.host) (world := Run.quiet)
                         Sample.unknownIntent []))).
  reflexivity.
Defined.
Section DeleteRequest.
Context {host : Host} {world : World}.

Lemma handleDeleteRequest_writes rowNumber intent h :
  stateWrites (snd (handleDeleteRequest rowNumber intent h))
  = match foundFor intent h with
    | [] => []
    | found => [(rowNumber, Some (waiting_delete_confirmation found))]
    end.
Proof.
  unfold handleDeleteRequest, foundFor.
  destruct (Js.truthy _); cbn [negb]; [|done].
  unfold bind at 1. rewrite searchEvents_run.
  destruct (match EventStore.searchEvents eventStore h _ with
            | Ret events => events | Throw _ => [] end) as [|event rest]; [done|].
  unfold bind, setUserState, perform, ret.
  destruct (UserStore.setUserState userStore _ _ _); done.
Qed.

Lemma handleDeleteRequest_nothing_found rowNumber intent h :
  foundFor intent h = [] -> isRet (fst (handleDeleteRequest rowNumber intent h)) = true.
Proof.
  unfold handleDeleteRequest, foundFor.
  destruct (Js.truthy _); cbn [negb]; [|done].
  unfold bind at 1. rewrite searchEvents_run.
  by intros ->.
Qed.

End DeleteRequest.

Lemma deletions_app l1 l2 : deletions (l1 ++ l2) = deletions l1 ++ deletions l2.
Proof. apply omap_app. Qed.

Lemma deletions_deleted events : deletions (map deleted events) = map CalendarEvent.id events.
Proof. induction events as [|event rest IH]; [done|]. cbn. by rewrite <- IH. Qed.

(** X8.  A deletion request and the answer to it, together.  When the
    request has stored a state, that state is WaitingDeleteConfirmation
    with exactly the events the calendar search returned, and there is at
    least one.  When the next message is handled in that state and the
    handler returns, the calendar has been asked to delete exactly the
    found events the model's reading of the answer designates, in order,
    and the state cell has been cleared once. *)
Theorem delete_request_then_choice
        {host : Host} {world : World}
        (userContext : UserContext.t) (intent : Intent.t) (h1 : History)
        (st : UserState) (message : string) (reply : Js.value) (h2 : History) :
  let rowNumber := UserContext.rowNumber userContext in
  stateWrites (snd (handleDeleteRequest rowNumber intent h1)) = [(rowNumber, Some st)] ->
  User.state_json (UserContext.user userContext) = json_state st ->
  fst (handleMessage userContext message h2) = Ret reply ->
  let found := foundFor intent h1 in
  let answer := Oracle.parseDeletionChoice oracle h2 message (length found) in
  let choice := match answer with Ret c => c | Throw _ => sel_none end in
  st = waiting_delete_confirmation found /\
  found <> [] /\
  deletions (snd (handleMessage userContext message h2))
  = map CalendarEvent.id (selectedEvents choice found) /\
  stateWrites (snd (handleMessage userContext message h2)) = [(rowNumber, None)].
Proof.
  cbn zeta. intros Hw Hst Hret.
  rewrite handleDeleteRequest_writes in Hw.
  destruct (foundFor intent h1) as [|event rest] eqn:Hfound; [discriminate|].
  injection Hw as <-. split; [done|]. split; [done|].
  rewrite (handleMessage_state _ _ _ _ Hst) in *. cbn zeta in *.
  rewrite returning_run in *. cbn [fst snd] in *.
  destruct (fst (case_waiting_delete_confirmation _ _ _ h2)) as [text|e] eqn:Hcase;
    [|discriminate].
  rewrite (case_waiting_delete_confirmation_returns _ _ _ _ _ Hcase).
  unfold deletionDone. cbn [snd].
  rewrite !deletions_app, !stateWrites_app, deletions_deleted.
  split.
  - cbn. by rewrite app_nil_r.
  - clear. cbn [stateWrites omap list_omap Entry.call app].
    induction (selectedEvents _ _) as [|e l IH]; [done|]. exact IH.
Qed.

Lemma delete_request_then_choice_witness :
  deletions (snd (handleMessage (host := Sample.host) (world := Run.findsThree)
                                Run.deleting "1, 3" []))
  = ["e1"; "e3"].
Proof.
  destruct (delete_request_then_choice
              (host := Sample.host) (world := Run.findsThree)
              Run.deleting Run.deleteQuery []
              (waiting_delete_confirmation Run.candidates) "1, 3"
              (deletedText 2 ["A"; "C"]) [] eq_refl eq_refl eq_refl)
    as (_ & _ & E & _).
  rewrite E. reflexivity.
Defined.
(** ** What is never called *)

Lemma benign_recognizedWrite : benign recognizedWrite.
Proof. intros c Hw _. by destruct c. Qed.

#[local] Hint Resolve benign_recognizedWrite : silent.

(** X9.  Neither [handleMessage] nor the background task of an image ever
    stores a state whose tag the dispatcher has no case for: the
    [default] case of the dispatcher is not reached by a state the
    program wrote itself. *)
Theorem only_recognized_states_are_stored
        {host : Host} {world : World} (userContext : UserContext.t)
        (message imageBuffer : string) (lineHandler : bool) (h : History) :
  Forall (fun e => recognizedWrite (Entry.call e) = true)
         (snd (handleMessage userContext message h)) /\
  Forall (fun e => recognizedWrite (Entry.call e) = true)
         (snd (processImageInBackground lineHandler userContext imageBuffer h)).
Proof.
  split.
  - revert h. change (silent recognizedWrite (handleMessage userContext message)).
    unfold handleMessage, dispatchState, afterSwitch. autounfold with top. silent_solve.
  - revert h.
    change (silent recognizedWrite
                   (processImageInBackground lineHandler userContext imageBuffer)).
    unfold processImageInBackground, preparePushMessageFromIntent. silent_solve.
Qed.

Ltac footprint_leaf :=
  apply silent_perform; cbn; rewrite ?Z.eqb_refl, ?String.eqb_refl; reflexivity.

(** X10.  The background task of an image calls nothing but the image
    analysis, the saving of a note for the user, writes of that user's
    state cell and pushes to that user; in particular it never calls the
    calendar. *)
Theorem image_task_footprint
        {host : Host} {world : World} (lineHandler : bool)
        (userContext : UserContext.t) (imageBuffer : string) (h : History) :
  let tr := snd (processImageInBackground lineHandler userContext imageBuffer h) in
  Forall (fun e => imageFootprint userContext (Entry.call e) = true) tr /\
  Forall (fun e => isEventStoreCall (Entry.call e) = false) tr.
Proof.
  cbn zeta.
  assert (silent (imageFootprint userContext)
                 (processImageInBackground lineHandler userContext imageBuffer)) as H.
  { unfold processImageInBackground, preparePushMessageFromIntent.
    autounfold with prog.
    repeat first [ footprint_leaf | silent_step ]. }
  split; [apply H|].
  eapply Forall_impl; [apply H|]. intros e. cbn beta.
  by destruct (Entry.call e).
Qed.

(** X11.  In WaitingConfirmation a reply that is not a confirmation, and
    in WaitingPlanCorrection and WaitingKnowledgeAction every reply, is
    handled without any call to the calendar. *)
Theorem waiting_states_without_calendar
        {host : Host} {world : World} (userContext : UserContext.t)
        (st : UserState) (message : string) (h : History) :
  User.state_json (UserContext.user userContext) = json_state st ->
  calendarFree st message = true ->
  Forall (fun e => isEventStoreCall (Entry.call e) = false)
         (snd (handleMessage userContext message h)).
Proof.
  intros Hst Hfree.
  assert (silent notEventStore (handleMessage userContext message)) as H.
  { intros h'. rewrite (handleMessage_state _ _ _ _ Hst). cbn zeta.
    destruct st; try discriminate; cbn [calendarFree] in Hfree; revert h'.
    - change (silent notEventStore
                (returning (case_waiting_confirmation (UserContext.rowNumber userContext)
                                                      plan message))).
      unfold case_waiting_confirmation.
      apply negb_true_iff in Hfree. rewrite Hfree. silent_solve.
    - change (silent notEventStore
                (returning (case_waiting_plan_correction (UserContext.rowNumber userContext)
                                                         partialPlan message))).
      unfold case_waiting_plan_correction. silent_solve.
    - change (silent notEventStore
                (returning (case_waiting_knowledge_action (UserContext.rowNumber userContext)
                              (UserContext.user userContext) noteId message))).
      unfold case_waiting_knowledge_action. silent_solve. }
  eapply Forall_impl; [apply H|]. intros e. cbn beta. unfold notEventStore.
  by intros ?%negb_true_iff.
Qed.

Lemma waiting_states_without_calendar_witness :
  Forall (fun e => isEventStoreCall (Entry.call e) = false)
         (snd (handleMessage (host := Sample.host) (world := Run.quiet)
                             Run.confirming "不用" [])).
Proof.
  apply (waiting_states_without_calendar
           (host := Sample.host) (world := Run.quiet) Run.confirming
           (waiting_confirmation (Some Run.plan3)) "不用" []);
    vm_compute; reflexivity.
Defined.
(** ** Listings of one date or none *)

Lemma append_empty_r (s : string) : s +:+ "" = s.
Proof.
  induction s as [|c s IH]; [done|].
  change (String c (s +:+ "") = String c s). by rewrite IH.
Qed.

Section OneDate.
Context {host : Host}.

Lemma allDated_keys events :
  Forall (fun event => forall e, dateKeyOf event <> Some (Throw e)) events ->
  allDated events = true.
Proof.
  induction 1 as [|event rest He _ IH]; [done|].
  unfold allDated in *. cbn [forallb]. rewrite IH, andb_true_r.
  destruct (dateKeyOf event) as [[key|e]|] eqn:E; try done.
  by destruct (He e).
Qed.

Lemma filter_onDate_nil dateKey events :
  Forall (fun event => dateKeyOf event <> Some (Ret dateKey)) events ->
  List.filter (onDate dateKey) events = [].
Proof.
  induction 1 as [|event rest He _ IH]; [done|].
  cbn [List.filter]. rewrite IH. unfold onDate.
  destruct (dateKeyOf event) as [[key|e]|] eqn:E; try done.
  destruct (String.eqb_spec key dateKey) as [->|]; done.
Qed.

End OneDate.

(** X12.  When the events that have a start all fall on one date, the text
    is the one-day listing: the date, the number of events filed under it
    (events without start are not counted) and these events numbered from
    1 in the order received. *)
Theorem formatEventsForLine_one_date
        {host : Host} (events : list CalendarEvent.t) (dateKey : string) :
  Forall (fun event => dateKeyOf event = None \/ dateKeyOf event = Some (Ret dateKey))
         events ->
  let dailyEvents := List.filter (onDate dateKey) events in
  dailyEvents <> [] ->
  formatEventsForLine events
  = Ret ("📅 您在 " +:+ toLocaleDateString (Date_parse (dateKey +:+ "T00:00:00")) +:+ " 有 "
         +:+ pretty (length dailyEvents) +:+ " 個行程:" +:+ nl
         +:+ String.concat ""
               (imap (fun index event =>
                        nl +:+ pretty (index + 1)%nat +:+ ". "
                        +:+ CalendarEvent.summary event +:+ formatEventTime event)
                     dailyEvents)).
Proof.
  intros Hk dailyEvents Hne.
  assert (allDated events = true) as Hd.
  { apply allDated_keys. eapply Forall_impl; [exact Hk|].
    intros event [E|E] e; rewrite E; discriminate. }
  destruct (groupEvents_lookup events ∅ Hd) as (grouped & Hg & Hl).
  assert (grouped = {[dateKey := dailyEvents]}) as ->.
  { apply map_eq. intros key. rewrite Hl, lookup_empty.
    destruct (decide (key = dateKey)) as [->|Hne'].
    - rewrite lookup_singleton_eq. fold dailyEvents.
      destruct dailyEvents; [done|]. done.
    - rewrite lookup_singleton_ne by done.
      rewrite filter_onDate_nil; [done|].
      eapply Forall_impl; [exact Hk|]. intros event [E|E]; rewrite E; congruence. }
  unfold formatEventsForLine.
  destruct events as [|event rest]; [done|].
  rewrite Hg. unfold renderGroups. by rewrite map_to_list_singleton.
Qed.

Lemma formatEventsForLine_one_date_witness :
  formatEventsForLine (host := Sample.host) Run.sameDay
  = Ret ("📅 您在 2025/1/6 有 2 個行程:" +:+ nl
         +:+ nl +:+ "1. A (全天)" +:+ nl +:+ "2. B (全天)").
Proof.
  rewrite (formatEventsForLine_one_date (host := Sample.host) Run.sameDay "2025-01-06").
  - vm_compute. reflexivity.
  - repeat constructor; right; vm_compute; reflexivity.
  - vm_compute. discriminate.
Defined.

(** X13.  When no event received has a start, the grouping is empty and
    the text is the heading of the several-days listing alone: it
    announces the number of events received and lists none. *)
Theorem formatEventsForLine_no_start
        {host : Host} (events : list CalendarEvent.t) :
  events <> [] ->
  Forall (fun event => dateKeyOf event = None) events ->
  formatEventsForLine events
  = Ret ("📅 為您找到跨越多日的 " +:+ pretty (length events) +:+ " 個行程：" +:+ nl).
Proof.
  intros Hne Hk.
  assert (allDated events = true) as Hd.
  { apply allDated_keys. eapply Forall_impl; [exact Hk|].
    intros event E e. rewrite E. discriminate. }
  destruct (groupEvents_lookup events ∅ Hd) as (grouped & Hg & Hl).
  assert (grouped = ∅) as ->.
  { apply map_eq. intros key. rewrite Hl, lookup_empty.
    rewrite filter_onDate_nil; [done|].
    eapply Forall_impl; [exact Hk|]. intros event E. rewrite E. discriminate. }
  unfold formatEventsForLine.
  destruct events as [|event rest]; [done|].
  rewrite Hg. unfold renderGroups. rewrite map_to_list_empty.
  change (merge_sort strLe (map fst [])) with (@nil string).
  cbn [map String.concat]. by rewrite append_empty_r.
Qed.

Lemma formatEventsForLine_no_start_witness :
  formatEventsForLine (host := Sample.host) Run.noStart
  = Ret ("📅 為您找到跨越多日的 2 個行程：" +:+ nl).
Proof.
  rewrite (formatEventsForLine_no_start (host := Sample.host) Run.noStart).
  - vm_compute. reflexivity.
  - discriminate.
  - repeat constructor.
Defined.

(** ** The transport layer *)

Section TraceFacts.
Context {C : Type}.
Implicit Types (P : C -> bool).

Lemma trace_bind_ret_l {A B : Type} (a : A) (k : A -> Trace.T C B) h :
  Trace.bind (Trace.ret a) k h = k a h.
Proof. unfold Trace.bind, Trace.ret. rewrite app_nil_r. by destruct (k a h). Qed.

Lemma quiet_ret P {A} (a : A) : Trace.quiet P (Trace.ret a).
Proof. intros h. constructor. Qed.

Lemma quiet_perform P {A} (c : C) (answer : list (Trace.entry C) -> Outcome A) :
  P c = true -> Trace.quiet P (Trace.perform c answer).
Proof. intros Hc h. cbn. by constructor. Qed.

Lemma quiet_bind P {A B} (m : Trace.T C A) (k : A -> Trace.T C B) :
  Trace.quiet P m -> (forall a, Trace.quiet P (k a)) -> Trace.quiet P (Trace.bind m k).
Proof.
  intros Hm Hk h. unfold Trace.bind. specialize (Hm h).
  destruct (m h) as [[a|e] l1]; cbn [fst snd] in *; [|done].
  specialize (Hk a (h ++ l1)). destruct (k a (h ++ l1)) as [r l2]. cbn [fst snd] in *.
  by apply Forall_app.
Qed.

Lemma quiet_try_catch P {A} (m : Trace.T C A) (handler : Exn -> Trace.T C A) :
  Trace.quiet P m -> (forall e, Trace.quiet P (handler e)) ->
  Trace.quiet P (Trace.try_catch m handler).
Proof.
  intros Hm Hk h. unfold Trace.try_catch. specialize (Hm h).
  destruct (m h) as [[a|e] l1]; cbn [fst snd] in *; [done|].
  specialize (Hk e (h ++ l1)). destruct (handler e (h ++ l1)) as [r l2]. cbn [fst snd] in *.
  by apply Forall_app.
Qed.

End TraceFacts.

Section LineFacts.
Context {host : Host} {world : World} {transport : Transport}.
Import Line.

Lemma replyAttempts_app l1 l2 :
  replyAttempts (l1 ++ l2) = replyAttempts l1 ++ replyAttempts l2.
Proof. apply omap_app. Qed.

Lemma quiet_viaHandler P {A} (m : M A) :
  (forall c, P (Handler c) = true) -> Trace.quiet P (viaHandler m).
Proof.
  intros HP h. unfold viaHandler. destruct (m (handlerHistory h)) as [r tr]. cbn [snd].
  induction tr as [|e tr IH]; constructor; [apply HP | exact IH].
Qed.

Lemma quiet_replyAttempts {A} (m : L A) h :
  Trace.quiet notReply m -> replyAttempts (snd (m h)) = [].
Proof.
  intros Hm. specialize (Hm h). induction Hm as [|e l He _ IH]; [done|].
  cbn. destruct (LineEntry.call e); try done.
Qed.

Lemma handleTextMessage_notReply userId text :
  Trace.quiet notReply (handleTextMessage userId text).
Proof.
  unfold handleTextMessage.
  destruct (_ || _); [apply quiet_ret|].
  destruct (_ || _); [apply quiet_ret|].
  apply quiet_bind; [by apply quiet_perform|]. intros userContext.
  by apply quiet_viaHandler.
Qed.

Lemma handleImageMessage_notReply userId messageId :
  Trace.quiet notReply (handleImageMessage userId messageId).
Proof.
  unfold handleImageMessage.
  apply quiet_try_catch; [|intros; apply quiet_ret].
  apply quiet_bind; [by apply quiet_perform|]. intros imageBuffer.
  apply quiet_bind; [by apply quiet_perform|]. intros userContext.
  cbn. apply quiet_bind; [by apply quiet_perform|]. intros. apply quiet_ret.
Qed.

(** [replyMessage] sends nothing for a blank text and otherwise makes one
    attempt, whose failure it passes on. *)
Lemma replyMessage_run replyToken (text : Js.value) h :
  replyMessage replyToken text h
  = if sendable text then
      (replyMessage_answer h replyToken (Js.show text),
       [LineEntry.mk (ReplyMessage replyToken (Js.show text))
                     (isRet (replyMessage_answer h replyToken (Js.show text)))])
    else (Ret tt, []).
Proof.
  unfold replyMessage, sendable, Trace.try_catch.
  destruct text as [| |text]; [done|done|]. cbn [Js.show].
  destruct (_ || _); cbn [negb]; [done|].
  unfold Trace.perform, Trace.throw.
  destruct (replyMessage_answer h replyToken text) as [[]|e]; cbn; done.
Qed.

Lemma handleImageReply_notReply userId messageId :
  Trace.quiet notReply (text <~ handleImageMessage userId messageId ;; ret (Js.str text)).
Proof.
  apply quiet_bind; [apply handleImageMessage_notReply|]. intros. apply quiet_ret.
Qed.

End LineFacts.

(** X15.  [handleSingleEvent] never throws, whatever the event and whatever
    its collaborators do.  It attempts at most two replies, both with the
    event's reply token, and a second one only after the first has failed;
    the second is the apology for a failed event. *)
Theorem handleSingleEvent_never_throws
        {host : Host} {world : World} {transport : Transport}
        (event : WebhookEvent) (h : list LineEntry.t) :
  let run := Line.handleSingleEvent event h in
  fst run = Ret tt /\
  match Line.replyAttempts (snd run) with
  | [] => True
  | [(replyToken, _, _)] => replyTokenOf event = Some replyToken
  | [(replyToken, _, false); (replyToken', text, _)] =>
      replyTokenOf event = Some replyToken /\ replyToken' = replyToken /\
      text = Line.eventFailure
  | _ => False
  end.
Proof.
  cbn zeta. destruct (Line.handleSingleEvent event h) as [r tr] eqn:Hrun.
  cbn [fst snd]. revert Hrun. unfold Line.handleSingleEvent.
  destruct event as [userId replyToken message|replyToken]; [|by intros [= <- <-]].
  cbn [replyTokenOf].
  destruct (JsString.truthy userId); cbn [negb]; [|by intros [= <- <-]].
  set (resp := match message with
               | textMessage text => Line.handleTextMessage (show userId) text
               | imageMessage id => _
               | otherMessage => _
               end).
  assert (Trace.quiet Line.notReply resp) as Hq.
  { destruct message; [apply handleTextMessage_notReply
                      |apply handleImageReply_notReply | apply quiet_ret]. }
  pose proof (quiet_replyAttempts resp h Hq) as E0.
  assert (forall hh l0,
             Line.replyAttempts l0 = [] \/
             (exists text, Line.replyAttempts l0 = [(replyToken, text, false)]) ->
             let run := Line.try_catch (Line.replyMessage replyToken Line.eventFailure)
                                       (fun _ => Line.ret tt) hh in
             fst run = Ret tt /\
             match Line.replyAttempts (l0 ++ snd run) with
             | [] => True
             | [(replyToken0, _, _)] => Some replyToken = Some replyToken0
             | [(replyToken0, _, false); (replyToken', text, _)] =>
                 Some replyToken = Some replyToken0 /\ replyToken' = replyToken0 /\
                 text = Line.eventFailure
             | _ => False
             end) as Hcatch.
  { intros hh l0 Hl0. cbn zeta. unfold Trace.try_catch. rewrite replyMessage_run.
    change (Line.sendable Line.eventFailure) with true. cbv iota. cbn [Js.show].
    destruct (replyMessage_answer hh replyToken Line.eventFailure) as [[]|e'];
      cbn [isRet fst snd]; rewrite !replyAttempts_app;
      destruct Hl0 as [->|[text ->]]; by cbn. }
  unfold Trace.try_catch at 1, Trace.bind.
  destruct (resp h) as [[responseText|e] l1]; cbn [fst snd] in E0.
  - rewrite replyMessage_run. destruct (Line.sendable responseText).
    + destruct (replyMessage_answer (h ++ l1) replyToken (Js.show responseText))
        as [[]|e] eqn:Ea; cbn [isRet].
      * intros [= <- <-]. rewrite replyAttempts_app, E0. by cbn.
      * specialize (Hcatch
                      ((h ++ l1 ++ [LineEntry.mk (ReplyMessage replyToken
                                                               (Js.show responseText)) false]))
                      (l1 ++ [LineEntry.mk (ReplyMessage replyToken
                                                         (Js.show responseText)) false])).
        cbn zeta in Hcatch.
        destruct (Line.try_catch _ _ _) as [r' l2].
        intros [= <- <-]. apply Hcatch. right. exists (Js.show responseText).
        rewrite replyAttempts_app, E0. by cbn.
    + intros [= <- <-]. rewrite app_nil_r, E0. by cbn.
  - specialize (Hcatch (h ++ l1) l1). cbn zeta in Hcatch.
    destruct (Line.try_catch _ _ _) as [r' l2].
    intros [= <- <-]. apply Hcatch. by left.
Qed.
Section LineOutcomes.
Context {host : Host} {world : World} {transport : Transport}.

(** Once the answer text is known: what [handleSingleEvent] does with it.
    [l1] are the calls made to get the answer. *)
Lemma handleSingleEvent_answer userId replyToken message h
      (answer : Trace.T LineCall Js.value) :
  JsString.truthy userId = true ->
  answer = match message with
           | textMessage text => Line.handleTextMessage (show userId) text
           | imageMessage id =>
               Line.bind (Line.handleImageMessage (show userId) id)
                         (fun text => Line.ret (Js.str text))
           | otherMessage => Line.ret (Js.str "🤖 目前只支援文字訊息。")
           end ->
  exists l2,
    snd (Line.handleSingleEvent (messageEvent userId replyToken message) h)
    = snd (answer h) ++ l2 /\
    Forall (fun e => Line.isReply (LineEntry.call e) = true) l2 /\
    match fst (answer h) with
    | Ret responseText =>
        if Line.sendable responseText
        then exists ok rest,
            l2 = LineEntry.mk (ReplyMessage replyToken (Js.show responseText)) ok :: rest
        else l2 = []
    | Throw _ => exists ok, Line.replyAttempts l2 = [(replyToken, Line.eventFailure, ok)]
    end.
Proof.
  intros Hu ->. unfold Line.handleSingleEvent. rewrite Hu. cbn [negb replyTokenOf].
  set (resp := match message with
               | textMessage text => Line.handleTextMessage (show userId) text
               | imageMessage id => _
               | otherMessage => _
               end).
  assert (forall hh,
             exists ok,
               snd (Line.try_catch (Line.replyMessage replyToken Line.eventFailure)
                                   (fun _ => Line.ret tt) hh)
               = [LineEntry.mk (ReplyMessage replyToken Line.eventFailure) ok]) as Hcatch.
  { intros hh. unfold Trace.try_catch. rewrite replyMessage_run.
    change (Line.sendable Line.eventFailure) with true. cbv iota. cbn [Js.show].
    destruct (replyMessage_answer hh replyToken Line.eventFailure) as [[]|e'];
      cbn [isRet fst snd]; eauto. }
  unfold Trace.try_catch at 1, Trace.bind.
  destruct (resp h) as [[responseText|e] l1]; cbn [fst snd].
  - rewrite replyMessage_run. destruct (Line.sendable responseText).
    + destruct (replyMessage_answer (h ++ l1) replyToken (Js.show responseText))
        as [[]|e] eqn:Ea; cbn [isRet].
      * eexists. split; [reflexivity|]. split; [by repeat constructor|]. cbn. eauto.
      * destruct (Hcatch (h ++ l1 ++ [LineEntry.mk (ReplyMessage replyToken
                                                                 (Js.show responseText))
                                                   false])) as [ok Hok].
        destruct (Line.try_catch _ _ _) as [r' l2]. cbn [snd] in *. subst l2.
        eexists. split; [by rewrite <- app_assoc|].
        split; [by repeat constructor|]. cbn. eauto.
    + exists []. by rewrite app_nil_r.
  - destruct (Hcatch (h ++ l1)) as [ok Hok].
    destruct (Line.try_catch _ _ _) as [r' l2]. cbn [snd] in *. subst l2.
    eexists. split; [reflexivity|]. split; [by repeat constructor|]. cbn. eauto.
Qed.

End LineOutcomes.

(** X16.  A text whose trimmed form is one of the five commands is
    answered by the transport layer itself: the only calls made are
    replies (no user lookup, no call of the calendar handler), and the
    first reply is the help text or the status text. *)
Theorem commands_bypass_the_handler
        {host : Host} {world : World} {transport : Transport}
        (userId : option string) (replyToken text : string) (h : list LineEntry.t) :
  JsString.truthy userId = true ->
  Line.isCommand text = true ->
  let tr := snd (Line.handleSingleEvent
                   (messageEvent userId replyToken (textMessage text)) h) in
  Forall (fun e => Line.isReply (LineEntry.call e) = true) tr /\
  exists reply ok rest,
    (reply = Line.getHelpMessage \/ reply = Line.statusMessage) /\
    Line.replyAttempts tr = (replyToken, reply, ok) :: rest.
Proof.
  intros Hu Hc. cbn zeta.
  destruct (handleSingleEvent_answer userId replyToken (textMessage text) h _ Hu eq_refl)
    as (l2 & -> & Hl2 & Hr).
  unfold Line.isCommand in Hc. unfold Line.handleTextMessage in *.
  destruct (String.eqb (JsString.trim text) "/help" || String.eqb (JsString.trim text) "幫助"
            || String.eqb (JsString.trim text) "說明") eqn:Hhelp.
  - cbn [Line.ret fst snd app] in *.
    change (Line.sendable Line.getHelpMessage) with true in Hr. cbv iota in Hr.
    destruct Hr as (ok & rest & ->). split; [done|].
    exists Line.getHelpMessage, ok, (Line.replyAttempts rest). auto.
  - cbn [orb] in Hc. rewrite Hc in *.
    cbn [Line.ret fst snd app] in *.
    change (Line.sendable Line.statusMessage) with true in Hr. cbv iota in Hr.
    destruct Hr as (ok & rest & ->). split; [done|].
    exists Line.statusMessage, ok, (Line.replyAttempts rest). auto.
Qed.

Lemma commands_bypass_the_handler_witness :
  exists ok rest,
    Line.replyAttempts
      (snd (Line.handleSingleEvent (host := Sample.host) (world := Run.quiet)
              (transport := Run.line)
              (messageEvent (Some "U1") "token" (textMessage " /help ")) []))
    = ("token", Line.getHelpMessage, ok) :: rest.
Proof.
  pose proof (commands_bypass_the_handler
                (host := Sample.host) (world := Run.quiet) (transport := Run.line)
                (Some "U1") "token" " /help " [] eq_refl eq_refl) as H.
  cbn zeta in H. destruct H as (_ & reply & ok & rest & [->|Hs] & E).
  - by exists ok, rest.
  - exfalso. rewrite Hs in E. vm_compute in E. discriminate E.
Defined.

(** X17.  A text that is not a command, from a user the sheet finds: the
    calendar handler is given the text as received (not trimmed), and
    after the lookup and the handler's calls only replies follow.  When
    [handleMessage] returns a text that is not blank, the first reply
    carries exactly that text; when it returns a blank text nothing is
    sent at all; when it throws, the one reply attempted is the apology
    for a failed event. *)
Theorem text_message_outcomes
        {host : Host} {world : World} {transport : Transport}
        (userId : option string) (replyToken text : string) (h : list LineEntry.t)
        (userContext : UserContext.t) :
  JsString.truthy userId = true ->
  Line.isCommand text = false ->
  findOrCreateUser_answer h (show userId) = Ret userContext ->
  let lookup := [LineEntry.mk (FindOrCreateUser (show userId)) true] in
  let handled := handleMessage userContext text (Line.handlerHistory (h ++ lookup)) in
  exists l2,
    snd (Line.handleSingleEvent (messageEvent userId replyToken (textMessage text)) h)
    = lookup
      ++ map (fun e => LineEntry.mk (Handler (Entry.call e)) (Entry.ok e)) (snd handled)
      ++ l2 /\
    Forall (fun e => Line.isReply (LineEntry.call e) = true) l2 /\
    match fst handled with
    | Ret reply =>
        if Line.sendable reply
        then exists ok rest,
            Line.replyAttempts l2 = (replyToken, Js.show reply, ok) :: rest
        else l2 = []
    | Throw _ => exists ok, Line.replyAttempts l2 = [(replyToken, Line.eventFailure, ok)]
    end.
Proof.
  intros Hu Hc Hf. cbn zeta.
  destruct (handleSingleEvent_answer userId replyToken (textMessage text) h _ Hu eq_refl)
    as (l2 & -> & Hl2 & Hr).
  exists l2.
  assert (Line.handleTextMessage (show userId) text h
          = (fst (handleMessage userContext text
                    (Line.handlerHistory
                       (h ++ [LineEntry.mk (FindOrCreateUser (show userId)) true]))),
             [LineEntry.mk (FindOrCreateUser (show userId)) true]
             ++ map (fun e => LineEntry.mk (Handler (Entry.call e)) (Entry.ok e))
                    (snd (handleMessage userContext text
                            (Line.handlerHistory
                               (h ++ [LineEntry.mk (FindOrCreateUser (show userId)) true]))))))
    as E.
  { unfold Line.handleTextMessage. unfold Line.isCommand in Hc.
    apply orb_false_iff in Hc as [Hc H5]. apply orb_false_iff in Hc as [Hc H4].
    rewrite Hc, H4, H5. cbn [orb].
    unfold Trace.bind, Line.findOrCreateUser, Trace.perform. rewrite Hf. cbn [isRet].
    unfold Line.viaHandler. by destruct (handleMessage _ _ _). }
  rewrite E in *. cbn [fst snd] in *. rewrite <- app_assoc.
  split; [done|]. split; [done|].
  destruct (fst (handleMessage _ _ _)) as [reply|e]; [|done].
  destruct (Line.sendable reply); [|done].
  destruct Hr as (ok & rest & ->). by exists ok, (Line.replyAttempts rest).
Qed.

Lemma text_message_outcomes_witness :
  exists ok,
    Line.replyAttempts
      (snd (Line.handleSingleEvent (host := Sample.host) (world := Run.deleteAllDown)
              (transport := Run.lineDeleting)
              (messageEvent (Some "U1") "token" (textMessage "all")) []))
    = [("token", Line.eventFailure, ok)].
Proof.
  pose proof (text_message_outcomes
                (host := Sample.host) (world := Run.deleteAllDown)
                (transport := Run.lineDeleting)
                (Some "U1") "token" "all" [] Run.deleting eq_refl eq_refl eq_refl) as H.
  cbn zeta in H. destruct H as (l2 & E & _ & Hr).
  rewrite E. cbv -[Line.replyAttempts] in Hr. destruct Hr as [ok Hr]. exists ok.
  rewrite !replyAttempts_app, Hr. vm_compute. reflexivity.
Defined.

Lemma startedTasks_app l1 l2 :
  Line.startedTasks (l1 ++ l2) = Line.startedTasks l1 ++ Line.startedTasks l2.
Proof. apply omap_app. Qed.

Lemma handleImageMessage_run
      {host : Host} {world : World} {transport : Transport}
      (userId messageId : string) (h : list LineEntry.t) :
  Line.handleImageMessage userId messageId h
  = let downloaded ok := LineEntry.mk (GetMessageContent messageId) ok in
    let found ok := LineEntry.mk (FindOrCreateUser userId) ok in
    match getMessageContent_answer h messageId with
    | Ret imageBuffer =>
        match findOrCreateUser_answer (h ++ [downloaded true]) userId with
        | Ret userContext =>
            (Ret imageAck,
             [downloaded true; found true;
              LineEntry.mk
                (StartImageTask (processImageInBackground true userContext imageBuffer))
                true])
        | Throw _ => (Ret Line.imageFailure, [downloaded true; found false])
        end
    | Throw _ => (Ret Line.imageFailure, [downloaded false])
    end.
Proof.
  cbn zeta. unfold Line.handleImageMessage, Trace.try_catch.
  unfold Trace.bind at 1. unfold Line.downloadImageContent, Trace.perform.
  destruct (getMessageContent_answer h messageId) as [imageBuffer|e]; cbn [isRet]; [|done].
  unfold Trace.bind at 1. unfold Line.findOrCreateUser, Trace.perform.
  destruct (findOrCreateUser_answer _ userId) as [userContext|e]; cbn [isRet]; [|done].
  done.
Qed.

Lemma replies_startedTasks (l : list LineEntry.t) :
  Forall (fun e => Line.isReply (LineEntry.call e) = true) l -> Line.startedTasks l = [].
Proof.
  induction 1 as [|e l He _ IH]; [done|]. cbn. by destruct (LineEntry.call e).
Qed.

(** X18.  An image message is answered with the acknowledgement exactly
    when the image was downloaded and the user found.  By the time that
    reply is sent one background task has been started, and no other is:
    the analysis of that image for that user, with the line handler
    attached.  The transport layer does not wait for the task, whose calls
    go on beside the reply.  When the download or the lookup fails the
    reply is the apology for a failed image and no task is started. *)
Theorem image_message_outcomes
        {host : Host} {world : World} {transport : Transport}
        (userId : option string) (replyToken messageId : string) (h : list LineEntry.t) :
  JsString.truthy userId = true ->
  let tr := snd (Line.handleSingleEvent
                   (messageEvent userId replyToken (imageMessage messageId)) h) in
  let download := getMessageContent_answer h messageId in
  let downloaded := [LineEntry.mk (GetMessageContent messageId) true] in
  exists before text ok after,
    tr = before ++ LineEntry.mk (ReplyMessage replyToken text) ok :: after /\
    Line.replyAttempts before = [] /\
    Line.startedTasks after = [] /\
    match download with
    | Ret imageBuffer =>
        match findOrCreateUser_answer (h ++ downloaded) (show userId) with
        | Ret userContext =>
            text = imageAck /\
            Line.startedTasks before
            = [processImageInBackground true userContext imageBuffer]
        | Throw _ => text = Line.imageFailure /\ Line.startedTasks before = []
        end
    | Throw _ => text = Line.imageFailure /\ Line.startedTasks before = []
    end.
Proof.
  intros Hu. cbn zeta.
  destruct (handleSingleEvent_answer userId replyToken (imageMessage messageId) h _ Hu eq_refl)
    as (l2 & -> & Hl2 & Hr).
  unfold Trace.bind in *. rewrite handleImageMessage_run in *. cbn zeta in *.
  destruct (getMessageContent_answer h messageId) as [imageBuffer|e].
  - destruct (findOrCreateUser_answer _ (show userId)) as [userContext|e];
      cbn [fst snd Trace.ret app] in *.
    + change (Line.sendable imageAck) with true in Hr. cbv iota in Hr.
      destruct Hr as (ok & rest & ->). inversion Hl2 as [|? ? _ Hrest]; subst.
      eexists [_; _; _], imageAck, ok, rest.
      split; [reflexivity|]. split; [done|]. split; [by apply replies_startedTasks|]. done.
    + change (Line.sendable Line.imageFailure) with true in Hr. cbv iota in Hr.
      destruct Hr as (ok & rest & ->). inversion Hl2 as [|? ? _ Hrest]; subst.
      eexists [_; _], Line.imageFailure, ok, rest.
      split; [reflexivity|]. split; [done|]. split; [by apply replies_startedTasks|]. done.
  - cbn [fst snd Trace.ret app] in *.
    change (Line.sendable Line.imageFailure) with true in Hr. cbv iota in Hr.
    destruct Hr as (ok & rest & ->). inversion Hl2 as [|? ? _ Hrest]; subst.
    eexists [_], Line.imageFailure, ok, rest.
    split; [reflexivity|]. split; [done|]. split; [by apply replies_startedTasks|]. done.
Qed.

Lemma image_message_outcomes_witness :
  Line.startedTasks
    (snd (Line.handleSingleEvent (host := Sample.host) (world := Run.quiet)
            (transport := Run.line)
            (messageEvent (Some "U1") "token" (imageMessage "m1")) []))
  = [processImageInBackground (host := Sample.host) (world := Run.quiet)
                              true (Sample.user json_absent) "bytes"].
Proof.
  pose proof (image_message_outcomes
                (host := Sample.host) (world := Run.quiet) (transport := Run.line)
                (Some "U1") "token" "m1" [] eq_refl) as H.
  cbn zeta in H. destruct H as (before & text & ok & after & -> & _ & Hafter & H).
  rewrite startedTasks_app. cbn [Line.startedTasks omap list_omap LineEntry.call Trace.call].
  change (Line.startedTasks before ++ Line.startedTasks after
          = [processImageInBackground (host := Sample.host) (world := Run.quiet)
                                      true (Sample.user json_absent) "bytes"]).
  rewrite Hafter, app_nil_r. exact (proj2 H).
Defined.

(** ** The model is down *)

Lemma benign_resetOnly : benign resetOnly.
Proof. intros c Hw _. by destruct c. Qed.

#[local] Hint Resolve benign_resetOnly : silent.

Section ModelDownFacts.
Context {host : Host} {world : World}.
Hypothesis Hdown : modelDown.

(** A wrapper around a failing request returns its fallback. *)
Lemma fallback_run {A : Type} (c : Call) (answer : History -> Outcome A) (a : A) h :
  isRet (answer h) = false ->
  try_catch (perform c answer) (fun _ => ret a) h = (Ret a, [Entry.mk c false]).
Proof.
  intros Hf. unfold try_catch, perform, ret. rewrite Hf.
  destruct (answer h); [discriminate|]. done.
Qed.

Lemma silent_bind_known P {A B} (m : M A) (k : A -> M B) (a : A) :
  (forall h, fst (m h) = Ret a) -> silent P m -> silent P (k a) -> silent P (bind m k).
Proof.
  intros Hm Hs Hk h. unfold bind. specialize (Hm h). specialize (Hs h).
  destruct (m h) as [[a'|e] l1]; cbn [fst snd] in *; [|done].
  injection Hm as ->.
  specialize (Hk (h ++ l1)). destruct (k a (h ++ l1)) as [r l2]. cbn [fst snd] in *.
  by apply Forall_app.
Qed.

Lemma understandAndPlan_down userInput h :
  understandAndPlan userInput h
  = (Ret (clarify "抱歉，我的 AI 大腦暫時短路了，請稍後再試一次。"),
     [Entry.mk (UnderstandAndPlan userInput) false]).
Proof. apply fallback_run, Hdown. Qed.

Lemma modifyPlan_down plan request h :
  fst (modifyPlan plan request h)
  = Ret (clarify "抱歉，我在修改計畫時遇到了一些困難，請您重新提出一次完整的規劃需求。").
Proof.
  destruct Hdown as (_ & Hm & _). specialize (Hm h plan request).
  unfold modifyPlan, try_catch, bind, perform.
  destruct (Oracle.modifyPlan oracle h plan request); [discriminate|]. done.
Qed.

Lemma mergePlanWithCorrection_down partialPlan correction h :
  exists intent,
    fst (mergePlanWithCorrection partialPlan correction h) = Ret intent /\
    Intent.error intent = Some "合併修正時發生錯誤".
Proof.
  destruct Hdown as (_ & _ & _ & Hm & _). specialize (Hm h partialPlan correction).
  unfold mergePlanWithCorrection, try_catch, perform.
  destruct (Oracle.mergePlanWithCorrection oracle h partialPlan correction);
    [discriminate|].
  cbn. eauto.
Qed.

Lemma analyzeImageAndPlan_down imageBuffer h :
  analyzeImageAndPlan imageBuffer h
  = (Ret (clarify "抱歉，我無法成功辨識這張圖片的內容，請您換一張圖片或直接用文字告訴我需求。"),
     [Entry.mk (AnalyzeImageAndPlan imageBuffer) false]).
Proof. apply fallback_run, Hdown. Qed.

Lemma freshRequest_down rowNumber user message h :
  freshRequest rowNumber user message h
  = (Ret (Js.str "抱歉，我的 AI 大腦暫時短路了，請稍後再試一次。"),
     [Entry.mk (UnderstandAndPlan message) false]).
Proof.
  unfold freshRequest, try_catch, bind. rewrite understandAndPlan_down. reflexivity.
Qed.

Lemma freshRequest_resetOnly rowNumber user message :
  silent resetOnly (freshRequest rowNumber user message).
Proof. intros h. rewrite freshRequest_down. by repeat constructor. Qed.

Lemma case_waiting_confirmation_resetOnly rowNumber plan message :
  silent resetOnly (case_waiting_confirmation rowNumber plan message).
Proof.
  unfold case_waiting_confirmation.
  destruct (isPureConfirmation _); [silent_solve|].
  destruct (isNegative _); [silent_solve|].
  eapply silent_bind_known; [intros h; apply modifyPlan_down | silent_solve |].
  cbn. silent_solve.
Qed.

Lemma case_waiting_plan_correction_resetOnly rowNumber partialPlan message :
  silent resetOnly (case_waiting_plan_correction rowNumber partialPlan message).
Proof.
  unfold case_waiting_plan_correction. intros h. unfold bind at 1.
  destruct (mergePlanWithCorrection_down partialPlan message h) as (intent & E & Herr).
  assert (silent resetOnly (mergePlanWithCorrection partialPlan message)) as Hm
      by silent_solve.
  specialize (Hm h).
  destruct (mergePlanWithCorrection partialPlan message h) as [[a|e] l1];
    cbn [fst snd] in *; [|done].
  injection E as ->. unfold JsString.truthy. rewrite Herr. cbn [String.eqb negb].
  assert (silent resetOnly
            (setUserState rowNumber None ;;;
             ret "抱歉，合併您的修正時發生錯誤，請再試一次。")) as Hk by silent_solve.
  specialize (Hk (h ++ l1)).
  destruct ((setUserState rowNumber None ;;; ret _) (h ++ l1)) as [r l2].
  cbn [fst snd] in *. by apply Forall_app.
Qed.

Lemma case_waiting_knowledge_action_resetOnly rowNumber user noteId message :
  silent resetOnly (case_waiting_knowledge_action rowNumber user noteId message).
Proof. unfold case_waiting_knowledge_action. silent_solve. Qed.

Lemma case_waiting_delete_confirmation_resetOnly rowNumber events message :
  silent resetOnly (case_waiting_delete_confirmation rowNumber events message).
Proof. unfold case_waiting_delete_confirmation. silent_solve. Qed.

Lemma handleMessage_resetOnly userContext message :
  silent resetOnly (handleMessage userContext message).
Proof.
  intros h.
  destruct (User.state_json (UserContext.user userContext)) as [|raw| |st] eqn:E.
  - rewrite handleMessage_idle by (by rewrite E). apply freshRequest_resetOnly.
  - unfold handleMessage. rewrite E. constructor.
  - rewrite handleMessage_idle by (by rewrite E). apply freshRequest_resetOnly.
  - rewrite (handleMessage_state _ _ _ _ E). cbn zeta. destruct st.
    + apply silent_returning, case_waiting_confirmation_resetOnly.
    + apply silent_returning, case_waiting_delete_confirmation_resetOnly.
    + apply silent_returning, case_waiting_plan_correction_resetOnly.
    + apply silent_returning, case_waiting_knowledge_action_resetOnly.
    + revert h. apply silent_bind; [silent_solve|]. intros _.
      apply freshRequest_resetOnly.
Qed.

Lemma processImageInBackground_down userContext imageBuffer h :
  let run := processImageInBackground true userContext imageBuffer h in
  stateWrites (snd run) = [] /\
  exists ok rest,
    pushes (snd run)
    = (User.line_user_id (UserContext.user userContext),
       "🤔 抱歉，我從圖片中看不出可以怎麽協助您。", ok) :: rest.
Proof.
  cbn zeta.
  destruct (processImageInBackground true userContext imageBuffer h) as [r tr] eqn:Hrun.
  cbn [snd]. revert Hrun.
  unfold processImageInBackground, try_catch, bind at 1.
  rewrite analyzeImageAndPlan_down.
  unfold bind at 1. unfold preparePushMessageFromIntent at 1.
  cbn [postProcess clarify Intent.plan Intent.action String.eqb Ascii.eqb Bool.eqb].
  cbn [ret andb negb String.eqb].
  unfold pushMessage, perform.
  destruct (pushMessage_answer _ _ "🤔 抱歉，我從圖片中看不出可以怎麽協助您。") as [[]|e];
    cbn [isRet app].
  - intros [= <- <-]. cbn. eauto.
  - destruct (pushMessage_answer _ _ imageApology) as [[]|e'];
      intros [= <- <-]; cbn; eauto.
Qed.

End ModelDownFacts.

(** X19.  When every request to the language model fails, the planner's
    wrappers answer with their fallbacks and the handler never enters a
    waiting state: every write of the state cell [handleMessage] makes is a
    reset.  A user without pending state gets the wrapper's own apology
    after the one failed request and no other call.  The background task of
    an image writes no state and pushes the text for an image it cannot
    help with: the fallback of the analysis is an intent the task has no
    case for, so neither the wrapper's message nor the task's own apology
    is what the user is sent first. *)
Theorem model_down_never_waits
        {host : Host} {world : World} (userContext : UserContext.t)
        (message imageBuffer : string) (h : History) :
  modelDown ->
  Forall (fun e => resetOnly (Entry.call e) = true)
         (snd (handleMessage userContext message h)) /\
  (parseState (User.state_json (UserContext.user userContext)) = Ret None ->
   handleMessage userContext message h
   = (Ret (Js.str "抱歉，我的 AI 大腦暫時短路了，請稍後再試一次。"),
      [Entry.mk (UnderstandAndPlan message) false])) /\
  (let run := processImageInBackground true userContext imageBuffer h in
   stateWrites (snd run) = [] /\
   exists ok rest,
     pushes (snd run)
     = (User.line_user_id (UserContext.user userContext),
        "🤔 抱歉，我從圖片中看不出可以怎麽協助您。", ok) :: rest).
Proof.
  intros Hdown. split; [by apply handleMessage_resetOnly|]. split.
  - intros Hidle. rewrite (handleMessage_idle _ _ _ Hidle). by apply freshRequest_down.
  - by apply processImageInBackground_down.
Qed.

Lemma model_down_never_waits_witness :
  handleMessage (host := Sample.host) (world := Run.silentModel)
                (Sample.user json_absent) "hello" []
  = (Ret (Js.str "抱歉，我的 AI 大腦暫時短路了，請稍後再試一次。"),
     [Entry.mk (UnderstandAndPlan "hello") false]).
Proof.
  refine (proj1 (proj2 (model_down_never_waits
                          (host := Sample.host) (world := Run.silentModel)
                          (Sample.user json_absent) "hello" "" [] _)) eq_refl).
  repeat split; intros; reflexivity.
Defined.

(** ** The weekly review *)

Section ReviewFacts.
Context {host : Host} {office : Office}.
Import Review.

Lemma reports_app l1 l2 : reports (l1 ++ l2) = reports l1 ++ reports l2.
Proof. apply omap_app. Qed.

Lemma quiet_reports {A} (m : Trace.T ReviewCall A) h :
  Trace.quiet notReport m -> reports (snd (m h)) = [].
Proof.
  intros Hm. specialize (Hm h). induction Hm as [|e l He _ IH]; [done|].
  cbn. destruct (Trace.call e); try done.
Qed.

(** One round of the loop of [analyzeEventsStatus]: it returns, after one
    request, and adds the event to at most one list. *)
Lemma analyzeOne_run now eventId upcomingEvents overdueEvents h :
  exists upcoming' overdue' ok,
    analyzeOne now eventId (upcomingEvents, overdueEvents) h
    = (Ret (upcomingEvents ++ upcoming', overdueEvents ++ overdue'),
       [ReviewEntry.mk (EventsGet eventId) ok]) /\
    Forall (fun event => cancelled event = false /\
                         exists t, startOf event = Some t /\ now <= t <= now + oneWeek)
           upcoming' /\
    Forall (fun event => cancelled event = false /\
                         exists t, startOf event = Some t /\ t < now)
           overdue' /\
    (length upcoming' + length overdue' <= 1)%nat.
Proof.
  unfold analyzeOne, Trace.try_catch, Trace.bind, Trace.perform.
  destruct (events_get_answer h eventId) as [event|e]; cbn [isRet].
  - destruct (cancelled event) eqn:Hc;
      [exists [], [], true; rewrite !app_nil_r; cbn; repeat split; auto|].
    destruct (startOf event) as [t|] eqn:Hs;
      [|exists [], [], true; rewrite !app_nil_r; cbn; repeat split; auto].
    destruct (Z.ltb_spec t now).
    + exists [], [event], true. rewrite !app_nil_r. cbn.
      repeat split; auto. constructor; [|done]. split; [done|]. eauto.
    + destruct (Z.leb_spec t (now + oneWeek)).
      * exists [event], [], true. rewrite !app_nil_r. cbn.
        repeat split; auto. constructor; [|done]. split; [done|]. eauto.
      * exists [], [], true; rewrite !app_nil_r; cbn; repeat split; auto.
  - exists [], [], false. rewrite !app_nil_r. cbn. repeat split; auto.
Qed.

Lemma analyzeEach_run now eventIds :
  forall upcomingEvents overdueEvents h,
  exists upcoming' overdue' tr,
    analyzeEach now eventIds (upcomingEvents, overdueEvents) h
    = (Ret (upcomingEvents ++ upcoming', overdueEvents ++ overdue'), tr) /\
    map ReviewEntry.call tr = map EventsGet eventIds /\
    Forall (fun event => cancelled event = false /\
                         exists t, startOf event = Some t /\ now <= t <= now + oneWeek)
           upcoming' /\
    Forall (fun event => cancelled event = false /\
                         exists t, startOf event = Some t /\ t < now)
           overdue' /\
    (length upcoming' + length overdue' <= length eventIds)%nat.
Proof.
  induction eventIds as [|eventId rest IH]; intros upcomingEvents overdueEvents h.
  - exists [], [], []. rewrite !app_nil_r. cbn. repeat split; auto.
  - cbn [analyzeEach]. unfold Trace.bind.
    destruct (analyzeOne_run now eventId upcomingEvents overdueEvents h)
      as (u1 & o1 & ok & -> & Hu1 & Ho1 & Hn1).
    destruct (IH (upcomingEvents ++ u1) (overdueEvents ++ o1)
                 (h ++ [ReviewEntry.mk (EventsGet eventId) ok]))
      as (u2 & o2 & tr & -> & Htr & Hu2 & Ho2 & Hn2).
    exists (u1 ++ u2), (o1 ++ o2), (ReviewEntry.mk (EventsGet eventId) ok :: tr).
    rewrite !app_assoc. split; [done|]. split; [cbn; by rewrite Htr|].
    split; [by apply Forall_app|]. split; [by apply Forall_app|].
    rewrite !length_app. cbn [length]. lia.
Qed.

End ReviewFacts.

(** X20.  [analyzeEventsStatus] never throws and asks the calendar once for
    every id, in order, whatever the calendar answers.  Every event it
    returns as overdue is not cancelled and starts before now; every event
    it returns as upcoming is not cancelled and starts between now and a
    week from now; an event is in at most one of the lists (the two
    together hold no more events than there are ids). *)
Theorem analyzeEventsStatus_classifies
        {host : Host} {office : Office} (eventIds : list string)
        (h : list ReviewEntry.t) :
  let now := review_now h in
  exists upcomingEvents overdueEvents tr,
    Review.analyzeEventsStatus eventIds h = (Ret (upcomingEvents, overdueEvents), tr) /\
    map ReviewEntry.call tr = map EventsGet eventIds /\
    Forall (fun event => Review.cancelled event = false /\
                         exists t, Review.startOf event = Some t /\
                                   now <= t <= now + Review.oneWeek)
           upcomingEvents /\
    Forall (fun event => Review.cancelled event = false /\
                         exists t, Review.startOf event = Some t /\ t < now)
           overdueEvents /\
    (length upcomingEvents + length overdueEvents <= length eventIds)%nat.
Proof.
  cbn zeta. unfold Review.analyzeEventsStatus, Trace.bind, Review.Date_now.
  destruct (analyzeEach_run (review_now h) eventIds [] [] (h ++ []))
    as (u & o & tr & -> & Htr & Hu & Ho & Hn).
  exists u, o, tr. done.
Qed.

Lemma append_assoc (a b c : string) : (a +:+ b) +:+ c = a +:+ (b +:+ c).
Proof.
  induction a as [|x a IH]; [done|].
  change (String x ((a +:+ b) +:+ c) = String x (a +:+ (b +:+ c))). by rewrite IH.
Qed.

Section ReviewUsers.
Context {host : Host} {office : Office}.
Import Review.

(** The analysis returns, after one lookup for every id. *)
Lemma analyzeEventsStatus_run eventIds h :
  exists upcomingEvents overdueEvents tr,
    analyzeEventsStatus eventIds h = (Ret (upcomingEvents, overdueEvents), tr) /\
    map ReviewEntry.call tr = map EventsGet eventIds.
Proof.
  unfold analyzeEventsStatus, Trace.bind, Date_now.
  destruct (analyzeEach_run (review_now h) eventIds [] [] (h ++ []))
    as (u & o & tr & -> & Htr & _).
  by exists u, o, tr.
Qed.

Lemma analyzeEventsStatus_notReport eventIds :
  Trace.quiet notReport (analyzeEventsStatus eventIds).
Proof.
  intros h.
  destruct (analyzeEventsStatus_run eventIds h) as (u & o & tr & -> & Htr).
  cbn [snd]. clear -Htr. revert eventIds Htr.
  induction tr as [|e tr IH]; intros [|eventId rest] Htr; try done.
  injection Htr as He Htr. constructor; [by rewrite He | by eapply IH].
Qed.

(** The report of the objectives: the text received with more text
    after it; no push, no exception. *)
Lemma reportObjectives_run activeObjectives :
  forall reportText hasOverdueTasks h,
  exists body hasOverdueTasks' tr,
    reportObjectives activeObjectives (reportText, hasOverdueTasks) h
    = (Ret (reportText +:+ body, hasOverdueTasks'), tr) /\
    reports tr = [].
Proof.
  induction activeObjectives as [|objective rest IH]; intros reportText hasOverdueTasks h.
  - exists "", hasOverdueTasks, []. by rewrite append_empty_r.
  - cbn [reportObjectives].
    destruct (eventIdsOf (LearningObjective.gcal_event_ids objective))
      as [|eventId eventIds].
    + match goal with |- context [reportObjectives rest (?t, _) h] =>
        destruct (IH t hasOverdueTasks h) as (body & b' & tr & -> & Htr)
      end.
      eexists _, b', tr. split; [|done]. f_equal. f_equal.
      rewrite !append_assoc. reflexivity.
    + unfold Trace.bind.
      pose proof (quiet_reports (analyzeEventsStatus (eventId :: eventIds)) h
                    (analyzeEventsStatus_notReport _)) as Hq.
      destruct (analyzeEventsStatus_run (eventId :: eventIds) h)
        as (u & o & tr1 & E & _).
      rewrite E in *. cbn [snd] in Hq.
      match goal with |- context [reportObjectives rest (?t, ?b) ?hh] =>
        destruct (IH t b hh) as (body & b' & tr & -> & Htr)
      end.
      eexists _, b', (tr1 ++ tr). split; [|by rewrite reports_app, Hq, Htr].
      f_equal. f_equal. rewrite !append_assoc. reflexivity.
Qed.

(** One user: at most one push, to that user, of a report that opens with
    the greeting and closes with one of the two closing lines. *)
Lemma reviewUser_reports user h :
  let tr := snd (Trace.try_catch (reviewUser user) (fun _ => ret tt) h) in
  fst (Trace.try_catch (reviewUser user) (fun _ => ret tt) h) = Ret tt /\
  (reports tr = [] \/
   exists body closing,
     (closing = overdueClosing \/ closing = steadyClosing) /\
     reports tr = [(User.line_user_id user, reportHeader +:+ body +:+ closing)]).
Proof.
  cbn zeta.
  destruct (Trace.try_catch (reviewUser user) (fun _ => ret tt) h) as [r tr] eqn:Hrun.
  cbn [fst snd]. revert Hrun.
  unfold Trace.try_catch, reviewUser, Trace.bind at 1, Trace.perform.
  destruct (getActiveObjectivesByUserId_answer h (User.id user)) as [objectives|e];
    cbn [isRet]; [|intros [= <- <-]; split; [done | by left]].
  destruct objectives as [|objective rest];
    [intros [= <- <-]; split; [done | by left]|].
  unfold Trace.bind at 1.
  match goal with |- context [reportObjectives ?l (reportHeader, false) ?hh] =>
    destruct (reportObjectives_run l reportHeader false hh) as (body & b & tr1 & -> & Htr1)
  end.
  unfold pushMessage, Trace.perform.
  match goal with |- context [pushReport_answer ?hh ?u ?t] =>
    destruct (pushReport_answer hh u t) as [[]|e]
  end; cbn [isRet]; intros [= <- <-];
    (split; [done|]); right;
    exists body, (if b then overdueClosing else steadyClosing);
    (split; [by destruct b; auto|]);
    cbn [app]; rewrite ?app_nil_r;
    change (reports (?x :: ?l)) with (reports ([x] ++ l));
    rewrite !reports_app, Htr1; cbn; by rewrite append_assoc.
Qed.

Lemma reviewEach_run allUsers :
  forall h,
    let run := reviewEach allUsers h in
    fst run = Ret tt /\
    sublist (map fst (reports (snd run))) (map User.line_user_id allUsers) /\
    Forall (fun p => exists body closing,
                       (closing = overdueClosing \/ closing = steadyClosing) /\
                       snd p = reportHeader +:+ body +:+ closing)
           (reports (snd run)).
Proof.
  induction allUsers as [|user rest IH]; intros h; cbn zeta.
  - cbn. split; [done|]. split; constructor.
  - cbn [reviewEach]. unfold Trace.bind.
    destruct (reviewUser_reports user h) as (Hret & Hrep). cbn zeta in *.
    destruct (Trace.try_catch (reviewUser user) (fun _ => ret tt) h) as [r tr1].
    cbn [fst snd] in *. subst r.
    destruct (IH (h ++ tr1)) as (IH1 & IH2 & IH3). cbn zeta in *.
    destruct (reviewEach rest (h ++ tr1)) as [r tr2]. cbn [fst snd] in *. subst r.
    split; [done|]. rewrite reports_app.
    destruct Hrep as [->|(body & closing & Hc & ->)]; cbn [app map fst].
    + split; [by apply sublist_cons | done].
    + split; [by apply sublist_skip|]. constructor; [|done]. cbn. eauto.
Qed.

End ReviewUsers.

(** X21.  Once the list of users is read, [runReview] does not throw
    whatever happens for a user: what one user's review throws is logged
    and the loop goes on.  It pushes at most one report per user, to the
    users in the order of the list, and every report opens with the
    greeting and closes with one of the two closing lines. *)
Theorem runReview_isolates_users
        {host : Host} {office : Office} (h : list ReviewEntry.t) (allUsers : list User.t) :
  getAllUsers_answer h = Ret allUsers ->
  let run := Review.runReview h in
  fst run = Ret tt /\
  sublist (map fst (Review.reports (snd run))) (map User.line_user_id allUsers) /\
  Forall (fun p => exists body closing,
                     (closing = Review.overdueClosing \/ closing = Review.steadyClosing) /\
                     snd p = Review.reportHeader +:+ body +:+ closing)
         (Review.reports (snd run)).
Proof.
  intros Hu. cbn zeta. unfold Review.runReview, Trace.bind, Trace.perform. rewrite Hu.
  cbn [isRet]. destruct allUsers as [|user rest]; [cbn; split; [done|]; split; constructor|].
  destruct (reviewEach_run (user :: rest) (h ++ [ReviewEntry.mk GetAllUsers true]))
    as (H1 & H2 & H3). cbn zeta in *.
  destruct (Review.reviewEach (user :: rest) _) as [r tr]. cbn [fst snd] in *.
  split; [done|].
  change (Review.reports (ReviewEntry.mk GetAllUsers true :: tr)) with (Review.reports tr).
  done.
Qed.

Lemma runReview_isolates_users_witness :
  fst (Review.runReview (host := Sample.host) (office := Run.office) []) = Ret tt.
Proof.
  exact (proj1 (runReview_isolates_users (host := Sample.host) (office := Run.office)
                  [] Run.reviewed eq_refl)).
Defined.

(** The first user's objectives cannot be read; the second user is still
    sent a report. *)
Example runReview_second_user_is_served :
  Review.reports (snd (Review.runReview (host := Sample.host) (office := Run.office) []))
  = [("U2",
      Review.reportHeader +:+ nl +:+ "🎯 **目標：Exam**" +:+ nl
      +:+ "   - 🔴 **注意！有 1 個任務已過期：**" +:+ nl
      +:+ "     - A" +:+ nl
      +:+ "   - 🟢 **本週即將進行：**" +:+ nl
      +:+ "     - 2025/1/8 - B" +:+ nl
      +:+ Review.overdueClosing)].
Proof. vm_compute. reflexivity. Qed.

(** ** The window of a listing *)

(** X22.  The window [getTimeRange] gives for ["today"] is the local day of
    now: it starts at local midnight, holds now and lasts one day; the
    window for ["tomorrow"] starts where today's ends and lasts one day;
    ["week"] is the seven days from now; a range that is none of the four
    names is not refused but read as the day from now. *)
Theorem getTimeRange_windows (tz now : Z) (range : string) :
  let today := TimeRange.getTimeRange tz now "today" in
  let tomorrow := TimeRange.getTimeRange tz now "tomorrow" in
  (fst today <= now < snd today /\
   snd today = fst today + JsDate.msPerDay /\
   (fst today + tz) mod JsDate.msPerDay = 0) /\
  (fst tomorrow = snd today /\ snd tomorrow = fst tomorrow + JsDate.msPerDay) /\
  TimeRange.getTimeRange tz now "week" = (now, now + 7 * JsDate.msPerDay) /\
  (range ∉ ["today"; "tomorrow"; "week"; "month"] ->
   TimeRange.getTimeRange tz now range = (now, now + JsDate.msPerDay)).
Proof.
  cbn zeta.
  change (TimeRange.getTimeRange tz now "today")
    with (TimeRange.localMidnight tz now 0,
          JsDate.addDays (TimeRange.localMidnight tz now 0) 1).
  change (TimeRange.getTimeRange tz now "tomorrow")
    with (TimeRange.localMidnight tz now 1,
          JsDate.addDays (TimeRange.localMidnight tz now 1) 1).
  change (TimeRange.getTimeRange tz now "week") with (now, JsDate.addDays now 7).
  cbn [fst snd].
  unfold TimeRange.localMidnight, JsDate.addDays, JsDate.localDay, JsDate.msPerDay.
  split; [split; [|split]|split; [split|split]].
  - pose proof (Z.mul_div_le (now + tz) 86400000).
    pose proof (Z.mod_pos_bound (now + tz) 86400000).
    pose proof (Z.div_mod (now + tz) 86400000). lia.
  - lia.
  - replace (((now + tz) / 86400000 + 0) * 86400000 - tz + tz)
      with (((now + tz) / 86400000) * 86400000) by lia.
    apply Z.mod_mul. lia.
  - lia.
  - lia.
  - reflexivity.
  - intros Hr. unfold TimeRange.getTimeRange.
    destruct (String.eqb_spec range "today") as [->|_]; [exfalso; apply Hr; set_solver|].
    destruct (String.eqb_spec range "tomorrow") as [->|_]; [exfalso; apply Hr; set_solver|].
    destruct (String.eqb_spec range "week") as [->|_]; [exfalso; apply Hr; set_solver|].
    destruct (String.eqb_spec range "month") as [->|_]; [exfalso; apply Hr; set_solver|].
    unfold JsDate.addDays, JsDate.msPerDay. f_equal; lia.
Qed.

Lemma getTimeRange_windows_witness :
  TimeRange.getTimeRange Sample.tz Sample.clock "next week"
  = (Sample.clock, Sample.clock + JsDate.msPerDay).
Proof.
  apply (proj2 (proj2 (proj2 (getTimeRange_windows Sample.tz Sample.clock "next week")))).
  intros H. repeat (apply elem_of_cons in H as [H|H]; [discriminate H|]).
  by apply elem_of_nil in H.
Defined.

(** * The sheet service *)

(** The properties below hold for every reading of the texts in the cells
    ([JsText]); the runs use the texts of [Run.js]. *)

(** ** The sheet *)

Section SheetFacts.
Context {js : JsText}.
Import Sheet.

Lemma findRow_app p i l1 l2 :
  findRow p i (l1 ++ l2)
  = match findRow p i l1 with
    | Some r => Some r
    | None => findRow p (i + length l1) l2
    end.
Proof.
  revert i. induction l1 as [|row rest IH]; intros i; cbn.
  - by rewrite Nat.add_0_r.
  - destruct (p row); [done|]. rewrite IH. by rewrite Nat.add_succ_r.
Qed.

Lemma findRow_Some p i rows j row :
  findRow p i rows = Some (j, row) ->
  (i <= j)%nat /\ rows !! (j - i)%nat = Some row /\ p row = true /\
  forall k row', (k < j - i)%nat -> rows !! k = Some row' -> p row' = false.
Proof.
  revert i. induction rows as [|r rest IH]; intros i; cbn; [discriminate|].
  destruct (p r) eqn:Hp.
  - intros [= <- <-]. rewrite Nat.sub_diag. repeat split; [lia|done|]. intros; lia.
  - intros H. apply IH in H as (Hle & Hl & Hrow & Hbefore).
    split; [lia|].
    replace (j - i)%nat with (S (j - S i)) by lia. split; [done|]. split; [done|].
    intros [|k] row' Hk; cbn; [by intros [= <-]|].
    apply Hbefore. lia.
Qed.

Lemma findRow_None p i rows :
  findRow p i rows = None <-> Forall (fun row => p row = false) rows.
Proof.
  revert i. induction rows as [|r rest IH]; intros i; cbn.
  - split; [constructor | done].
  - destruct (p r) eqn:Hp.
    + split; [discriminate|]. intros H. inversion H; congruence.
    + rewrite IH. split; [by constructor | by inversion 1].
Qed.

(** A row added to a table with a heading is found at the index the table
    had rows, when no earlier row is. *)
Lemma findData_new p rows newRow :
  findData p rows = None -> rows <> [] -> p newRow = true ->
  findData p (rows ++ [newRow]) = Some (length rows, newRow).
Proof.
  unfold findData. intros Hnone Hne Hp.
  destruct rows as [|heading rest]; [done|]. cbn [drop app] in *.
  rewrite !drop_0 in *. rewrite findRow_app, Hnone. cbn. rewrite Hp.
  do 2 f_equal.
Qed.

(** An earlier match hides a row added later. *)
Lemma findData_old p rows newRow r :
  findData p rows = Some r -> findData p (rows ++ [newRow]) = Some r.
Proof.
  unfold findData. intros Hsome.
  destruct rows as [|heading rest]; [done|]. cbn [drop app] in *.
  rewrite !drop_0 in *. by rewrite findRow_app, Hsome.
Qed.

Lemma setCell_lookup_eq col value row : setCell col value row !! col = Some value.
Proof.
  unfold setCell. destruct (Nat.ltb_spec col (length row)).
  - by apply list_lookup_insert_eq.
  - rewrite lookup_app_r by lia.
    rewrite lookup_app_r by (rewrite length_replicate; lia).
    rewrite length_replicate. by replace (col - length row - (col - length row))%nat with 0%nat by lia.
Qed.

Lemma setCell_lookup_ne col col' value row :
  col' <> col -> (col' < length row)%nat -> setCell col value row !! col' = row !! col'.
Proof.
  intros Hne Hlt. unfold setCell. destruct (Nat.ltb_spec col (length row)).
  - by apply list_lookup_insert_ne.
  - by rewrite lookup_app_l.
Qed.

(** Updating a cell of a row of the table leaves the other rows alone. *)
Lemma updateCell_lookup rowNumber col value rows i row :
  rowNumber = Z.of_nat i + 1 -> rows !! i = Some row ->
  exists rows',
    updateCell rowNumber col value rows = Ret rows' /\
    length rows' = length rows /\
    rows' !! i = Some (setCell col value row) /\
    forall k, k <> i -> rows' !! k = rows !! k.
Proof.
  intros -> Hrow. unfold updateCell.
  destruct (Z.ltb_spec (Z.of_nat i + 1) 1); [lia|].
  replace (Z.to_nat (Z.of_nat i + 1 - 1)) with i by lia.
  pose proof (lookup_lt_Some _ _ _ Hrow) as Hlt.
  replace (S i - length rows)%nat with 0%nat by lia. cbn [replicate]. rewrite app_nil_r.
  eexists. split; [reflexivity|]. split; [by rewrite length_alter|].
  split; [by rewrite list_lookup_alter_eq, Hrow|].
  intros k Hk. by rewrite list_lookup_alter_ne.
Qed.

(** A search that does not look at the updated column finds the same row
    after the update. *)
Lemma findRow_ext p q i rows rows' :
  length rows' = length rows ->
  (forall k row row', rows !! k = Some row -> rows' !! k = Some row' -> q row' = p row) ->
  forall r, findRow p i rows = Some r ->
  exists row', findRow q i rows' = Some (fst r, row') /\
               rows' !! (fst r - i)%nat = Some row'.
Proof.
  revert i rows'. induction rows as [|row rest IH]; intros i rows' Hlen Hrows r; cbn;
    [discriminate|].
  destruct rows' as [|row' rest']; [discriminate|]. cbn.
  rewrite (Hrows 0%nat row row' eq_refl eq_refl).
  destruct (p row).
  - intros [= <-]. cbn. rewrite Nat.sub_diag. eauto.
  - intros H. destruct r as [j found].
    pose proof (findRow_Some _ _ _ _ _ H) as (Hle & _). cbn [fst] in *.
    destruct (IH (S i) rest') with (r := (j, found)) as (row'' & E & Hl);
      [by injection Hlen| |done|].
    { intros k x x'. apply (Hrows (S k)). }
    exists row''. split; [done|]. cbn [fst] in *.
    replace (j - i)%nat with (S (j - S i)) by lia. done.
Qed.

End SheetFacts.

(** X23.  A LINE user who is not in the table is appended as a new row
    whose id is the number of rows before, and is answered with the number
    of that row.  When the table has its heading row, asking again finds
    that row and appends nothing; when the table was empty, the new row
    takes the place of the heading, the search (which starts at the second
    row) does not see it, and asking again appends the user a second
    time. *)
Theorem findOrCreateUser_round_trip
        {js : JsText} (now now' : Z) (lineUserId : string) (book : Sheet.Book) :
  Sheet.findData (fun row => bool_decide (row !! 1%nat = Some lineUserId))
                 (Sheet.users book) = None ->
  let n := Z.of_nat (length (Sheet.users book)) in
  let created := Sheet.findOrCreateUser now lineUserId book in
  let again := Sheet.findOrCreateUser now' lineUserId (snd created) in
  fst created
  = {| Sheet.Found.rowNumber := n + 1;
       Sheet.Found.user :=
         {| Sheet.SheetUser.id := Some n;
            Sheet.SheetUser.line_user_id := lineUserId;
            Sheet.SheetUser.state_json := json_absent |} |} /\
  Sheet.users (snd created)
  = Sheet.users book ++ [[numberText n; lineUserId; isoText now; ""]] /\
  (Sheet.users book <> [] ->
   again
   = ({| Sheet.Found.rowNumber := n + 1;
         Sheet.Found.user :=
           {| Sheet.SheetUser.id := parseInt (Some (numberText n));
              Sheet.SheetUser.line_user_id := lineUserId;
              Sheet.SheetUser.state_json := json_absent |} |},
      snd created)) /\
  (Sheet.users book = [] ->
   Sheet.users (snd again)
   = [[numberText 0; lineUserId; isoText now; ""];
      [numberText 1; lineUserId; isoText now'; ""]]).
Proof.
  intros Hnew. cbn zeta.
  assert (Sheet.findOrCreateUser now lineUserId book
          = ({| Sheet.Found.rowNumber := Z.of_nat (length (Sheet.users book)) + 1;
                Sheet.Found.user :=
                  {| Sheet.SheetUser.id := Some (Z.of_nat (length (Sheet.users book)));
                     Sheet.SheetUser.line_user_id := lineUserId;
                     Sheet.SheetUser.state_json := json_absent |} |},
             {| Sheet.users :=
                  Sheet.users book
                  ++ [[numberText (Z.of_nat (length (Sheet.users book))); lineUserId;
                       isoText now; ""]];
                Sheet.objectives := Sheet.objectives book;
                Sheet.notes := Sheet.notes book |})) as ->.
  { unfold Sheet.findOrCreateUser. by rewrite Hnew. }
  cbn [fst snd Sheet.users]. split; [done|]. split; [done|]. split.
  - intros Hne. unfold Sheet.findOrCreateUser. cbn [Sheet.users].
    rewrite (findData_new _ _ _ Hnew Hne) by (by apply bool_decide_eq_true).
    reflexivity.
  - intros Hempty. rewrite Hempty. reflexivity.
Qed.

Lemma findOrCreateUser_round_trip_witness :
  let created := Sheet.findOrCreateUser (js := Run.js) 0 "U9" Run.book in
  Sheet.findOrCreateUser (js := Run.js) 1000 "U9" (snd created)
  = ({| Sheet.Found.rowNumber := 3;
        Sheet.Found.user :=
          {| Sheet.SheetUser.id := Some 2;
             Sheet.SheetUser.line_user_id := "U9";
             Sheet.SheetUser.state_json := json_absent |} |},
     snd created).
Proof.
  pose proof (findOrCreateUser_round_trip (js := Run.js) 0 1000 "U9" Run.book eq_refl) as H.
  cbn zeta in H. destruct H as (_ & _ & H & _). apply H. discriminate.
Defined.


(** X24.  Writing a state to the row [findOrCreateUser] answered for a
    user in the table.  When the service carries out the update, the write
    returns, leaves the other tables and the other rows of the users as
    they are, and is read back: the next [findOrCreateUser] answers the
    same row and id, with no state after [null] was written, and with what
    [JSON.parse] makes of the text of the state after a state was written
    (its text is not empty).  When the service does not carry it out, the
    write throws what the service reports and the book is as it was. *)
Theorem setUserState_round_trip
        {js : JsText} (api : Sheet.Api) (now : Z) (lineUserId : string)
        (book : Sheet.Book) (i : nat) (row : Sheet.Row) (state : option UserState) :
  Sheet.findData (fun row => bool_decide (row !! 1%nat = Some lineUserId))
                 (Sheet.users book) = Some (i, row) ->
  let found := fst (Sheet.findOrCreateUser now lineUserId book) in
  let write := Sheet.setUserState api (Sheet.Found.rowNumber found) state book in
  match Sheet.update api with
  | Throw e => write = (Throw e, book)
  | Ret _ =>
      exists book',
        write = (Ret tt, book') /\
        Sheet.objectives book' = Sheet.objectives book /\
        Sheet.notes book' = Sheet.notes book /\
        length (Sheet.users book') = length (Sheet.users book) /\
        (forall k, k <> i -> Sheet.users book' !! k = Sheet.users book !! k) /\
        exists state_json,
          Sheet.findOrCreateUser now lineUserId book'
          = ({| Sheet.Found.rowNumber := Sheet.Found.rowNumber found;
                Sheet.Found.user :=
                  {| Sheet.SheetUser.id := Sheet.SheetUser.id (Sheet.Found.user found);
                     Sheet.SheetUser.line_user_id := lineUserId;
                     Sheet.SheetUser.state_json := state_json |} |},
             book') /\
          match state with
          | None => state_json = json_absent
          | Some st =>
              stringifyState st <> "" -> state_json = readStateCell (stringifyState st)
          end
  end.
Proof.
  intros Hfound. cbn zeta. unfold Sheet.setUserState.
  destruct (Sheet.update api) as [[]|e]; [|done].
  assert (Sheet.findOrCreateUser now lineUserId book
          = ({| Sheet.Found.rowNumber := Z.of_nat i + 1;
                Sheet.Found.user :=
                  {| Sheet.SheetUser.id := parseInt (row !! 0%nat);
                     Sheet.SheetUser.line_user_id := lineUserId;
                     Sheet.SheetUser.state_json := Sheet.stateOf row |} |},
             book)) as ->.
  { unfold Sheet.findOrCreateUser. by rewrite Hfound. }
  cbn [fst Sheet.Found.rowNumber Sheet.Found.user Sheet.SheetUser.id].
  set (value := match state with Some st => stringifyState st | None => "" end).
  unfold Sheet.findData in Hfound.
  pose proof (findRow_Some _ _ _ _ _ Hfound) as (Hle & Hrow & Hp & _).
  apply bool_decide_eq_true in Hp.
  assert (Sheet.users book !! i = Some row) as Hi.
  { rewrite lookup_drop in Hrow. rewrite <- Hrow. f_equal. lia. }
  destruct (updateCell_lookup (Z.of_nat i + 1) 3 value (Sheet.users book) i row eq_refl Hi)
    as (rows' & Hup & Hlen & Hrow' & Hother).
  eexists. rewrite Hup.
  split; [reflexivity|]. cbn [Sheet.objectives Sheet.notes Sheet.users].
  split; [done|]. split; [done|]. split; [done|]. split; [done|].
  assert (1 < length row)%nat as Hlen1 by (by apply lookup_lt_Some in Hp).
  destruct (findRow_ext
              (fun row => bool_decide (row !! 1%nat = Some lineUserId))
              (fun row => bool_decide (row !! 1%nat = Some lineUserId))
              1 (drop 1 (Sheet.users book)) (drop 1 rows')) with (r := (i, row))
    as (found' & Hf' & Hl'); [by rewrite !length_drop, Hlen| |done|].
  { intros k x x'. rewrite !lookup_drop. intros Hx Hx'.
    destruct (decide (1 + k = i)%nat) as [Heq|Hk].
    - rewrite Heq, Hi in Hx. rewrite Heq, Hrow' in Hx'.
      assert (x = row) as -> by congruence.
      assert (x' = Sheet.setCell 3 value row) as -> by congruence.
      by rewrite setCell_lookup_ne by lia.
    - rewrite Hother in Hx' by done. rewrite Hx in Hx'. by injection Hx' as <-. }
  cbn [fst] in *.
  assert (found' = Sheet.setCell 3 value row) as ->.
  { rewrite lookup_drop in Hl'. replace (1 + (i - 1))%nat with i in Hl' by lia. congruence. }
  exists (Sheet.stateOf (Sheet.setCell 3 value row)). split.
  - unfold Sheet.findOrCreateUser, Sheet.findData. cbn [Sheet.users]. rewrite Hf'.
    rewrite setCell_lookup_ne by lia. reflexivity.
  - unfold Sheet.stateOf. rewrite setCell_lookup_eq. unfold Sheet.orNull, orElse.
    subst value. destruct state as [st|]; [|done].
    intros Hne. cbn [JsString.truthy].
    destruct (String.eqb_spec (stringifyState st) ""); done.
Qed.

Lemma setUserState_round_trip_witness :
  exists book',
    Sheet.setUserState (js := Run.js) Sheet.served 2
                       (Some (waiting_knowledge_action (Some 1))) Run.book
    = (Ret tt, book') /\
    Sheet.SheetUser.state_json
      (Sheet.Found.user (fst (Sheet.findOrCreateUser (js := Run.js) 0 "U1" book')))
    = json_state (waiting_knowledge_action (Some 1)).
Proof.
  destruct (setUserState_round_trip
              (js := Run.js) Sheet.served 0 "U1" Run.book 1
              ["1"; "U1"; "2025-01-01T00:00:00.000Z"; ""]
              (Some (waiting_knowledge_action (Some 1))) eq_refl)
    as (book' & Hset & _ & _ & _ & _ & state_json & Hfind & Hstate).
  exists book'. split; [exact Hset|].
  rewrite Hfind. cbn [fst Sheet.Found.user Sheet.SheetUser.state_json].
  rewrite Hstate by discriminate. reflexivity.
Defined.


Lemma orNull_or_empty (x : option string) :
  Sheet.orNull (Some (show (orElse x (Some "")))) = Sheet.orNull x.
Proof.
  unfold Sheet.orNull, orElse. destruct x as [s|]; cbn; [|done].
  destruct (String.eqb_spec s ""); cbn; [done|].
  destruct (String.eqb_spec s ""); done.
Qed.

(** X25.  A new objective is numbered 100 plus the number of rows of the
    table.  With the heading row in place (and a user id that reads back
    from its text), looking it up by user and title afterwards finds it, in
    progress and without event ids, unless the user already had an
    objective of that title: then the older one is found. *)
Theorem createLearningObjective_round_trip
        {js : JsText} (userId : Z) (title : string) (dueDate : option string)
        (book : Sheet.Book) :
  let mine := fun row : Sheet.Row =>
                bool_decide (parseInt (row !! 1%nat) = Some userId)
                && bool_decide (row !! 2%nat = Some title) in
  let newObjectiveId := Z.of_nat (length (Sheet.objectives book)) + 100 in
  let created := Sheet.createLearningObjective userId title dueDate book in
  parseInt (Some (numberText userId)) = Some userId ->
  Sheet.objectives book <> [] ->
  Sheet.Stored.objective_id (fst created) = Some newObjectiveId /\
  (Sheet.findData mine (Sheet.objectives book) = None ->
   Sheet.findObjectiveByTitle userId title (snd created)
   = Some {| Sheet.Stored.objective_id := parseInt (Some (numberText newObjectiveId));
             Sheet.Stored.user_id := Some userId;
             Sheet.Stored.title := Some title;
             Sheet.Stored.status := Some "In Progress";
             Sheet.Stored.due_date := Sheet.orNull dueDate;
             Sheet.Stored.gcal_event_ids := None |}) /\
  (forall i row,
      Sheet.findData mine (Sheet.objectives book) = Some (i, row) ->
      Sheet.findObjectiveByTitle userId title (snd created) = Some (Sheet.storedOf row)).
Proof.
  cbn zeta. intros Hid Hne.
  unfold Sheet.createLearningObjective. cbn [fst snd Sheet.Stored.objective_id].
  split; [done|]. split.
  - intros Hnone. unfold Sheet.findObjectiveByTitle. cbn [Sheet.objectives].
    rewrite (findData_new _ _ _ Hnone Hne).
    + unfold Sheet.storedOf. cbn [lookup list_lookup]. rewrite Hid, orNull_or_empty.
      reflexivity.
    + cbn [lookup list_lookup]. rewrite Hid.
      by rewrite !bool_decide_eq_true_2.
  - intros i row Hsome. unfold Sheet.findObjectiveByTitle. cbn [Sheet.objectives].
    by rewrite (findData_old _ _ _ _ Hsome).
Qed.

Lemma createLearningObjective_round_trip_witness :
  Sheet.findObjectiveByTitle
    (js := Run.js) 1 "Thesis"
    (snd (Sheet.createLearningObjective (js := Run.js) 1 "Thesis" (Some "2025-03-01")
                                        Run.book))
  = Some {| Sheet.Stored.objective_id := Some 102;
            Sheet.Stored.user_id := Some 1;
            Sheet.Stored.title := Some "Thesis";
            Sheet.Stored.status := Some "In Progress";
            Sheet.Stored.due_date := Some "2025-03-01";
            Sheet.Stored.gcal_event_ids := None |}.
Proof.
  pose proof (createLearningObjective_round_trip
                (js := Run.js) 1 "Thesis" (Some "2025-03-01") Run.book) as H.
  cbn zeta in H. destruct H as (_ & H & _); [reflexivity|discriminate|].
  apply H. reflexivity.
Defined.


Lemma splitComma_nonempty s : Review.splitComma s <> [].
Proof.
  destruct s as [|c rest]; cbn; [done|].
  destruct (Ascii.eqb c ","); [done|]. by destruct (Review.splitComma rest).
Qed.

Lemma splitComma_commaFree s : commaFree s = true -> Review.splitComma s = [s].
Proof.
  induction s as [|c rest IH]; cbn; [done|].
  intros [Hc Hrest]%andb_prop. apply negb_true_iff in Hc. rewrite Hc.
  by rewrite (IH Hrest).
Qed.

Lemma splitComma_join a b :
  Review.splitComma (a +:+ "," +:+ b) = Review.splitComma a ++ Review.splitComma b.
Proof.
  induction a as [|c rest IH]; [done|].
  change (String c rest +:+ "," +:+ b) with (String c (rest +:+ "," +:+ b)).
  cbn [Review.splitComma]. rewrite IH.
  destruct (Ascii.eqb c ","); [done|].
  pose proof (splitComma_nonempty rest).
  by destruct (Review.splitComma rest).
Qed.

Lemma show_or_empty (cell : option string) :
  show (orElse cell (Some "")) = default "" cell.
Proof.
  unfold orElse. destruct cell as [s|]; cbn; [|done].
  by destruct (String.eqb_spec s "") as [->|].
Qed.

Lemma eventIdsOf_cell (cell : option string) :
  Review.eventIdsOf (Sheet.orNull cell)
  = if String.eqb (default "" cell) "" then [] else Review.splitComma (default "" cell).
Proof.
  unfold Review.eventIdsOf, Sheet.orNull, orElse. destruct cell as [s|]; cbn; [|done].
  destruct (String.eqb_spec s "") as [->|Hs]; cbn; [done|].
  by destruct (String.eqb_spec s "").
Qed.

(** The search of a table finds the first data row that satisfies the
    test, and nothing when no data row does. *)
Lemma findRow_first p i rows j row :
  rows !! j = Some row -> p row = true ->
  (forall k row', (k < j)%nat -> rows !! k = Some row' -> p row' = false) ->
  Sheet.findRow p i rows = Some ((i + j)%nat, row).
Proof.
  revert i j. induction rows as [|r rest IH]; intros i j Hrow Hp Hbefore; [done|].
  cbn [Sheet.findRow]. destruct j as [|j].
  - injection Hrow as ->. rewrite Hp. by rewrite Nat.add_0_r.
  - rewrite (Hbefore 0%nat r) by (done || lia).
    rewrite (IH (S i) j Hrow Hp).
    + do 2 f_equal. lia.
    + intros k row' Hk. apply (Hbefore (S k)). lia.
Qed.

Lemma findData_first p rows i row :
  (1 <= i)%nat -> rows !! i = Some row -> p row = true ->
  (forall k row', (1 <= k < i)%nat -> rows !! k = Some row' -> p row' = false) ->
  Sheet.findData p rows = Some (i, row).
Proof.
  intros Hi Hrow Hp Hbefore. unfold Sheet.findData.
  rewrite (findRow_first p 1 (drop 1 rows) (i - 1) row).
  - do 2 f_equal. lia.
  - rewrite lookup_drop. by replace (1 + (i - 1))%nat with i by lia.
  - done.
  - intros k row'. rewrite lookup_drop. intros Hk. apply Hbefore. lia.
Qed.

Lemma findData_none p rows :
  (forall k row, (1 <= k)%nat -> rows !! k = Some row -> p row = false) ->
  Sheet.findData p rows = None.
Proof.
  intros Hnone. unfold Sheet.findData. apply findRow_None.
  apply Forall_lookup. intros k row. rewrite lookup_drop. apply Hnone. lia.
Qed.

(** X26.  Linking an event to an objective reads the table first: when
    the service does not carry out the read, the call throws and nothing
    is changed.  With the table read, an objective that no data row names
    changes nothing, and the call returns.  For the first data row that
    names it, the call rewrites the sixth cell of that row only, and the
    event ids the weekly review reads from that cell afterwards are the
    ones it read before followed by the new id (an id that is not empty
    and holds no comma); when the service does not carry out the update,
    the call throws and nothing is changed. *)
Theorem linkEventToObjective_appends
        {js : JsText} (api : Sheet.Api) (objectiveId : Z) (eventId : string)
        (book : Sheet.Book) :
  eventId <> "" -> commaFree eventId = true ->
  let names := fun row : Sheet.Row => parseInt (row !! 0%nat) = Some objectiveId in
  let link := Sheet.linkEventToObjective api objectiveId eventId book in
  match Sheet.get api with
  | Throw e => link = (Throw e, book)
  | Ret _ =>
      ((forall k row, (1 <= k)%nat -> Sheet.objectives book !! k = Some row -> ~ names row) ->
       link = (Ret tt, book)) /\
      (forall i row,
          (1 <= i)%nat -> Sheet.objectives book !! i = Some row -> names row ->
          (forall k row', (1 <= k < i)%nat -> Sheet.objectives book !! k = Some row' ->
                          ~ names row') ->
          match Sheet.update api with
          | Throw e => link = (Throw e, book)
          | Ret _ =>
              exists rows' row',
                link = (Ret tt, {| Sheet.users := Sheet.users book;
                                   Sheet.objectives := rows';
                                   Sheet.notes := Sheet.notes book |}) /\
                rows' !! i = Some row' /\
                (forall k, k <> i -> rows' !! k = Sheet.objectives book !! k) /\
                (forall col, col <> 5%nat -> (col < length row)%nat ->
                             row' !! col = row !! col) /\
                Review.eventIdsOf (Sheet.orNull (row' !! 5%nat))
                = Review.eventIdsOf (Sheet.orNull (row !! 5%nat)) ++ [eventId]
          end)
  end.
Proof.
  intros Hne Hfree. cbn zeta. unfold Sheet.linkEventToObjective.
  destruct (Sheet.get api) as [[]|e]; [|done]. split.
  - intros Hnone. rewrite findData_none; [done|].
    intros k row Hk Hrow. apply bool_decide_eq_false. by apply (Hnone k).
  - intros i row Hi Hrow Hnames Hbefore.
    rewrite (findData_first _ _ i row Hi Hrow).
    2: { by apply bool_decide_eq_true. }
    2: { intros k row' Hk Hrow'. apply bool_decide_eq_false. by apply (Hbefore k). }
    destruct (Sheet.update api) as [[]|e]; [|done].
    set (newEventIds := if negb (String.eqb (show (orElse (row !! 5%nat) (Some ""))) "")
                        then show (orElse (row !! 5%nat) (Some "")) +:+ "," +:+ eventId
                        else eventId).
    destruct (updateCell_lookup (Z.of_nat i + 1) 5 newEventIds (Sheet.objectives book)
                                i row eq_refl Hrow)
      as (rows' & Hup & Hlen & Hrow' & Hother).
    rewrite Hup. exists rows', (Sheet.setCell 5 newEventIds row).
    split; [done|]. split; [done|]. split; [done|].
    split; [intros col Hc Hlt; by apply setCell_lookup_ne|].
    rewrite setCell_lookup_eq. subst newEventIds.
    rewrite show_or_empty, !eventIdsOf_cell.
    set (old := default "" (row !! 5%nat)). clearbody old.
    cbn [default from_option]. unfold id.
    destruct (String.eqb_spec old "") as [->|Hold]; cbn [negb].
    + destruct (String.eqb_spec eventId ""); [done|].
      by rewrite splitComma_commaFree.
    + destruct (String.eqb_spec (old +:+ "," +:+ eventId) "") as [E|_].
      { by destruct old. }
      by rewrite splitComma_join, (splitComma_commaFree eventId).
Qed.

Lemma linkEventToObjective_appends_witness :
  exists rows' row',
    Sheet.linkEventToObjective (js := Run.js) Sheet.served 101 "ev2" Run.book
    = (Ret tt,
       {| Sheet.users := Sheet.users Run.book;
          Sheet.objectives := rows';
          Sheet.notes := Sheet.notes Run.book |}) /\
    rows' !! 1%nat = Some row' /\
    Review.eventIdsOf (Sheet.orNull (row' !! 5%nat)) = ["ev1"; "ev2"].
Proof.
  pose proof (linkEventToObjective_appends (js := Run.js) Sheet.served 101 "ev2" Run.book
                ltac:(discriminate) eq_refl) as H.
  cbn zeta in H. destruct H as (_ & H).
  destruct (H 1%nat ["101"; "1"; "Exam"; "In Progress"; "2025-02-01"; "ev1"]
              ltac:(lia) eq_refl eq_refl ltac:(intros; lia))
    as (rows' & row' & Hlink & Hrow & _ & _ & Hids).
  exists rows', row'. split; [exact Hlink|]. split; [exact Hrow|]. exact Hids.
Defined.


Lemma parseInt_Some {js : JsText} (cell : option string) (n : Z) :
  parseInt cell = Some n -> exists text, cell = Some text.
Proof. destruct cell; [eauto|discriminate]. Qed.

(** Two tables whose rows agree on what the search looks at give the same
    index. *)
Lemma findRow_same_index (p : Sheet.Row -> bool) i (rows rows' : list Sheet.Row) :
  length rows' = length rows ->
  (forall k row row', rows !! k = Some row -> rows' !! k = Some row' -> p row' = p row) ->
  match Sheet.findRow p i rows with
  | Some (j, row) => exists row', Sheet.findRow p i rows' = Some (j, row')
                                  /\ rows' !! (j - i)%nat = Some row'
                                  /\ rows !! (j - i)%nat = Some row
  | None => Sheet.findRow p i rows' = None
  end.
Proof.
  revert i rows'. induction rows as [|row rest IH]; intros i rows' Hlen Hrows.
  - by destruct rows'.
  - destruct rows' as [|row' rest']; [discriminate|]. cbn.
    rewrite (Hrows 0%nat row row' eq_refl eq_refl).
    destruct (p row).
    + rewrite Nat.sub_diag. eauto.
    + specialize (IH (S i) rest').
      destruct (Sheet.findRow p (S i) rest) as [[j found]|] eqn:E.
      * pose proof (findRow_Some _ _ _ _ _ E) as (Hle & _).
        destruct IH as (row'' & E' & Hl & Hl'); [by injection Hlen| |].
        { intros k x x'. apply (Hrows (S k)). }
        exists row''. split; [done|].
        by replace (j - i)%nat with (S (j - S i)) by lia.
      * apply IH; [by injection Hlen|]. intros k x x'. apply (Hrows (S k)).
Qed.

(** X27.  A note saved to a table that has its heading row gets the number
    of rows as its id and is read back by that id as [JSON.parse] of its
    text (when the id reads back from its text and no older row carries
    it).  A note saved to an empty table gets id 1, takes the place of the
    heading and cannot be read back: no id finds a note then. *)
Theorem saveKnowledgeNote_round_trip
        {js : JsText} (userId : Z) (knowledgeData : Intent.t) (book : Sheet.Book) :
  let saved := Sheet.saveKnowledgeNote userId knowledgeData book in
  let noteId := fst saved in
  let target := fun row : Sheet.Row => bool_decide (parseInt (row !! 0%nat) = Some noteId) in
  (Sheet.notes book = [] ->
   noteId = 1 /\ forall n, Sheet.getKnowledgeNoteById n (snd saved) = Ret None) /\
  (Sheet.notes book <> [] ->
   noteId = Z.of_nat (length (Sheet.notes book)) /\
   (parseInt (Some (numberText noteId)) = Some noteId ->
    Sheet.findData target (Sheet.notes book) = None ->
    Sheet.getKnowledgeNoteById noteId (snd saved)
    = match parseNoteText (stringifyNote knowledgeData) with
      | Ret note => Ret (Some note)
      | Throw e => Throw e
      end)).
Proof.
  cbn zeta. unfold Sheet.saveKnowledgeNote. cbn [fst snd]. split.
  - intros ->. split; [done|]. intros n. reflexivity.
  - intros Hne. destruct (Sheet.notes book) as [|heading rest] eqn:E; [done|].
    split; [done|]. intros Hid Hnone.
    unfold Sheet.getKnowledgeNoteById. cbn [Sheet.notes].
    rewrite (findData_new _ _ _ Hnone) by (done || by apply bool_decide_eq_true).
    reflexivity.
Qed.

Lemma saveKnowledgeNote_round_trip_witness :
  Sheet.getKnowledgeNoteById
    (js := Run.js) 1 (snd (Sheet.saveKnowledgeNote (js := Run.js) 1 Run.lecture Run.book))
  = Ret (Some (Run.noteText Run.lecture)) /\
  Sheet.getKnowledgeNoteById
    (js := Run.js) 1 (snd (Sheet.saveKnowledgeNote (js := Run.js) 1 Run.lecture Run.emptyBook))
  = Ret None.
Proof.
  split.
  - pose proof (saveKnowledgeNote_round_trip (js := Run.js) 1 Run.lecture Run.book) as H.
    cbn zeta in H. destruct H as (_ & H).
    destruct H as (_ & H); [discriminate|]. apply H; reflexivity.
  - pose proof (saveKnowledgeNote_round_trip (js := Run.js) 1 Run.lecture Run.emptyBook) as H.
    cbn zeta in H. destruct H as (H & _).
    destruct H as (_ & H); [reflexivity|]. apply H.
Defined.


(** X28.  Filing a note under an objective never changes what a note
    reads as, whatever the service answers: it leaves the users and the
    objectives alone, keeps the number of notes, and every id is answered
    by [getKnowledgeNoteById] afterwards as it was before.  It returns when
    the service carries out the read and the update; when the service does
    not carry out the read, or the update of a note that is in the table,
    it throws what the service reports and nothing is changed. *)
Theorem linkNoteToObjective_keeps_notes
        {js : JsText} (api : Sheet.Api) (noteId objectiveId : Z) (book : Sheet.Book) :
  let run := Sheet.linkNoteToObjective api noteId objectiveId book in
  let inTable :=
    is_Some (Sheet.findData (fun row => bool_decide (parseInt (row !! 0%nat) = Some noteId))
                            (Sheet.notes book)) in
  (Sheet.users (snd run) = Sheet.users book /\
   Sheet.objectives (snd run) = Sheet.objectives book /\
   length (Sheet.notes (snd run)) = length (Sheet.notes book) /\
   forall n, Sheet.getKnowledgeNoteById n (snd run) = Sheet.getKnowledgeNoteById n book) /\
  match Sheet.get api, Sheet.update api with
  | Ret _, Ret _ => fst run = Ret tt
  | Ret _, Throw e => (inTable -> run = (Throw e, book)) /\ (~ inTable -> run = (Ret tt, book))
  | Throw e, _ => run = (Throw e, book)
  end.
Proof.
  cbn zeta. unfold Sheet.linkNoteToObjective.
  destruct (Sheet.get api) as [[]|e]; [|done].
  destruct (Sheet.findData _ (Sheet.notes book)) as [[i row]|] eqn:Hfind.
  2: { split; [done|]. destruct (Sheet.update api); [done|].
       split; [by intros [? ?] | done]. }
  destruct (Sheet.update api) as [[]|e].
  2: { split; [done|]. split; [done|]. intros H. exfalso. apply H. eauto. }
  unfold Sheet.findData in Hfind.
  pose proof (findRow_Some _ _ _ _ _ Hfind) as (Hle & Hrow & Hp & _).
  apply bool_decide_eq_true in Hp.
  assert (Sheet.notes book !! i = Some row) as Hi.
  { rewrite lookup_drop in Hrow. rewrite <- Hrow. f_equal. lia. }
  destruct (updateCell_lookup (Z.of_nat i + 1) 2 (numberText objectiveId)
                              (Sheet.notes book) i row eq_refl Hi)
    as (rows' & Hup & Hlen & Hrow' & Hother).
  rewrite Hup. cbn [fst snd Sheet.users Sheet.objectives Sheet.notes].
  split; [|done].
  split; [done|]. split; [done|]. split; [done|].
  destruct (parseInt_Some _ _ Hp) as (first & Hfirst).
  assert (0 < length row)%nat as Hlen0 by (by apply lookup_lt_Some in Hfirst).
  assert (forall k x x', Sheet.notes book !! k = Some x -> rows' !! k = Some x' ->
                         x' !! 0%nat = x !! 0%nat /\ x' !! 5%nat = x !! 5%nat) as Hsame.
  { intros k x x' Hx Hx'. destruct (decide (k = i)) as [->|Hk].
    - assert (x = row) as -> by congruence.
      assert (x' = Sheet.setCell 2 (numberText objectiveId) row) as -> by congruence.
      split; [by rewrite setCell_lookup_ne by lia|].
      unfold Sheet.setCell. destruct (2 <? length row)%nat eqn:Hl.
      + by rewrite list_lookup_insert_ne.
      + apply Nat.ltb_ge in Hl. rewrite (lookup_ge_None_2 row) by lia.
        apply lookup_ge_None_2. rewrite !length_app, length_replicate. cbn. lia.
    - rewrite Hother in Hx' by done. rewrite Hx in Hx'. by injection Hx' as <-. }
  intros n. unfold Sheet.getKnowledgeNoteById, Sheet.findData. cbn [Sheet.notes].
  pose proof (findRow_same_index
                (fun row => bool_decide (parseInt (row !! 0%nat) = Some n)) 1
                (drop 1 (Sheet.notes book)) (drop 1 rows')) as Hsearch.
  assert (length (drop 1 rows') = length (drop 1 (Sheet.notes book))) as Hl1
      by (by rewrite !length_drop, Hlen).
  specialize (Hsearch Hl1).
  assert (forall k x x', drop 1 (Sheet.notes book) !! k = Some x ->
                         drop 1 rows' !! k = Some x' ->
                         bool_decide (parseInt (x' !! 0%nat) = Some n)
                         = bool_decide (parseInt (x !! 0%nat) = Some n)) as Hp1.
  { intros k x x'. rewrite !lookup_drop. intros Hx Hx'.
    by destruct (Hsame _ _ _ Hx Hx') as [-> _]. }
  specialize (Hsearch Hp1). revert Hsearch.
  generalize (Sheet.findRow
                (fun row : Sheet.Row => bool_decide (parseInt (row !! 0%nat) = Some n)) 1
                (drop 1 (Sheet.notes book))).
  intros [[j found]|].
  - cbv beta iota. intros (found' & -> & Hl' & Hl).
    rewrite !lookup_drop in *.
    by destruct (Hsame _ _ _ Hl Hl') as [_ ->].
  - by intros ->.
Qed.


Lemma drop_1_app {A : Type} (l : list A) (x : A) :
  l <> [] -> drop 1 (l ++ [x]) = drop 1 l ++ [x].
Proof. by destruct l. Qed.

(** X29.  The users the weekly review goes through, after a new LINE user
    was added: with the heading row in place, the users listed before
    followed by the new one, without a state (the id text and the LINE id
    are not empty); on an empty table the new row takes the place of the
    heading and no user is listed. *)
Theorem getAllUsers_lists_new_user
        {js : JsText} (now : Z) (lineUserId : string) (book : Sheet.Book) :
  Sheet.findData (fun row => bool_decide (row !! 1%nat = Some lineUserId))
                 (Sheet.users book) = None ->
  let n := Z.of_nat (length (Sheet.users book)) in
  let created := Sheet.findOrCreateUser now lineUserId book in
  (Sheet.users book <> [] -> numberText n <> "" -> lineUserId <> "" ->
   Sheet.getAllUsers (snd created)
   = Sheet.getAllUsers book
     ++ [{| Sheet.SheetUser.id := parseInt (Some (numberText n));
            Sheet.SheetUser.line_user_id := lineUserId;
            Sheet.SheetUser.state_json := json_absent |}]) /\
  (Sheet.users book = [] -> Sheet.getAllUsers (snd created) = []).
Proof.
  intros Hnew. cbn zeta. unfold Sheet.findOrCreateUser. rewrite Hnew. cbn [snd]. split.
  - intros Hne Hid Hline. unfold Sheet.getAllUsers. cbn [Sheet.users].
    rewrite drop_1_app by done. rewrite omap_app. f_equal.
    cbn [omap list_omap lookup list_lookup JsString.truthy].
    destruct (String.eqb_spec (numberText (Z.of_nat (length (Sheet.users book)))) "");
      [done|].
    destruct (String.eqb_spec lineUserId ""); [done|].
    reflexivity.
  - intros Hempty. unfold Sheet.getAllUsers. cbn [Sheet.users]. by rewrite Hempty.
Qed.

Lemma getAllUsers_lists_new_user_witness :
  Sheet.getAllUsers (js := Run.js)
                    (snd (Sheet.findOrCreateUser (js := Run.js) 0 "U9" Run.book))
  = Sheet.getAllUsers (js := Run.js) Run.book
    ++ [{| Sheet.SheetUser.id := Some 2;
           Sheet.SheetUser.line_user_id := "U9";
           Sheet.SheetUser.state_json := json_absent |}].
Proof.
  pose proof (getAllUsers_lists_new_user (js := Run.js) 0 "U9" Run.book eq_refl) as H.
  cbn zeta in H. destruct H as (H & _). apply H; discriminate.
Defined.


(** X30.  The objectives the weekly review reads for a user, after one was
    created for that user (whose id reads back from its text): with the
    heading row in place, the active objectives listed before followed by
    the new one; on an empty table the new row takes the place of the
    heading and nothing is listed. *)
Theorem getActiveObjectivesByUserId_lists_created
        {js : JsText} (userId : Z) (title : string) (dueDate : option string)
        (book : Sheet.Book) :
  parseInt (Some (numberText userId)) = Some userId ->
  let newObjectiveId := Z.of_nat (length (Sheet.objectives book)) + 100 in
  let created := Sheet.createLearningObjective userId title dueDate book in
  (Sheet.objectives book <> [] ->
   Sheet.getActiveObjectivesByUserId userId (snd created)
   = Sheet.getActiveObjectivesByUserId userId book
     ++ [{| Sheet.Stored.objective_id := parseInt (Some (numberText newObjectiveId));
            Sheet.Stored.user_id := Some userId;
            Sheet.Stored.title := Some title;
            Sheet.Stored.status := Some "In Progress";
            Sheet.Stored.due_date := Sheet.orNull dueDate;
            Sheet.Stored.gcal_event_ids := None |}]) /\
  (Sheet.objectives book = [] ->
   Sheet.getActiveObjectivesByUserId userId (snd created) = []).
Proof.
  intros Hid. cbn zeta. unfold Sheet.createLearningObjective. cbn [snd]. split.
  - intros Hne. unfold Sheet.getActiveObjectivesByUserId. cbn [Sheet.objectives].
    rewrite drop_1_app by done. rewrite List.filter_app, map_app. f_equal.
    cbn [List.filter lookup list_lookup]. rewrite Hid.
    rewrite !bool_decide_eq_true_2 by done. cbn [andb map lookup list_lookup].
    by rewrite Hid, orNull_or_empty.
  - intros Hempty. unfold Sheet.getActiveObjectivesByUserId. cbn [Sheet.objectives].
    by rewrite Hempty.
Qed.

Lemma getActiveObjectivesByUserId_lists_created_witness :
  Sheet.getActiveObjectivesByUserId
    (js := Run.js) 1
    (snd (Sheet.createLearningObjective (js := Run.js) 1 "Thesis" None Run.book))
  = Sheet.getActiveObjectivesByUserId (js := Run.js) 1 Run.book
    ++ [{| Sheet.Stored.objective_id := Some 102;
           Sheet.Stored.user_id := Some 1;
           Sheet.Stored.title := Some "Thesis";
           Sheet.Stored.status := Some "In Progress";
           Sheet.Stored.due_date := None;
           Sheet.Stored.gcal_event_ids := None |}].
Proof.
  pose proof (getActiveObjectivesByUserId_lists_created
                (js := Run.js) 1 "Thesis" None Run.book eq_refl) as H.
  cbn zeta in H. destruct H as (H & _). apply H. discriminate.
Defined.

